(** * Software-development-principles: the DRY and SOLID example programs

    A shallow embedding of the example programs of the repository:
    - [DRY/examples/dry_javascript.js]  (module [JS]),
    - [DRY/examples/dry_typescript.ts]  (module [TS]),
    - [SOLID/examples/javascript.js] and its TypeScript twin (module [SOLID]).

    The programs print to the console, draw random identifiers, read the
    clock and throw [Error]s; all of that is threaded explicitly through a
    state-and-exception monad [Exec] over a [World]. *)

From Stdlib Require Import String Ascii List ZArith Bool Lia DecimalString.
From stdpp Require Import gmap strings.
Import ListNotations.

Local Open Scope string_scope.
Local Open Scope Z_scope.

(** ** JavaScript strings

    A string is a sequence of UTF-16 code units; the embedding keeps the code
    units below 256 (Basic Latin and Latin-1 Supplement), one [ascii] each.
    [String.length] is then the [length] property. *)

Module JSString.

Definition code (c : ascii) : nat := nat_of_ascii c.

Definition between (lo hi : nat) (c : ascii) : bool :=
  (Nat.leb lo (code c) && Nat.leb (code c) hi)%bool.

(** [s.length] as a JavaScript number. *)
Definition length (s : string) : Z := Z.of_nat (String.length s).

(** Truthiness of a string: only the empty string is falsy. *)
Definition truthy (s : string) : bool :=
  match s with EmptyString => false | String _ _ => true end.

(** [String.prototype.toLowerCase] on one code unit: A-Z and the Latin-1
    capitals U+00C0..U+00DE (the multiplication sign U+00D7 excepted) move
    up by 32. *)
Definition toLowerCaseUnit (c : ascii) : ascii :=
  if (between 65 90 c
      || (between 192 222 c && negb (Nat.eqb (code c) 215)))%bool
  then ascii_of_nat (code c + 32)
  else c.

Fixpoint toLowerCase (s : string) : string :=
  match s with
  | EmptyString => EmptyString
  | String c s' => String (toLowerCaseUnit c) (toLowerCase s')
  end.

(** White space and line terminators below 256: TAB, LF, VT, FF, CR, SP
    and NBSP. *)
Definition isWhiteSpace (c : ascii) : bool :=
  (between 9 13 c || Nat.eqb (code c) 32 || Nat.eqb (code c) 160)%bool.

Fixpoint trimStart (s : string) : string :=
  match s with
  | EmptyString => EmptyString
  | String c s' => if isWhiteSpace c then trimStart s' else s
  end.

Fixpoint trimEnd (s : string) : string :=
  match s with
  | EmptyString => EmptyString
  | String c s' =>
      match trimEnd s' with
      | EmptyString => if isWhiteSpace c then EmptyString
                       else String c EmptyString
      | t => String c t
      end
  end.

(** [String.prototype.trim]. *)
Definition trim (s : string) : string := trimEnd (trimStart s).

(** The double-quote character, for JSON text. *)
Definition dquote : string := String (ascii_of_nat 34) EmptyString.

Definition quoted (s : string) : string := dquote ++ s ++ dquote.

(** Decimal rendering of an integral number. *)
Definition ofNumber (n : Z) : string := NilZero.string_of_int (Z.to_int n).

End JSString.

(** ** Regular expressions

    Patterns are matched with Brzozowski derivatives.  A [RegExp] value is a
    flagless pattern of the shape [/^body$/], as all patterns of the
    programs are; [test] is then a whole-string match and has no state
    ([lastIndex] is only used under the [g] and [y] flags). *)

Module RegExp.

Inductive re : Type :=
| Void
| Eps
| Class (p : ascii -> bool)
| Cat (r1 r2 : re)
| Alt (r1 r2 : re)
| Star (r : re).

Fixpoint nullable (r : re) : bool :=
  match r with
  | Void => false
  | Eps => true
  | Class _ => false
  | Cat r1 r2 => nullable r1 && nullable r2
  | Alt r1 r2 => nullable r1 || nullable r2
  | Star _ => true
  end.

Fixpoint deriv (c : ascii) (r : re) : re :=
  match r with
  | Void => Void
  | Eps => Void
  | Class p => if p c then Eps else Void
  | Cat r1 r2 =>
      if nullable r1
      then Alt (Cat (deriv c r1) r2) (deriv c r2)
      else Cat (deriv c r1) r2
  | Alt r1 r2 => Alt (deriv c r1) (deriv c r2)
  | Star r' => Cat (deriv c r') (Star r')
  end.

Fixpoint matches (r : re) (s : string) : bool :=
  match s with
  | EmptyString => nullable r
  | String c s' => matches (deriv c r) s'
  end.

Definition Plus (r : re) : re := Cat r (Star r).
Definition Chr (c : ascii) : re := Class (Ascii.eqb c).

(** The value of a regular-expression literal [/^body$/]. *)
Record t : Type := literal { body : re }.

Definition test (r : t) (s : string) : bool := matches (body r) s.

Definition lower (c : ascii) : bool := JSString.between 97 122 c.
Definition upper (c : ascii) : bool := JSString.between 65 90 c.
Definition digit (c : ascii) : bool := JSString.between 48 57 c.
Definition oneOf (cs : string) (c : ascii) : bool :=
  existsb (Ascii.eqb c) (list_ascii_of_string cs).

(** [[a-zA-Z0-9._%+-]] *)
Definition localChar (c : ascii) : bool :=
  lower c || upper c || digit c || oneOf "._%+-" c.
(** [[a-zA-Z0-9.-]] *)
Definition domainChar (c : ascii) : bool :=
  lower c || upper c || digit c || oneOf ".-" c.
(** [[a-zA-Z]] *)
Definition letter (c : ascii) : bool := lower c || upper c.

(** [/^[a-zA-Z0-9._%+-]+@[a-zA-Z0-9.-]+\.[a-zA-Z]{2,}$/] *)
Definition emailPattern : t :=
  literal
    (Cat (Plus (Class localChar))
      (Cat (Chr "@")
        (Cat (Plus (Class domainChar))
          (Cat (Chr ".")
            (Cat (Class letter) (Cat (Class letter) (Star (Class letter)))))))).

End RegExp.

(** ** Values of the programs *)

(** A property that holds a string or is absent ([undefined]). *)
Definition falsy (v : option string) : bool :=
  match v with
  | None => true
  | Some s => negb (JSString.truthy s)
  end.

(** [!value || value.length < minLength]; the length is only read of a
    truthy value, as [||] short-circuits. *)
Definition missingOrShorter (v : option string) (minLength : Z) : bool :=
  match v with
  | None => true
  | Some s => negb (JSString.truthy s) || (JSString.length s <? minLength)
  end.

(** [value && value.length < minLength]. *)
Definition givenAndShorter (v : option string) (minLength : Z) : bool :=
  match v with
  | None => false
  | Some s => JSString.truthy s && (JSString.length s <? minLength)
  end.

(** [value || ""]. *)
Definition orEmpty (v : option string) : string :=
  match v with
  | Some (String c s) => String c s
  | _ => ""
  end.

(** The string a property holds once a guard has found it truthy. *)
Definition str (v : option string) : string := orEmpty v.

Module UserData.
(** [interface UserData { email: string; name: string; password?: string }];
    the JavaScript callers may leave any of the three out. *)
Record t : Type := make {
  email : option string;
  name : option string;
  password : option string
}.
End UserData.

Module User.
(** [interface User extends UserData { id; createdAt?; updatedAt }] *)
Record t : Type := make {
  id : string;
  email : string;
  name : string;
  password : option string;
  createdAt : option string;
  updatedAt : string
}.
End User.

Record Error : Type := new_Error { message : string }.

Inductive ConsoleMethod : Type := c_log | c_info | c_warn | c_error.

Module ValidationConfig.
Record t : Type := make {
  emailMinLength : Z;
  nameMinLength : Z;
  passwordMinLength : Z;
  emailPattern : RegExp.t
}.
End ValidationConfig.

Module LoggingConfig.
Inductive Level : Type := info | warn | error.
Record t : Type := make { enabled : bool; level : Level }.
Definition method (l : Level) : ConsoleMethod :=
  match l with info => c_info | warn => c_warn | error => c_error end.
Definition levelName (l : Level) : string :=
  match l with info => "info" | warn => "warn" | error => "error" end.
End LoggingConfig.

Module UserManagerConfig.
Record t : Type := make {
  validation : ValidationConfig.t;
  logging : LoggingConfig.t
}.
End UserManagerConfig.

(** ** The world and the execution monad *)

(** What the programs touch outside their arguments: the console, the
    random source behind [Math.random], the clock behind [new Date()], and
    the two static fields of the TypeScript file. *)
Record World : Type := mkWorld {
  console : list (ConsoleMethod * string);
  randomIds : nat -> string;
  randomDraws : nat;
  clock : nat -> string;
  clockReads : nat;
  UserLogger_isEnabled : bool;
  UserManagerFactory_instances : gmap string UserManagerConfig.t
}.

Inductive Completion (A : Type) : Type :=
| Normal (a : A)
| Throw (e : Error).
Arguments Normal {A} a.
Arguments Throw {A} e.

Definition Exec (A : Type) : Type := World -> World * Completion A.

Definition ret {A} (a : A) : Exec A := fun w => (w, Normal a).

Definition bind {A B} (m : Exec A) (k : A -> Exec B) : Exec B :=
  fun w =>
    match m w with
    | (w', Normal a) => k a w'
    | (w', Throw e) => (w', Throw e)
    end.

Notation "'let*' x ':=' m 'in' k" := (bind m (fun x => k))
  (at level 10, x name, m at level 100, k at level 200).
Notation "'do' m 'then' k" := (bind m (fun _ => k))
  (at level 10, m at level 100, k at level 200).

(** [throw new Error(msg)] *)
Definition throw {A} (msg : string) : Exec A :=
  fun w => (w, Throw (new_Error msg)).

(** [if (c) { throw new Error(msg); }] *)
Definition throwIf (c : bool) (msg : string) : Exec unit :=
  if c then throw msg else ret tt.

(** [console[m](line)] *)
Definition console_call (m : ConsoleMethod) (line : string) : Exec unit :=
  fun w =>
    (mkWorld (console w ++ [(m, line)]) (randomIds w) (randomDraws w)
             (clock w) (clockReads w) (UserLogger_isEnabled w)
             (UserManagerFactory_instances w),
     Normal tt).

Definition console_log : string -> Exec unit := console_call c_log.

(** [Math.random().toString(36).substr(2, 9)]: the next draw of the
    random source. *)
Definition Math_random_id : Exec string :=
  fun w =>
    (mkWorld (console w) (randomIds w) (S (randomDraws w))
             (clock w) (clockReads w) (UserLogger_isEnabled w)
             (UserManagerFactory_instances w),
     Normal (randomIds w (randomDraws w))).

(** [new Date().toISOString()]: the next reading of the clock. *)
Definition Date_now_ISO : Exec string :=
  fun w =>
    (mkWorld (console w) (randomIds w) (randomDraws w)
             (clock w) (S (clockReads w)) (UserLogger_isEnabled w)
             (UserManagerFactory_instances w),
     Normal (clock w (clockReads w))).

Definition get_isEnabled : Exec bool :=
  fun w => (w, Normal (UserLogger_isEnabled w)).

Definition set_isEnabled (b : bool) : Exec unit :=
  fun w =>
    (mkWorld (console w) (randomIds w) (randomDraws w)
             (clock w) (clockReads w) b
             (UserManagerFactory_instances w),
     Normal tt).

Definition get_instances : Exec (gmap string UserManagerConfig.t) :=
  fun w => (w, Normal (UserManagerFactory_instances w)).

Definition set_instances (m : gmap string UserManagerConfig.t) : Exec unit :=
  fun w =>
    (mkWorld (console w) (randomIds w) (randomDraws w)
             (clock w) (clockReads w) (UserLogger_isEnabled w) m,
     Normal tt).

(** The outcome and the final world of a run. *)
Definition outcome {A} (r : World * Completion A) : Completion A := snd r.
Definition final {A} (r : World * Completion A) : World := fst r.

Definition throws {A} (r : World * Completion A) (msg : string) : Prop :=
  outcome r = Throw (new_Error msg).

Definition returns {A} (r : World * Completion A) (a : A) : Prop :=
  outcome r = Normal a.

(** The template literal [`User ${verb}: ${name} (${email})`]. *)
Definition userLine (verb : string) (u : User.t) : string :=
  "User " ++ verb ++ ": " ++ User.name u ++ " (" ++ User.email u ++ ")".

(** ** [dry_javascript.js] *)

Module JS.

Module UserManagerWET.

Definition createUser (userData : UserData.t) : Exec User.t :=
  do throwIf (missingOrShorter (UserData.email userData) 5)
       "Invalid email" then
  do throwIf (missingOrShorter (UserData.name userData) 2)
       "Invalid name" then
  do throwIf (missingOrShorter (UserData.password userData) 8)
       "Password too short" then
  let* id := Math_random_id in
  let* createdAt := Date_now_ISO in
  let* updatedAt := Date_now_ISO in
  let user :=
    User.make id
      (JSString.trim (JSString.toLowerCase (str (UserData.email userData))))
      (JSString.trim (str (UserData.name userData)))
      (UserData.password userData)
      (Some createdAt)
      updatedAt in
  do console_log (userLine "created" user) then
  ret user.

Definition updateUser (userId : string) (userData : UserData.t)
  : Exec User.t :=
  do throwIf (missingOrShorter (UserData.email userData) 5)
       "Invalid email" then
  do throwIf (missingOrShorter (UserData.name userData) 2)
       "Invalid name" then
  do throwIf (givenAndShorter (UserData.password userData) 8)
       "Password too short" then
  let* updatedAt := Date_now_ISO in
  let updatedUser :=
    User.make userId
      (JSString.trim (JSString.toLowerCase (str (UserData.email userData))))
      (JSString.trim (str (UserData.name userData)))
      (UserData.password userData)
      None
      updatedAt in
  do console_log (userLine "updated" updatedUser) then
  ret updatedUser.

End UserManagerWET.

Module VALIDATION_RULES.
Definition EMAIL_MIN_LENGTH : Z := 5.
Definition NAME_MIN_LENGTH : Z := 2.
Definition PASSWORD_MIN_LENGTH : Z := 8.
End VALIDATION_RULES.

Module ValidationUtils.

Definition validateEmail (email : option string) : Exec unit :=
  throwIf (missingOrShorter email VALIDATION_RULES.EMAIL_MIN_LENGTH)
    "Invalid email".

Definition validateName (name : option string) : Exec unit :=
  throwIf (missingOrShorter name VALIDATION_RULES.NAME_MIN_LENGTH)
    "Invalid name".

Definition validatePassword (password : option string) (required : bool)
  : Exec unit :=
  do throwIf
       (required
        && missingOrShorter password VALIDATION_RULES.PASSWORD_MIN_LENGTH)
       "Password too short" then
  throwIf
    (negb required
     && givenAndShorter password VALIDATION_RULES.PASSWORD_MIN_LENGTH)
    "Password too short".

End ValidationUtils.

Module FormattingUtils.
Definition formatEmail (email : string) : string :=
  JSString.trim (JSString.toLowerCase email).
Definition formatName (name : string) : string := JSString.trim name.
Definition generateId : Exec string := Math_random_id.
Definition getCurrentTimestamp : Exec string := Date_now_ISO.
End FormattingUtils.

Module UserLogger.
Definition logUserCreated (user : User.t) : Exec unit :=
  console_log (userLine "created" user).
Definition logUserUpdated (user : User.t) : Exec unit :=
  console_log (userLine "updated" user).
End UserLogger.

Module UserManagerDRY.

Definition validateUserData (userData : UserData.t) (isUpdate : bool)
  : Exec unit :=
  do ValidationUtils.validateEmail (UserData.email userData) then
  do ValidationUtils.validateName (UserData.name userData) then
  ValidationUtils.validatePassword (UserData.password userData)
    (negb isUpdate).

(** [formatUserData(userData, userId = null)] *)
Definition formatUserData (userData : UserData.t)
  (userId : option string) : Exec User.t :=
  let* timestamp := FormattingUtils.getCurrentTimestamp in
  let* id := (if falsy userId then FormattingUtils.generateId
              else ret (str userId)) in
  ret (User.make id
         (FormattingUtils.formatEmail (str (UserData.email userData)))
         (FormattingUtils.formatName (str (UserData.name userData)))
         (UserData.password userData)
         (if falsy userId then Some timestamp else None)
         timestamp).

Definition createUser (userData : UserData.t) : Exec User.t :=
  do validateUserData userData false then
  let* user := formatUserData userData None in
  do UserLogger.logUserCreated user then
  ret user.

Definition updateUser (userId : string) (userData : UserData.t)
  : Exec User.t :=
  do validateUserData userData true then
  let* updatedUser := formatUserData userData (Some userId) in
  do UserLogger.logUserUpdated updatedUser then
  ret updatedUser.

End UserManagerDRY.

(** The constructor argument of [ConfigurableUserManager]: every key may
    be left out. *)
Module PartialConfig.
Record Validation : Type := mkValidation {
  emailMinLength : option Z;
  nameMinLength : option Z;
  passwordMinLength : option Z
}.
Record Logging : Type := mkLogging { enabled : option bool }.
Record t : Type := make {
  validation : option Validation;
  logging : option Logging
}.
(** [{}] *)
Definition empty : t := make None None.
End PartialConfig.

Module Config.
Record Validation : Type := mkValidation {
  emailMinLength : Z;
  nameMinLength : Z;
  passwordMinLength : Z
}.
Record Logging : Type := mkLogging { enabled : bool }.
Record t : Type := make { validation : Validation; logging : Logging }.
End Config.

Module ConfigurableUserManager.

(** The object is its [config] field, set once by the constructor. *)
Definition t : Type := Config.t.

Definition override {A} (dflt : A) (o : option A) : A :=
  match o with Some a => a | None => dflt end.

Definition field {P A} (p : option P) (f : P -> option A) : option A :=
  match p with Some x => f x | None => None end.

(** [constructor(config = {})] *)
Definition new (config : PartialConfig.t) : t :=
  Config.make
    (Config.mkValidation
       (override 5 (field (PartialConfig.validation config)
                      PartialConfig.emailMinLength))
       (override 2 (field (PartialConfig.validation config)
                      PartialConfig.nameMinLength))
       (override 8 (field (PartialConfig.validation config)
                      PartialConfig.passwordMinLength)))
    (Config.mkLogging
       (override true (field (PartialConfig.logging config)
                         PartialConfig.enabled))).

Definition validate (field : string) (value : option string)
  (minLength : Z) : Exec unit :=
  throwIf (missingOrShorter value minLength) ("Invalid " ++ field).

Definition validateUserData (this : t) (userData : UserData.t)
  (isUpdate : bool) : Exec unit :=
  do validate "email" (UserData.email userData)
       (Config.emailMinLength (Config.validation this)) then
  do validate "name" (UserData.name userData)
       (Config.nameMinLength (Config.validation this)) then
  if negb isUpdate || negb (falsy (UserData.password userData))
  then validate "password" (UserData.password userData)
         (Config.passwordMinLength (Config.validation this))
  else ret tt.

(** [formatUserData(userData, userId = null)] *)
Definition formatUserData (userData : UserData.t)
  (userId : option string) : Exec User.t :=
  let* timestamp := FormattingUtils.getCurrentTimestamp in
  let* id := (if falsy userId then FormattingUtils.generateId
              else ret (str userId)) in
  ret (User.make id
         (FormattingUtils.formatEmail (str (UserData.email userData)))
         (FormattingUtils.formatName (str (UserData.name userData)))
         (UserData.password userData)
         (if falsy userId then Some timestamp else None)
         timestamp).

Definition log (this : t) (message : string) : Exec unit :=
  if Config.enabled (Config.logging this)
  then console_log message
  else ret tt.

Definition createUser (this : t) (userData : UserData.t) : Exec User.t :=
  do validateUserData this userData false then
  let* user := formatUserData userData None in
  do log this (userLine "created" user) then
  ret user.

Definition updateUser (this : t) (userId : string)
  (userData : UserData.t) : Exec User.t :=
  do validateUserData this userData true then
  let* updatedUser := formatUserData userData (Some userId) in
  do log this (userLine "updated" updatedUser) then
  ret updatedUser.

End ConfigurableUserManager.

End JS.

(** A world to run examples in: an empty console, logging on, no cached
    manager, and numbered identifiers and clock readings. *)
Definition world0 : World :=
  mkWorld []
    (fun n => "id" ++ JSString.ofNumber (Z.of_nat n))
    0%nat
    (fun n => "t" ++ JSString.ofNumber (Z.of_nat n))
    0%nat
    true
    ∅.

Definition john : UserData.t :=
  UserData.make (Some "john@example.com") (Some "John Doe")
    (Some "password123").

(** ** [dry_typescript.ts] *)

Module TS.

Module UserManagerWET.

Definition createUser (userData : UserData.t) : Exec User.t :=
  do throwIf (missingOrShorter (UserData.email userData) 5)
       "Invalid email" then
  do throwIf (missingOrShorter (UserData.name userData) 2)
       "Invalid name" then
  do throwIf (missingOrShorter (UserData.password userData) 8)
       "Password too short" then
  let* id := Math_random_id in
  let* createdAt := Date_now_ISO in
  let* updatedAt := Date_now_ISO in
  let user :=
    User.make id
      (JSString.trim (JSString.toLowerCase (str (UserData.email userData))))
      (JSString.trim (str (UserData.name userData)))
      (UserData.password userData)
      (Some createdAt)
      updatedAt in
  do console_log (userLine "created" user) then
  ret user.

Definition updateUser (userId : string) (userData : UserData.t)
  : Exec User.t :=
  do throwIf (missingOrShorter (UserData.email userData) 5)
       "Invalid email" then
  do throwIf (missingOrShorter (UserData.name userData) 2)
       "Invalid name" then
  do throwIf (givenAndShorter (UserData.password userData) 8)
       "Password too short" then
  let* updatedAt := Date_now_ISO in
  let updatedUser :=
    User.make userId
      (JSString.trim (JSString.toLowerCase (str (UserData.email userData))))
      (JSString.trim (str (UserData.name userData)))
      (UserData.password userData)
      None
      updatedAt in
  do console_log (userLine "updated" updatedUser) then
  ret updatedUser.

End UserManagerWET.

Definition VALIDATION_RULES : ValidationConfig.t :=
  ValidationConfig.make 5 2 8 RegExp.emailPattern.

Module ValidationUtils.

Definition validateEmail (email : option string) : Exec unit :=
  do throwIf
       (missingOrShorter email
          (ValidationConfig.emailMinLength VALIDATION_RULES))
       "Invalid email" then
  throwIf
    (negb (RegExp.test (ValidationConfig.emailPattern VALIDATION_RULES)
             (str email)))
    "Invalid email format".

Definition validateName (name : option string) : Exec unit :=
  throwIf
    (missingOrShorter name (ValidationConfig.nameMinLength VALIDATION_RULES))
    "Invalid name".

Definition validatePassword (password : string) (required : bool)
  : Exec unit :=
  do throwIf
       (required
        && missingOrShorter (Some password)
             (ValidationConfig.passwordMinLength VALIDATION_RULES))
       "Password too short" then
  throwIf
    (negb required
     && givenAndShorter (Some password)
          (ValidationConfig.passwordMinLength VALIDATION_RULES))
    "Password too short".

(** [validateField<T>(value, fieldName, validator, errorMessage?)]; the
    validator is the caller's and may print or throw. *)
Definition validateField {T : Type} (value : T) (fieldName : string)
  (validator : T -> Exec bool) (errorMessage : option string) : Exec unit :=
  let* valid := validator value in
  throwIf (negb valid)
    (if falsy errorMessage then "Invalid " ++ fieldName
     else str errorMessage).

End ValidationUtils.

Module FormattingUtils.
Definition formatEmail (email : string) : string :=
  JSString.trim (JSString.toLowerCase email).
Definition formatName (name : string) : string := JSString.trim name.
Definition generateId : Exec string := Math_random_id.
Definition getCurrentTimestamp : Exec string := Date_now_ISO.
End FormattingUtils.

Module UserLogger.

(** [private static isEnabled: boolean = true] is the world's
    [UserLogger_isEnabled]. *)
Definition configure (enabled : bool) : Exec unit := set_isEnabled enabled.

Definition logUserCreated (user : User.t) : Exec unit :=
  let* isEnabled := get_isEnabled in
  if isEnabled then console_log (userLine "created" user) else ret tt.

Definition logUserUpdated (user : User.t) : Exec unit :=
  let* isEnabled := get_isEnabled in
  if isEnabled then console_log (userLine "updated" user) else ret tt.

Definition log (message : string) (level : LoggingConfig.Level)
  : Exec unit :=
  let* isEnabled := get_isEnabled in
  if isEnabled then console_call (LoggingConfig.method level) message
  else ret tt.

End UserLogger.

Module BaseUserManager.

Definition validateUserData (userData : UserData.t) (isUpdate : bool)
  : Exec unit :=
  do ValidationUtils.validateEmail (UserData.email userData) then
  do ValidationUtils.validateName (UserData.name userData) then
  ValidationUtils.validatePassword (orEmpty (UserData.password userData))
    (negb isUpdate).

Definition formatUserData (userData : UserData.t)
  (userId : option string) : Exec User.t :=
  let* timestamp := FormattingUtils.getCurrentTimestamp in
  let* id := (if falsy userId then FormattingUtils.generateId
              else ret (str userId)) in
  let user :=
    User.make id
      (FormattingUtils.formatEmail (str (UserData.email userData)))
      (FormattingUtils.formatName (str (UserData.name userData)))
      (UserData.password userData)
      None
      timestamp in
  if falsy userId
  then ret (User.make (User.id user) (User.email user) (User.name user)
              (User.password user) (Some timestamp) (User.updatedAt user))
  else ret user.

End BaseUserManager.

Module UserManagerDRY.

Definition createUser (userData : UserData.t) : Exec User.t :=
  do BaseUserManager.validateUserData userData false then
  let* user := BaseUserManager.formatUserData userData None in
  do UserLogger.logUserCreated user then
  ret user.

Definition updateUser (userId : string) (userData : UserData.t)
  : Exec User.t :=
  do BaseUserManager.validateUserData userData true then
  let* updatedUser :=
    BaseUserManager.formatUserData userData (Some userId) in
  do UserLogger.logUserUpdated updatedUser then
  ret updatedUser.

End UserManagerDRY.

(** [Partial<UserManagerConfig>] as the callers use it: any key, at either
    depth, may be left out. *)
Module PartialConfig.
Record Validation : Type := mkValidation {
  emailMinLength : option Z;
  nameMinLength : option Z;
  passwordMinLength : option Z;
  emailPattern : option RegExp.t
}.
Record Logging : Type := mkLogging {
  enabled : option bool;
  level : option LoggingConfig.Level
}.
Record t : Type := make {
  validation : option Validation;
  logging : option Logging
}.
(** [{}] *)
Definition empty : t := make None None.
End PartialConfig.

Module ConfigurableUserManager.

(** The object is its [config] field, set once by the constructor. *)
Definition t : Type := UserManagerConfig.t.

Definition override {A} (dflt : A) (o : option A) : A :=
  match o with Some a => a | None => dflt end.

Definition field {P A} (p : option P) (f : P -> option A) : option A :=
  match p with Some x => f x | None => None end.

(** [constructor(config?: Partial<UserManagerConfig>)] *)
Definition new (config : option PartialConfig.t) : t :=
  let validation := field config PartialConfig.validation in
  let logging := field config PartialConfig.logging in
  UserManagerConfig.make
    (ValidationConfig.make
       (override 5 (field validation PartialConfig.emailMinLength))
       (override 2 (field validation PartialConfig.nameMinLength))
       (override 8 (field validation PartialConfig.passwordMinLength))
       (override RegExp.emailPattern
          (field validation PartialConfig.emailPattern)))
    (LoggingConfig.make
       (override true (field logging PartialConfig.enabled))
       (override LoggingConfig.info (field logging PartialConfig.level))).

Definition validateField (fieldName : string) (value : option string)
  (minLength : Z) : Exec unit :=
  throwIf (missingOrShorter value minLength) ("Invalid " ++ fieldName).

Definition validateUserData (this : t) (userData : UserData.t)
  (isUpdate : bool) : Exec unit :=
  let validation := UserManagerConfig.validation this in
  do validateField "email" (UserData.email userData)
       (ValidationConfig.emailMinLength validation) then
  do throwIf
       (negb (RegExp.test (ValidationConfig.emailPattern validation)
                (str (UserData.email userData))))
       "Invalid email format" then
  do validateField "name" (UserData.name userData)
       (ValidationConfig.nameMinLength validation) then
  if negb isUpdate || negb (falsy (UserData.password userData))
  then validateField "password"
         (Some (orEmpty (UserData.password userData)))
         (ValidationConfig.passwordMinLength validation)
  else ret tt.

Definition formatUserData (userData : UserData.t)
  (userId : option string) : Exec User.t :=
  let* timestamp := FormattingUtils.getCurrentTimestamp in
  let* id := (if falsy userId then FormattingUtils.generateId
              else ret (str userId)) in
  let user :=
    User.make id
      (FormattingUtils.formatEmail (str (UserData.email userData)))
      (FormattingUtils.formatName (str (UserData.name userData)))
      (UserData.password userData)
      None
      timestamp in
  if falsy userId
  then ret (User.make (User.id user) (User.email user) (User.name user)
              (User.password user) (Some timestamp) (User.updatedAt user))
  else ret user.

Definition log (this : t) (message : string) : Exec unit :=
  let logging := UserManagerConfig.logging this in
  if LoggingConfig.enabled logging
  then console_call (LoggingConfig.method (LoggingConfig.level logging))
         message
  else ret tt.

Definition createUser (this : t) (userData : UserData.t) : Exec User.t :=
  do validateUserData this userData false then
  let* user := formatUserData userData None in
  do log this (userLine "created" user) then
  ret user.

Definition updateUser (this : t) (userId : string)
  (userData : UserData.t) : Exec User.t :=
  do validateUserData this userData true then
  let* updatedUser := formatUserData userData (Some userId) in
  do log this (userLine "updated" updatedUser) then
  ret updatedUser.

End ConfigurableUserManager.

(** [TemplateUserManager.processUser] with the four methods of
    [ConcreteUserManager] in place of the abstract ones. *)
Module ConcreteUserManager.

Definition validateInput (userData : UserData.t) (isUpdate : bool)
  : Exec unit :=
  do ValidationUtils.validateEmail (UserData.email userData) then
  do ValidationUtils.validateName (UserData.name userData) then
  ValidationUtils.validatePassword (orEmpty (UserData.password userData))
    (negb isUpdate).

Definition formatUser (userData : UserData.t) (userId : option string)
  : Exec User.t :=
  let* timestamp := FormattingUtils.getCurrentTimestamp in
  let* id := (if falsy userId then FormattingUtils.generateId
              else ret (str userId)) in
  ret (User.make id
         (FormattingUtils.formatEmail (str (UserData.email userData)))
         (FormattingUtils.formatName (str (UserData.name userData)))
         (UserData.password userData)
         (if falsy userId then Some timestamp else None)
         timestamp).

Definition logOperation (user : User.t) (isUpdate : bool) : Exec unit :=
  let operation := if isUpdate then "updated" else "created" in
  console_log (userLine operation user).

Definition performAdditionalOperations (user : User.t) : Exec unit :=
  console_log
    ("Performing additional operations for user: " ++ User.id user).

Definition processUser (userData : UserData.t) (userId : option string)
  : Exec User.t :=
  do validateInput userData (negb (falsy userId)) then
  let* user := formatUser userData userId in
  do logOperation user (negb (falsy userId)) then
  do performAdditionalOperations user then
  ret user.

Definition createUser (userData : UserData.t) : Exec User.t :=
  processUser userData None.

Definition updateUser (userId : string) (userData : UserData.t)
  : Exec User.t :=
  processUser userData (Some userId).

End ConcreteUserManager.

(** [abstract class TemplateUserManager]: a subclass supplies the three
    abstract methods and may override the hook. *)
Module TemplateUserManager.

Class Subclass : Type := {
  validateInput : UserData.t -> bool -> Exec unit;
  formatUser : UserData.t -> option string -> Exec User.t;
  logOperation : User.t -> bool -> Exec unit;
  performAdditionalOperations : User.t -> Exec unit
}.

(** The hook as the base class has it: "Default implementation - do
    nothing". *)
Definition defaultAdditionalOperations (user : User.t) : Exec unit := ret tt.

(** The template method. *)
Definition processUser `{Subclass} (userData : UserData.t)
  (userId : option string) : Exec User.t :=
  do validateInput userData (negb (falsy userId)) then
  let* user := formatUser userData userId in
  do logOperation user (negb (falsy userId)) then
  do performAdditionalOperations user then
  ret user.

End TemplateUserManager.

(** [class ConcreteUserManager extends TemplateUserManager] *)
#[export] Instance ConcreteUserManager_Subclass : TemplateUserManager.Subclass := {|
  TemplateUserManager.validateInput := ConcreteUserManager.validateInput;
  TemplateUserManager.formatUser := ConcreteUserManager.formatUser;
  TemplateUserManager.logOperation := ConcreteUserManager.logOperation;
  TemplateUserManager.performAdditionalOperations :=
    ConcreteUserManager.performAdditionalOperations
|}.

(** [class GenericValidator<T>].  The object is its two fields; [addRule]
    pushes onto [rules] and returns [this], so the value it returns is the
    object after the push.  A rule is the caller's and may print or throw. *)
Module GenericValidator.

Record t (T : Type) : Type := make {
  rules : list (T -> Exec bool);
  errorMessage : string
}.
Arguments make {T} rules errorMessage.
Arguments rules {T} _.
Arguments errorMessage {T} _.

(** [constructor(errorMessage)], with [rules = []]. *)
Definition new {T : Type} (errorMessage : string) : t T :=
  make [] errorMessage.

Definition addRule {T : Type} (this : t T) (rule : T -> Exec bool) : t T :=
  make (rules this ++ [rule]) (errorMessage this).

(** [for (const rule of rules) { if (!rule(value)) throw new Error(msg); }] *)
Fixpoint validateRules {T : Type} (rs : list (T -> Exec bool))
  (msg : string) (value : T) : Exec unit :=
  match rs with
  | [] => ret tt
  | rule :: rs' =>
      let* ok := rule value in
      do throwIf (negb ok) msg then
      validateRules rs' msg value
  end.

Definition validate {T : Type} (this : t T) (value : T) : Exec unit :=
  validateRules (rules this) (errorMessage this) value.

End GenericValidator.

(** The decorator [LogExecution], applied to [method] under the name
    [propertyName]: the replacement of [descriptor.value]. *)
Definition LogExecution {Args R : Type} (propertyName : string)
  (method : Args -> Exec R) : Args -> Exec R :=
  fun args =>
    do console_log ("Executing " ++ propertyName ++ "...") then
    let* result := method args in
    do console_log ("Completed " ++ propertyName) then
    ret result.

(** The decorator factory [ValidateInput(validationFn)], applied to
    [method]; the arguments include the instance. *)
Definition ValidateInput {Args R : Type} (validationFn : Args -> Exec unit)
  (method : Args -> Exec R) : Args -> Exec R :=
  fun args =>
    do validationFn args then
    method args.

(** [JSON.stringify] of a partial configuration.  Keys are written in the
    order of the interface declarations; a [RegExp] has no enumerable
    property of its own and is written [{}]. *)
Module JSON.

Fixpoint join (parts : list string) : string :=
  match parts with
  | [] => ""
  | [p] => p
  | p :: ps => p ++ "," ++ join ps
  end.

Definition member {A} (key : string) (value : option A)
  (show : A -> string) : list string :=
  match value with
  | Some a => [JSString.quoted key ++ ":" ++ show a]
  | None => []
  end.

Definition object (members : list string) : string :=
  "{" ++ join members ++ "}".

Definition ofBoolean (b : bool) : string :=
  if b then "true" else "false".

Definition ofRegExp (r : RegExp.t) : string := "{}".

Definition ofValidation (v : PartialConfig.Validation) : string :=
  object
    (member "emailMinLength" (PartialConfig.emailMinLength v)
       JSString.ofNumber
     ++ member "nameMinLength" (PartialConfig.nameMinLength v)
          JSString.ofNumber
     ++ member "passwordMinLength" (PartialConfig.passwordMinLength v)
          JSString.ofNumber
     ++ member "emailPattern" (PartialConfig.emailPattern v) ofRegExp).

Definition ofLogging (l : PartialConfig.Logging) : string :=
  object
    (member "enabled" (PartialConfig.enabled l) ofBoolean
     ++ member "level" (PartialConfig.level l)
          (fun lv => JSString.quoted (LoggingConfig.levelName lv))).

Definition stringify (c : PartialConfig.t) : string :=
  object
    (member "validation" (PartialConfig.validation c) ofValidation
     ++ member "logging" (PartialConfig.logging c) ofLogging).

End JSON.

Module UserManagerFactory.

Inductive ManagerType : Type := basic | strict | lenient.

Definition typeName (type : ManagerType) : string :=
  match type with
  | basic => "basic"
  | strict => "strict"
  | lenient => "lenient"
  end.

(** The [configs] table. *)
Definition configs (type : ManagerType) : PartialConfig.t :=
  match type with
  | basic => PartialConfig.empty
  | strict =>
      PartialConfig.make
        (Some (PartialConfig.mkValidation (Some 8) None (Some 12) None))
        None
  | lenient =>
      PartialConfig.make
        (Some (PartialConfig.mkValidation None (Some 1) (Some 6) None))
        None
  end.

(** [{ ...a, ...b }]: a key of [b] replaces the same key of [a]. *)
Definition spread (a : PartialConfig.t) (b : option PartialConfig.t)
  : PartialConfig.t :=
  match b with
  | None => a
  | Some b =>
      PartialConfig.make
        (match PartialConfig.validation b with
         | Some v => Some v
         | None => PartialConfig.validation a
         end)
        (match PartialConfig.logging b with
         | Some l => Some l
         | None => PartialConfig.logging a
         end)
  end.

Definition cacheKey (type : ManagerType)
  (customConfig : option PartialConfig.t) : string :=
  typeName type ++ "_"
  ++ JSON.stringify
       (match customConfig with
        | Some c => c
        | None => PartialConfig.empty
        end).

(** [private static instances = new Map<string, ConfigurableUserManager>()]
    is the world's [UserManagerFactory_instances]. *)
Definition createManager (type : ManagerType)
  (customConfig : option PartialConfig.t)
  : Exec ConfigurableUserManager.t :=
  let key := cacheKey type customConfig in
  let* instances := get_instances in
  match instances !! key with
  | Some cached => ret cached
  | None =>
      let config := spread (configs type) customConfig in
      let manager := ConfigurableUserManager.new (Some config) in
      do set_instances (<[key := manager]> instances) then
      ret manager
  end.

End UserManagerFactory.

End TS.

(** ** [SOLID/examples/javascript.js] and its TypeScript twin *)

Module SOLID.

Record Message : Type := new_Message { content : string }.

(** [interface Sender { send(message: Message): void }]; in the JavaScript
    file the interface is the convention that a sender has a [send]. *)
Record Sender : Type := { send : Message -> Exec unit }.

Definition EmailSender : Sender :=
  {| send message := console_log ("Sending EMAIL: " ++ content message) |}.

Definition SMSSender : Sender :=
  {| send message := console_log ("Sending SMS: " ++ content message) |}.

Definition PushSender : Sender :=
  {| send message := console_log ("Sending PUSH: " ++ content message) |}.

(** [Array.prototype.forEach] with a callback that may throw. *)
Fixpoint forEach {A} (l : list A) (callback : A -> Exec unit) : Exec unit :=
  match l with
  | [] => ret tt
  | x :: l' => do callback x then forEach l' callback
  end.

Module NotificationService.
(** The object is its [senders] field. *)
Definition t : Type := list Sender.
Definition new (senders : list Sender) : t := senders.
Definition notify (this : t) (message : Message) : Exec unit :=
  forEach this (fun sender => send sender message).
End NotificationService.

(** The three sender classes of the example. *)
Inductive SenderClass : Type := Email | SMS | Push.

Definition instance (c : SenderClass) : Sender :=
  match c with
  | Email => EmailSender
  | SMS => SMSSender
  | Push => PushSender
  end.

Definition channel (c : SenderClass) : string :=
  match c with
  | Email => "EMAIL"
  | SMS => "SMS"
  | Push => "PUSH"
  end.

(** The line a sender of class [c] prints for [message]. *)
Definition sentLine (message : Message) (c : SenderClass)
  : ConsoleMethod * string :=
  (c_log, "Sending " ++ channel c ++ ": " ++ content message).

End SOLID.

(** ** Operations of the examples, for statements about pairs of calls *)

Inductive Value : Type :=
| VUser (u : User.t)
| VUndefined
| VManagerJS (m : JS.ConfigurableUserManager.t)
| VManagerTS (m : TS.ConfigurableUserManager.t).

Inductive Operation : Type :=
| JS_WET_createUser (userData : UserData.t)
| JS_WET_updateUser (userId : string) (userData : UserData.t)
| JS_DRY_createUser (userData : UserData.t)
| JS_DRY_updateUser (userId : string) (userData : UserData.t)
| JS_Configurable_new (config : JS.PartialConfig.t)
| JS_Configurable_createUser (this : JS.ConfigurableUserManager.t)
    (userData : UserData.t)
| JS_Configurable_updateUser (this : JS.ConfigurableUserManager.t)
    (userId : string) (userData : UserData.t)
| TS_WET_createUser (userData : UserData.t)
| TS_WET_updateUser (userId : string) (userData : UserData.t)
| TS_DRY_createUser (userData : UserData.t)
| TS_DRY_updateUser (userId : string) (userData : UserData.t)
| TS_Configurable_new (config : option TS.PartialConfig.t)
| TS_Configurable_createUser (this : TS.ConfigurableUserManager.t)
    (userData : UserData.t)
| TS_Configurable_updateUser (this : TS.ConfigurableUserManager.t)
    (userId : string) (userData : UserData.t)
| TS_Concrete_createUser (userData : UserData.t)
| TS_Concrete_updateUser (userId : string) (userData : UserData.t)
| TS_UserLogger_configure (enabled : bool)
| TS_UserLogger_log (message : string) (level : LoggingConfig.Level)
| TS_Factory_createManager (type : TS.UserManagerFactory.ManagerType)
    (customConfig : option TS.PartialConfig.t)
| SOLID_notify (senders : list SOLID.SenderClass)
    (message : SOLID.Message).

Definition as_value {A} (inj : A -> Value) (m : Exec A) : Exec Value :=
  let* a := m in ret (inj a).

Definition undefined (_ : unit) : Value := VUndefined.

Definition run (op : Operation) : Exec Value :=
  match op with
  | JS_WET_createUser d => as_value VUser (JS.UserManagerWET.createUser d)
  | JS_WET_updateUser i d => as_value VUser (JS.UserManagerWET.updateUser i d)
  | JS_DRY_createUser d => as_value VUser (JS.UserManagerDRY.createUser d)
  | JS_DRY_updateUser i d => as_value VUser (JS.UserManagerDRY.updateUser i d)
  | JS_Configurable_new c => ret (VManagerJS (JS.ConfigurableUserManager.new c))
  | JS_Configurable_createUser m d =>
      as_value VUser (JS.ConfigurableUserManager.createUser m d)
  | JS_Configurable_updateUser m i d =>
      as_value VUser (JS.ConfigurableUserManager.updateUser m i d)
  | TS_WET_createUser d => as_value VUser (TS.UserManagerWET.createUser d)
  | TS_WET_updateUser i d => as_value VUser (TS.UserManagerWET.updateUser i d)
  | TS_DRY_createUser d => as_value VUser (TS.UserManagerDRY.createUser d)
  | TS_DRY_updateUser i d => as_value VUser (TS.UserManagerDRY.updateUser i d)
  | TS_Configurable_new c => ret (VManagerTS (TS.ConfigurableUserManager.new c))
  | TS_Configurable_createUser m d =>
      as_value VUser (TS.ConfigurableUserManager.createUser m d)
  | TS_Configurable_updateUser m i d =>
      as_value VUser (TS.ConfigurableUserManager.updateUser m i d)
  | TS_Concrete_createUser d =>
      as_value VUser (TS.ConcreteUserManager.createUser d)
  | TS_Concrete_updateUser i d =>
      as_value VUser (TS.ConcreteUserManager.updateUser i d)
  | TS_UserLogger_configure b => as_value undefined (TS.UserLogger.configure b)
  | TS_UserLogger_log s l => as_value undefined (TS.UserLogger.log s l)
  | TS_Factory_createManager t c =>
      as_value VManagerTS (TS.UserManagerFactory.createManager t c)
  | SOLID_notify cs m =>
      as_value undefined
        (SOLID.NotificationService.notify
           (SOLID.NotificationService.new (map SOLID.instance cs)) m)
  end.

(** The static fields of a world.  [with_statics w w'] is [w] with the
    static fields of [w']: the console, the random source and the clock are
    those of [w]. *)
Definition with_statics (w w' : World) : World :=
  mkWorld (console w) (randomIds w) (randomDraws w) (clock w) (clockReads w)
    (UserLogger_isEnabled w') (UserManagerFactory_instances w').


(** ** Vocabulary of the properties *)

(** [w] after the lines [ls] were printed, nothing else changed. *)
Definition printed (w : World) (ls : list (ConsoleMethod * string)) : World :=
  mkWorld (console w ++ ls) (randomIds w) (randomDraws w) (clock w)
    (clockReads w) (UserLogger_isEnabled w) (UserManagerFactory_instances w).

(** A field is absent or shorter than [n] characters. *)
Definition absent_or_shorter (v : option string) (n : Z) : Prop :=
  match v with
  | None => True
  | Some s => JSString.length s < n
  end.

(** A field is present with at least [n] characters. *)
Definition present_with_length (v : option string) (n : Z) : Prop :=
  match v with
  | None => False
  | Some s => n <= JSString.length s
  end.

(** The field matches the pattern [p]. *)
Definition matches_pattern (p : RegExp.t) (v : option string) : Prop :=
  RegExp.test p (str v) = true.

(** A run completes normally. *)
Definition succeeds {A} (r : World * Completion A) : Prop :=
  exists a, outcome r = Normal a.

(** The user data an operation was given, for the operations of the user
    managers. *)
Definition userData_of (op : Operation) : option UserData.t :=
  match op with
  | JS_WET_createUser d | JS_WET_updateUser _ d
  | JS_DRY_createUser d | JS_DRY_updateUser _ d
  | JS_Configurable_createUser _ d | JS_Configurable_updateUser _ _ d
  | TS_WET_createUser d | TS_WET_updateUser _ d
  | TS_DRY_createUser d | TS_DRY_updateUser _ d
  | TS_Configurable_createUser _ d | TS_Configurable_updateUser _ _ d
  | TS_Concrete_createUser d | TS_Concrete_updateUser _ d => Some d
  | _ => None
  end.

(** The length checks name the field that failed first, in the order email,
    name, password; [format] is the pattern the email is held against after
    its length check, where there is one. *)
Definition names_first_failed (emailMin nameMin passwordMin : Z)
  (passwordMessage : string) (format : option RegExp.t)
  (createUser : UserData.t -> Exec User.t) : Prop :=
  forall userData w,
    let email := UserData.email userData in
    let name := UserData.name userData in
    let password := UserData.password userData in
    let well_formed :=
      match format with
      | Some p => matches_pattern p email
      | None => True
      end in
    (absent_or_shorter email emailMin ->
     throws (createUser userData w) "Invalid email")
    /\ (present_with_length email emailMin -> ~ well_formed ->
        throws (createUser userData w) "Invalid email format")
    /\ (present_with_length email emailMin -> well_formed ->
        absent_or_shorter name nameMin ->
        throws (createUser userData w) "Invalid name")
    /\ (present_with_length email emailMin -> well_formed ->
        present_with_length name nameMin ->
        absent_or_shorter password passwordMin ->
        throws (createUser userData w) passwordMessage).

(** The messages and thresholds of the specification. *)
Definition names_failed_field (createUser : UserData.t -> Exec User.t)
  : Prop :=
  names_first_failed 5 2 8 "Password too short" None createUser.

(** All three fields pass their length checks. *)
Definition lengths_pass (emailMin nameMin passwordMin : Z)
  (userData : UserData.t) : Prop :=
  present_with_length (UserData.email userData) emailMin
  /\ present_with_length (UserData.name userData) nameMin
  /\ present_with_length (UserData.password userData) passwordMin.

(** Email and name pass their length checks. *)
Definition email_and_name_pass (userData : UserData.t) : Prop :=
  present_with_length (UserData.email userData) 5
  /\ present_with_length (UserData.name userData) 2.

(** [createUser] returns a record on every input that passes the length
    checks. *)
Definition accepts_well_formed (createUser : UserData.t -> Exec User.t)
  : Prop :=
  forall userData w,
    lengths_pass 5 2 8 userData -> succeeds (createUser userData w).

(** A run rejected the email. *)
Definition rejects_email {A} (r : World * Completion A) : Prop :=
  throws r "Invalid email" \/ throws r "Invalid email format".

(** Email validation is the length check against [minLength] and nothing
    else. *)
Definition email_check_is_length_only (minLength : Z)
  (operation : UserData.t -> Exec User.t) : Prop :=
  forall userData w,
    ~ rejects_email (operation userData w)
    <-> present_with_length (UserData.email userData) minLength.

(** Email validation is the length check against [minLength] followed by a
    match against [pattern]. *)
Definition email_check_is_length_and_pattern (minLength : Z)
  (pattern : RegExp.t) (operation : UserData.t -> Exec User.t) : Prop :=
  forall userData w,
    ~ rejects_email (operation userData w)
    <-> (present_with_length (UserData.email userData) minLength
         /\ matches_pattern pattern (UserData.email userData)).


(** The fields the specification compares between two records. *)
Definition same_fields (u1 u2 : User.t) : Prop :=
  User.email u1 = User.email u2
  /\ User.name u1 = User.name u2
  /\ User.password u1 = User.password u2.

(** Two runs throw the same message, or both return records that agree on
    email, name and password. *)
Definition agree (r1 r2 : World * Completion User.t) : Prop :=
  match outcome r1, outcome r2 with
  | Throw e1, Throw e2 => message e1 = message e2
  | Normal u1, Normal u2 => same_fields u1 u2
  | _, _ => False
  end.

Definition equivalent (f g : UserData.t -> Exec User.t) : Prop :=
  forall userData w, agree (f userData w) (g userData w).

(** The minima an operation of a user manager checks against. *)
Definition minima_of (op : Operation) : Z * Z * Z :=
  match op with
  | JS_Configurable_createUser m _ | JS_Configurable_updateUser m _ _ =>
      let v := JS.Config.validation m in
      (JS.Config.emailMinLength v, JS.Config.nameMinLength v,
       JS.Config.passwordMinLength v)
  | TS_Configurable_createUser m _ | TS_Configurable_updateUser m _ _ =>
      let v := UserManagerConfig.validation m in
      (ValidationConfig.emailMinLength v, ValidationConfig.nameMinLength v,
       ValidationConfig.passwordMinLength v)
  | _ => (5, 2, 8)
  end.

(** The operation is an [updateUser]. *)
Definition is_update (op : Operation) : bool :=
  match op with
  | JS_WET_updateUser _ _ | JS_DRY_updateUser _ _
  | JS_Configurable_updateUser _ _ _
  | TS_WET_updateUser _ _ | TS_DRY_updateUser _ _
  | TS_Configurable_updateUser _ _ _ | TS_Concrete_updateUser _ _ => true
  | _ => false
  end.

(** The user data fails a length check of the operation: on an update the
    password only counts when a non-empty one is given. *)
Definition invalid_input (op : Operation) (userData : UserData.t) : Prop :=
  let '(e, n, p) := minima_of op in
  absent_or_shorter (UserData.email userData) e
  \/ absent_or_shorter (UserData.name userData) n
  \/ (if is_update op
      then exists pw, UserData.password userData = Some pw
                      /\ pw <> "" /\ JSString.length pw < p
      else absent_or_shorter (UserData.password userData) p).

(** A run threw and left the world as it found it. *)
Definition throws_untouched {A} (m : Exec A) (w : World) : Prop :=
  (exists e, outcome (m w) = Throw e) /\ final (m w) = w.

(** The password is required by [createUser] and optional for
    [updateUser], which still checks a password that counts as [supplied]. *)
Definition password_rule (supplied : string -> Prop)
  (createUser : UserData.t -> Exec User.t)
  (updateUser : string -> UserData.t -> Exec User.t) : Prop :=
  forall userId userData w,
    email_and_name_pass userData ->
    (UserData.password userData = None ->
     succeeds (updateUser userId userData w)
     /\ throws (createUser userData w) "Password too short")
    /\ (forall p, UserData.password userData = Some p -> supplied p ->
        JSString.length p < 8 ->
        throws (updateUser userId userData w) "Password too short").

(** Agreement on the inputs that satisfy [P]. *)
Definition equivalent_when (P : UserData.t -> Prop)
  (f g : UserData.t -> Exec User.t) : Prop :=
  forall userData w, P userData -> agree (f userData w) (g userData w).

(** The email is too short for the check, or it matches the pattern. *)
Definition short_or_well_formed (userData : UserData.t) : Prop :=
  absent_or_shorter (UserData.email userData) 5
  \/ matches_pattern RegExp.emailPattern (UserData.email userData).

(** A returned record holds the email lower-cased and the name as given. *)
Definition formats_by_lowercasing (op : Operation) : Prop :=
  forall userData w u,
    userData_of op = Some userData ->
    outcome (run op w) = Normal (VUser u) ->
    exists email name,
      UserData.email userData = Some email
      /\ UserData.name userData = Some name
      /\ User.email u = JSString.toLowerCase email
      /\ User.name u = name.

(** A returned record holds the email lower-cased and trimmed and the name
    trimmed. *)
Definition formats_by_lowercasing_and_trimming (op : Operation) : Prop :=
  forall userData w u,
    userData_of op = Some userData ->
    outcome (run op w) = Normal (VUser u) ->
    exists email name,
      UserData.email userData = Some email
      /\ UserData.name userData = Some name
      /\ User.email u = JSString.trim (JSString.toLowerCase email)
      /\ User.name u = JSString.trim name
      /\ User.password u = UserData.password userData.

(** ** Inputs of the examples *)

Definition bob_short : UserData.t :=
  UserData.make (Some "bob@example.com") (Some "Bob Johnson") (Some "short").

Definition no_at_sign : UserData.t :=
  UserData.make (Some "abcde") (Some "John Doe") (Some "password123").

Definition no_at_sign_short_name : UserData.t :=
  UserData.make (Some "abcde") (Some "J") (Some "password123").

Definition padded : UserData.t :=
  UserData.make (Some " John@Example.com") (Some "John Doe ")
    (Some "password123").

Definition john_without_password : UserData.t :=
  UserData.make (Some "john@example.com") (Some "John Doe") None.

Definition john_empty_password : UserData.t :=
  UserData.make (Some "john@example.com") (Some "John Doe") (Some "").

Definition short_email : UserData.t :=
  UserData.make (Some "a@b") (Some "John Doe") (Some "password123").

(** The [configurableManager] of the usage examples, which asks for twelve
    characters in a password. *)
Definition configurableManager : JS.ConfigurableUserManager.t :=
  JS.ConfigurableUserManager.new
    (JS.PartialConfig.make
       (Some (JS.PartialConfig.mkValidation None None (Some 12))) None).

Definition bob_nine : UserData.t :=
  UserData.make (Some "bob@example.com") (Some "Bob Johnson")
    (Some "password1").

Definition short_name : UserData.t :=
  UserData.make (Some "john@example.com") (Some "J") (Some "password123").




Arguments JSString.length : simpl never.
Arguments JSString.trim : simpl never.
Arguments JSString.toLowerCase : simpl never.
Arguments RegExp.test : simpl never.

(** ** Vocabulary of the further properties *)

(** The language of a pattern: the strings it denotes. *)
Module Language.

Inductive star (L : string -> Prop) : string -> Prop :=
| star_nil : star L ""
| star_app (s1 s2 : string) : L s1 -> star L s2 -> star L (s1 ++ s2).

Fixpoint lang (r : RegExp.re) : string -> Prop :=
  match r with
  | RegExp.Void => fun _ => False
  | RegExp.Eps => fun s => s = ""
  | RegExp.Class p => fun s => exists c, s = String c "" /\ p c = true
  | RegExp.Cat r1 r2 =>
      fun s => exists s1 s2, s = s1 ++ s2 /\ lang r1 s1 /\ lang r2 s2
  | RegExp.Alt r1 r2 => fun s => lang r1 s \/ lang r2 s
  | RegExp.Star r' => star (lang r')
  end.

End Language.

(** Every character of [s] satisfies [p]. *)
Fixpoint allChars (p : ascii -> bool) (s : string) : bool :=
  match s with
  | EmptyString => true
  | String c s' => p c && allChars p s'
  end.

(** [s] reads local@domain.tld: a non-empty local part of letters, digits
    and [._%+-], a non-empty domain of letters, digits and [.-], and a last
    label of two or more letters. *)
Definition email_shape (s : string) : Prop :=
  exists l d t,
    s = l ++ "@" ++ d ++ "." ++ t
    /\ l <> "" /\ allChars RegExp.localChar l = true
    /\ d <> "" /\ allChars RegExp.domainChar d = true
    /\ (2 <= String.length t)%nat /\ allChars RegExp.letter t = true.

(** [w] with the logger flag set to [b]. *)
Definition with_flag (b : bool) (w : World) : World :=
  mkWorld (console w) (randomIds w) (randomDraws w) (clock w) (clockReads w)
    b (UserManagerFactory_instances w).

(** [w] with the manager [m] cached under [key]. *)
Definition cached (key : string) (m : TS.ConfigurableUserManager.t)
  (w : World) : World :=
  mkWorld (console w) (randomIds w) (randomDraws w) (clock w) (clockReads w)
    (UserLogger_isEnabled w) (<[key := m]> (UserManagerFactory_instances w)).

(** [w] after [draws] identifiers were drawn and the clock was read [reads]
    times. *)
Definition advanced (draws reads : nat) (w : World) : World :=
  mkWorld (console w) (randomIds w) (draws + randomDraws w) (clock w)
    (reads + clockReads w) (UserLogger_isEnabled w)
    (UserManagerFactory_instances w).

(** A character that is no white space. *)
Definition notWhite (c : ascii) : bool := negb (JSString.isWhiteSpace c).

(** A string that is empty or starts with a character that is no white
    space. *)
Definition starts_clean (s : string) : Prop :=
  match s with
  | EmptyString => True
  | String c _ => JSString.isWhiteSpace c = false
  end.

(** The operations that hold the email against the pattern of
    [VALIDATION_RULES]. *)
Definition checks_default_pattern (op : Operation) : bool :=
  match op with
  | TS_DRY_createUser _ | TS_DRY_updateUser _ _
  | TS_Concrete_createUser _ | TS_Concrete_updateUser _ _ => true
  | _ => false
  end.

(** Five spaces for an email. *)
Definition blank_email : UserData.t :=
  UserData.make (Some "     ") (Some "John Doe") (Some "password123").

(** The operations that never look at the logger flag: all but those of the
    TypeScript [UserManagerDRY] and [UserLogger], and the factory. *)
Definition ignores_flag (op : Operation) : bool :=
  match op with
  | TS_DRY_createUser _ | TS_DRY_updateUser _ _
  | TS_UserLogger_configure _ | TS_UserLogger_log _ _
  | TS_Factory_createManager _ _ => false
  | _ => true
  end.

(** A manager that wants twelve characters and logs warnings. *)
Definition warningManager : TS.ConfigurableUserManager.t :=
  TS.ConfigurableUserManager.new
    (Some (TS.PartialConfig.make None
             (Some (TS.PartialConfig.mkLogging None
                      (Some LoggingConfig.warn))))).

(** A manager with logging switched off. *)
Definition silentManager : JS.ConfigurableUserManager.t :=
  JS.ConfigurableUserManager.new
    (JS.PartialConfig.make None
       (Some (JS.PartialConfig.mkLogging (Some false)))).

(** [{ validation: { nameMinLength: 3 } }] *)
Definition longerNames : TS.PartialConfig.t :=
  TS.PartialConfig.make
    (Some (TS.PartialConfig.mkValidation None (Some 3) None None)) None.

(** A rule, or a validator function, without effects. *)
Definition pureRule {T : Type} (f : T -> bool) : T -> Exec bool :=
  fun value => ret (f value).

(** [new GenericValidator(msg).addRule(f1). ... .addRule(fn)] *)
Definition validatorOf {T : Type} (msg : string) (fs : list (T -> bool))
  : TS.GenericValidator.t T :=
  fold_left (fun v f => TS.GenericValidator.addRule v (pureRule f)) fs
    (TS.GenericValidator.new msg).

(** The message [validateField] throws with. *)
Definition fieldMessage (fieldName : string) (errorMessage : option string)
  : string :=
  match errorMessage with
  | Some (String c s) => String c s
  | _ => "Invalid " ++ fieldName
  end.

(** The two lines of [LogExecution]. *)
Definition executingLine (propertyName : string) : ConsoleMethod * string :=
  (c_log, "Executing " ++ propertyName ++ "...").
Definition completedLine (propertyName : string) : ConsoleMethod * string :=
  (c_log, "Completed " ++ propertyName).

(** The line of [ConcreteUserManager.performAdditionalOperations]. *)
Definition additionalLine (u : User.t) : ConsoleMethod * string :=
  (c_log, "Performing additional operations for user: " ++ User.id u).

(** A rule that wants at least three characters, and one that wants an at
    sign. *)
Definition atLeastThree (s : string) : bool := 3 <=? JSString.length s.
Definition hasAtSign (s : string) : bool :=
  existsb (Ascii.eqb "@") (list_ascii_of_string s).

(** A sender whose [send] throws. *)
Definition brokenSender : SOLID.Sender :=
  {| SOLID.send _ := throw "no route" |}.

(** A manager configured to want no character at all. *)
Definition zeroManager : JS.ConfigurableUserManager.t :=
  JS.ConfigurableUserManager.new
    (JS.PartialConfig.make
       (Some (JS.PartialConfig.mkValidation (Some 0) (Some 0) (Some 0)))
       None).

Definition empty_email : UserData.t :=
  UserData.make (Some "") (Some "John Doe") (Some "password123").

(** The minima of a JavaScript manager are at most those of another. *)
Definition JS_minima_le (a b : JS.ConfigurableUserManager.t) : Prop :=
  JS.Config.emailMinLength (JS.Config.validation a)
  <= JS.Config.emailMinLength (JS.Config.validation b)
  /\ JS.Config.nameMinLength (JS.Config.validation a)
     <= JS.Config.nameMinLength (JS.Config.validation b)
  /\ JS.Config.passwordMinLength (JS.Config.validation a)
     <= JS.Config.passwordMinLength (JS.Config.validation b).

(** The minima of a TypeScript manager are at most those of another, and
    the two hold emails against the same pattern. *)
Definition TS_minima_le (a b : TS.ConfigurableUserManager.t) : Prop :=
  ValidationConfig.emailMinLength (UserManagerConfig.validation a)
  <= ValidationConfig.emailMinLength (UserManagerConfig.validation b)
  /\ ValidationConfig.nameMinLength (UserManagerConfig.validation a)
     <= ValidationConfig.nameMinLength (UserManagerConfig.validation b)
  /\ ValidationConfig.passwordMinLength (UserManagerConfig.validation a)
     <= ValidationConfig.passwordMinLength (UserManagerConfig.validation b)
  /\ ValidationConfig.emailPattern (UserManagerConfig.validation a)
     = ValidationConfig.emailPattern (UserManagerConfig.validation b).

(** The managers the factory builds for a type when the cache is empty. *)
Definition preset (type : TS.UserManagerFactory.ManagerType)
  : TS.ConfigurableUserManager.t :=
  TS.ConfigurableUserManager.new (Some (TS.UserManagerFactory.configs type)).

(** The last user of the usage examples. *)
Definition alice : UserData.t :=
  UserData.make (Some "alice@example.com") (Some "Alice Wonder")
    (Some "wonderland123").

(** ** What the validation rejects *)








(** ** Validator objects *)

(** [addRule] pushes onto the [rules] array of its receiver and returns the
    receiver, and [validate] reads the array of its receiver.  A validator is
    therefore an object of a store, addressed by reference, and
    [TS.GenericValidator.t] is what the object holds at a moment:
    [GenericValidator.new] and [GenericValidator.addRule] give the contents
    of the object after the constructor and after the push. *)
Record Machine (T : Type) : Type := mkMachine {
  world : World;
  validators : list (TS.GenericValidator.t T)
}.
Arguments mkMachine {T} world validators.
Arguments world {T} _.
Arguments validators {T} _.

(** The operations of the examples: those on the world alone, and the
    constructor and the two methods of [GenericValidator<T>]. *)
Inductive Step (T : Type) : Type :=
| Plain (op : Operation)
| Validator_new (errorMessage : string)
| Validator_addRule (this : nat) (rule : T -> Exec bool)
| Validator_validate (this : nat) (value : T).
Arguments Plain {T} op.
Arguments Validator_new {T} errorMessage.
Arguments Validator_addRule {T} this rule.
Arguments Validator_validate {T} this value.

(** What a step returns: a value, or the reference of a validator. *)
Inductive StepValue : Type :=
| Returned (v : Value)
| Reference (ref : nat).

Definition completion_map {A B} (f : A -> B) (c : Completion A)
  : Completion B :=
  match c with
  | Normal a => Normal (f a)
  | Throw e => Throw e
  end.

(** One step of the machine.  A reference that points at no object of the
    store is no state of the program: the step is undefined. *)
Definition exec {T : Type} (s : Step T) (m : Machine T)
  : option (Machine T * Completion StepValue) :=
  match s with
  | Plain op =>
      let r := run op (world m) in
      Some (mkMachine (final r) (validators m),
            completion_map Returned (outcome r))
  | Validator_new errorMessage =>
      Some (mkMachine (world m)
              (validators m ++ [TS.GenericValidator.new errorMessage])%list,
            Normal (Reference (List.length (validators m))))
  | Validator_addRule this rule =>
      match validators m !! this with
      | Some object =>
          Some (mkMachine (world m)
                  (<[this := TS.GenericValidator.addRule object rule]>
                     (validators m)),
                Normal (Reference this))
      | None => None
      end
  | Validator_validate this value =>
      match validators m !! this with
      | Some object =>
          let r := TS.GenericValidator.validate object value (world m) in
          Some (mkMachine (final r) (validators m),
                completion_map (fun _ => Returned VUndefined) (outcome r))
      | None => None
      end
  end.



(** [m] with the static fields and the validators of [m']: the console, the
    random source and the clock are those of [m]. *)
Definition with_state {T : Type} (m m' : Machine T) : Machine T :=
  mkMachine (with_statics (world m) (world m')) (validators m').

(** The second step gives the same result and leaves the same machine
    whether or not the first ran before it, the console, random source and
    clock being equal. *)
Definition step_independent_of_first {T : Type} (s1 s2 : Step T)
  (m : Machine T) : Prop :=
  forall m1 r1,
    exec s1 m = Some (m1, r1) ->
    exec s2 (with_state m m1) = exec s2 m.



(** * The usage examples, run *)

Example emailPattern_john :
  RegExp.test RegExp.emailPattern "john@example.com" = true.
Proof. vm_compute. reflexivity. Qed.

Example emailPattern_abcde :
  RegExp.test RegExp.emailPattern "abcde" = false.
Proof. vm_compute. reflexivity. Qed.

Example emailPattern_short_tld :
  RegExp.test RegExp.emailPattern "a@b.c" = false.
Proof. vm_compute. reflexivity. Qed.

Example trim_example : JSString.trim "  John Doe	 " = "John Doe".
Proof. vm_compute. reflexivity. Qed.

Example toLowerCase_example :
  JSString.toLowerCase "John@Example.COM" = "john@example.com".
Proof. vm_compute. reflexivity. Qed.

Example JS_WET_john :
  let r := JS.UserManagerWET.createUser john world0 in
  outcome r = Normal (User.make "id0" "john@example.com" "John Doe"
                        (Some "password123") (Some "t0") "t1")
  /\ console (final r) = [(c_log, "User created: John Doe (john@example.com)")].
Proof. vm_compute. split; reflexivity. Qed.

Example JS_Configurable_bob :
  let m := JS.ConfigurableUserManager.new
             (JS.PartialConfig.make
                (Some (JS.PartialConfig.mkValidation None None (Some 12)))
                None) in
  let r := JS.ConfigurableUserManager.createUser m
             (UserData.make (Some "bob@example.com") (Some "Bob Johnson")
                (Some "short")) world0 in
  outcome r = Throw (new_Error "Invalid password") /\ console (final r) = [].
Proof. vm_compute. split; reflexivity. Qed.

Example TS_cacheKey_strict :
  TS.UserManagerFactory.cacheKey TS.UserManagerFactory.strict None
  = "strict_{}".
Proof. vm_compute. reflexivity. Qed.

Example TS_DRY_john :
  let r := TS.UserManagerDRY.createUser john world0 in
  outcome r = Normal (User.make "id0" "john@example.com" "John Doe"
                        (Some "password123") (Some "t0") "t0")
  /\ console (final r) = [(c_log, "User created: John Doe (john@example.com)")].
Proof. vm_compute. split; reflexivity. Qed.

Example TS_Concrete_alice :
  let r := TS.ConcreteUserManager.createUser
             (UserData.make (Some "alice@example.com") (Some "Alice Wonder")
                (Some "wonderland123")) world0 in
  console (final r)
  = [(c_log, "User created: Alice Wonder (alice@example.com)");
     (c_log, "Performing additional operations for user: id0")].
Proof. vm_compute. reflexivity. Qed.

Example SOLID_usage :
  let service := SOLID.NotificationService.new
                   [SOLID.EmailSender; SOLID.SMSSender; SOLID.PushSender] in
  console (final (SOLID.NotificationService.notify service
                    (SOLID.new_Message "Welcome to the platform!") world0))
  = [(c_log, "Sending EMAIL: Welcome to the platform!");
     (c_log, "Sending SMS: Welcome to the platform!");
     (c_log, "Sending PUSH: Welcome to the platform!")].
Proof. vm_compute. reflexivity. Qed.

(** * Properties *)

(** ** The execution monad *)

Section ExecLaws.

Context {A B C : Type}.

Lemma bind_ret_l (a : A) (k : A -> Exec B) (w : World) :
  bind (ret a) k w = k a w.
Proof. reflexivity. Qed.

Lemma bind_ret_r (m : Exec A) (w : World) : bind m ret w = m w.
Proof. unfold bind, ret. destruct (m w) as [w' [a | e]]; reflexivity. Qed.

Lemma bind_assoc (m : Exec A) (k : A -> Exec B) (h : B -> Exec C) (w : World) :
  bind (bind m k) h w = bind m (fun a => bind (k a) h) w.
Proof. unfold bind. destruct (m w) as [w' [a | e]]; reflexivity. Qed.

(** A throw skips the rest and keeps the world it was thrown in. *)
Lemma bind_throw (msg : string) (k : A -> Exec B) (w : World) :
  bind (throw msg) k w = (w, Throw (new_Error msg)).
Proof. reflexivity. Qed.

End ExecLaws.

Lemma throwIf_run (c : bool) (msg : string) (w : World) :
  throwIf c msg w = (w, if c then Throw (new_Error msg) else Normal tt).
Proof. destruct c; reflexivity. Qed.

(** ** The length guards against the vocabulary *)

Lemma missingOrShorter_true (v : option string) (n : Z) :
  0 < n -> missingOrShorter v n = true <-> absent_or_shorter v n.
Proof.
  intros Hn. destruct v as [[|c s]|]; simpl.
  - unfold JSString.length; simpl. split; [lia | reflexivity].
  - apply Z.ltb_lt.
  - split; auto.
Qed.

Lemma missingOrShorter_false (v : option string) (n : Z) :
  0 < n -> missingOrShorter v n = false <-> present_with_length v n.
Proof.
  intros Hn. destruct v as [[|c s]|]; simpl.
  - unfold JSString.length; simpl. split; [discriminate | lia].
  - apply Z.ltb_ge.
  - split; [discriminate | tauto].
Qed.

Lemma absent_or_present (v : option string) (n : Z) :
  absent_or_shorter v n \/ present_with_length v n.
Proof. destruct v; simpl; [lia | auto]. Qed.

Lemma absent_not_present (v : option string) (n : Z) :
  absent_or_shorter v n -> present_with_length v n -> False.
Proof. destruct v; simpl; [lia | auto]. Qed.

Lemma givenAndShorter_true (v : option string) (n : Z) :
  givenAndShorter v n = true
  <-> exists p, v = Some p /\ p <> "" /\ JSString.length p < n.
Proof.
  destruct v as [[|c s]|]; simpl.
  - split; [discriminate | intros (p & [= <-] & H & _); congruence].
  - rewrite Z.ltb_lt. split.
    + intros H. eexists. split; [reflexivity | split; [discriminate | exact H]].
    + intros (p & [= <-] & _ & H). exact H.
  - split; [discriminate | intros (p & H & _); discriminate].
Qed.

Lemma present_is_some (v : option string) (n : Z) :
  0 < n -> present_with_length v n ->
  exists s, v = Some s /\ str v = s /\ falsy v = false.
Proof.
  intros Hn. destruct v as [[|c s]|]; simpl; try tauto.
  - unfold JSString.length; simpl; lia.
  - intros _. eexists; repeat split; reflexivity.
Qed.

Lemma present_not_given_short (v : option string) (n : Z) :
  present_with_length v n -> givenAndShorter v n = false.
Proof.
  destruct v as [[|c s]|]; simpl; auto.
  intros H. apply Z.ltb_ge. exact H.
Qed.

Lemma pattern_true_or_false (p : RegExp.t) (v : option string) :
  ~ matches_pattern p v -> RegExp.test p (str v) = false.
Proof. unfold matches_pattern. destruct (RegExp.test p (str v)); congruence. Qed.

(** Guards are settled from what is known of the fields, then the run is
    computed. *)
Ltac settle_guards :=
  repeat match goal with
    | H : absent_or_shorter _ _ |- _ =>
        apply missingOrShorter_true in H; [| lia]
    | H : present_with_length _ _ |- _ =>
        apply missingOrShorter_false in H; [| lia]
    | H : ~ matches_pattern _ _ |- _ => apply pattern_true_or_false in H
    | H : matches_pattern _ _ |- _ => unfold matches_pattern in H
    end.

Ltac use_guards :=
  repeat match goal with
    | H : _ = true |- _ => rewrite !H
    | H : _ = false |- _ => rewrite !H
    end.

Lemma missingOrShorter_orEmpty (v : option string) (n : Z) :
  missingOrShorter (Some (orEmpty v)) n = missingOrShorter v n.
Proof. destruct v as [[|c s]|]; reflexivity. Qed.

Lemma givenAndShorter_orEmpty (v : option string) (n : Z) :
  givenAndShorter (Some (orEmpty v)) n = givenAndShorter v n.
Proof. destruct v as [[|c s]|]; reflexivity. Qed.

(** Unfolding the code down to guards and primitive effects. *)
Ltac open_code :=
  unfold
    JS.UserManagerWET.createUser, JS.UserManagerWET.updateUser,
    JS.UserManagerDRY.createUser, JS.UserManagerDRY.updateUser,
    JS.UserManagerDRY.validateUserData, JS.UserManagerDRY.formatUserData,
    JS.ConfigurableUserManager.createUser,
    JS.ConfigurableUserManager.updateUser,
    JS.ConfigurableUserManager.validateUserData,
    JS.ConfigurableUserManager.validate,
    JS.ConfigurableUserManager.formatUserData,
    JS.ConfigurableUserManager.log,
    JS.ValidationUtils.validateEmail, JS.ValidationUtils.validateName,
    JS.ValidationUtils.validatePassword,
    JS.VALIDATION_RULES.EMAIL_MIN_LENGTH, JS.VALIDATION_RULES.NAME_MIN_LENGTH,
    JS.VALIDATION_RULES.PASSWORD_MIN_LENGTH,
    JS.FormattingUtils.generateId, JS.FormattingUtils.getCurrentTimestamp,
    JS.UserLogger.logUserCreated, JS.UserLogger.logUserUpdated,
    TS.UserManagerWET.createUser, TS.UserManagerWET.updateUser,
    TS.UserManagerDRY.createUser, TS.UserManagerDRY.updateUser,
    TS.BaseUserManager.validateUserData, TS.BaseUserManager.formatUserData,
    TS.ConfigurableUserManager.createUser,
    TS.ConfigurableUserManager.updateUser,
    TS.ConfigurableUserManager.validateUserData,
    TS.ConfigurableUserManager.validateField,
    TS.ConfigurableUserManager.formatUserData,
    TS.ConfigurableUserManager.log,
    TS.ConcreteUserManager.createUser, TS.ConcreteUserManager.updateUser,
    TS.ConcreteUserManager.processUser, TS.ConcreteUserManager.validateInput,
    TS.ConcreteUserManager.formatUser, TS.ConcreteUserManager.logOperation,
    TS.ConcreteUserManager.performAdditionalOperations,
    TS.ValidationUtils.validateEmail, TS.ValidationUtils.validateName,
    TS.ValidationUtils.validatePassword, TS.VALIDATION_RULES,
    TS.FormattingUtils.generateId, TS.FormattingUtils.getCurrentTimestamp,
    TS.UserLogger.logUserCreated, TS.UserLogger.logUserUpdated,
    TS.UserLogger.log, TS.UserLogger.configure;
  cbn [UserData.email UserData.name UserData.password
       ValidationConfig.emailMinLength ValidationConfig.nameMinLength
       ValidationConfig.passwordMinLength ValidationConfig.emailPattern];
  rewrite ?missingOrShorter_orEmpty, ?givenAndShorter_orEmpty.

(** Case analysis on every condition left in the goal. *)
Ltac case_guards :=
  repeat match goal with
    | |- context [if ?c then _ else _] => destruct c
    end.

Ltac run_exec :=
  unfold throws, returns, succeeds, throws_untouched, outcome, final, bind,
    throwIf, throw, ret;
  use_guards; cbn.

Ltac first_failed :=
  intros [email name password] w; cbn zeta;
  cbn [UserData.email UserData.name UserData.password];
  open_code;
  repeat split; intros; try tauto; settle_guards; run_exec; reflexivity.


(** ** Which check fails first *)

Lemma JS_WET_names_failed_field :
  names_failed_field JS.UserManagerWET.createUser.
Proof. first_failed. Qed.

Lemma JS_DRY_names_failed_field :
  names_failed_field JS.UserManagerDRY.createUser.
Proof. first_failed. Qed.

Lemma TS_WET_names_failed_field :
  names_failed_field TS.UserManagerWET.createUser.
Proof. first_failed. Qed.

Lemma JS_Configurable_names_first_failed (this : JS.ConfigurableUserManager.t) :
  let v := JS.Config.validation this in
  0 < JS.Config.emailMinLength v ->
  0 < JS.Config.nameMinLength v ->
  0 < JS.Config.passwordMinLength v ->
  names_first_failed (JS.Config.emailMinLength v) (JS.Config.nameMinLength v)
    (JS.Config.passwordMinLength v) "Invalid password" None
    (JS.ConfigurableUserManager.createUser this).
Proof. intros v He Hn Hp. subst v. first_failed. Qed.

Lemma TS_DRY_names_first_failed :
  names_first_failed 5 2 8 "Password too short" (Some RegExp.emailPattern)
    TS.UserManagerDRY.createUser.
Proof. first_failed. Qed.

Lemma TS_Concrete_names_first_failed :
  names_first_failed 5 2 8 "Password too short" (Some RegExp.emailPattern)
    TS.ConcreteUserManager.createUser.
Proof. first_failed. Qed.

Lemma TS_Configurable_names_first_failed (this : TS.ConfigurableUserManager.t) :
  let v := UserManagerConfig.validation this in
  0 < ValidationConfig.emailMinLength v ->
  0 < ValidationConfig.nameMinLength v ->
  0 < ValidationConfig.passwordMinLength v ->
  names_first_failed (ValidationConfig.emailMinLength v)
    (ValidationConfig.nameMinLength v) (ValidationConfig.passwordMinLength v)
    "Invalid password" (Some (ValidationConfig.emailPattern v))
    (TS.ConfigurableUserManager.createUser this).
Proof. intros v He Hn Hp. subst v. first_failed. Qed.

(** ** Inputs that pass the length checks *)

Ltac accepted :=
  intros [email name password] w; unfold lengths_pass;
  cbn [UserData.email UserData.name UserData.password];
  intros; repeat match goal with H : _ /\ _ |- _ => destruct H end;
  open_code; settle_guards; run_exec; case_guards; eexists; reflexivity.

Lemma JS_WET_accepts_well_formed :
  accepts_well_formed JS.UserManagerWET.createUser.
Proof. accepted. Qed.

Lemma JS_DRY_accepts_well_formed :
  accepts_well_formed JS.UserManagerDRY.createUser.
Proof. accepted. Qed.

Lemma TS_WET_accepts_well_formed :
  accepts_well_formed TS.UserManagerWET.createUser.
Proof. accepted. Qed.

Lemma JS_Configurable_accepts (this : JS.ConfigurableUserManager.t) :
  let v := JS.Config.validation this in
  0 < JS.Config.emailMinLength v ->
  0 < JS.Config.nameMinLength v ->
  0 < JS.Config.passwordMinLength v ->
  forall userData w,
    lengths_pass (JS.Config.emailMinLength v) (JS.Config.nameMinLength v)
      (JS.Config.passwordMinLength v) userData ->
    succeeds (JS.ConfigurableUserManager.createUser this userData w).
Proof. intros v He Hn Hp. subst v. accepted. Qed.

Lemma TS_DRY_accepts :
  forall userData w,
    lengths_pass 5 2 8 userData ->
    matches_pattern RegExp.emailPattern (UserData.email userData) ->
    succeeds (TS.UserManagerDRY.createUser userData w).
Proof. accepted. Qed.

Lemma TS_Concrete_accepts :
  forall userData w,
    lengths_pass 5 2 8 userData ->
    matches_pattern RegExp.emailPattern (UserData.email userData) ->
    succeeds (TS.ConcreteUserManager.createUser userData w).
Proof. accepted. Qed.

Lemma TS_Configurable_accepts (this : TS.ConfigurableUserManager.t) :
  let v := UserManagerConfig.validation this in
  0 < ValidationConfig.emailMinLength v ->
  0 < ValidationConfig.nameMinLength v ->
  0 < ValidationConfig.passwordMinLength v ->
  forall userData w,
    lengths_pass (ValidationConfig.emailMinLength v)
      (ValidationConfig.nameMinLength v)
      (ValidationConfig.passwordMinLength v) userData ->
    matches_pattern (ValidationConfig.emailPattern v)
      (UserData.email userData) ->
    succeeds (TS.ConfigurableUserManager.createUser this userData w).
Proof. intros v He Hn Hp. subst v. accepted. Qed.

(** ** The notification service *)

Lemma printed_nil (w : World) : printed w [] = w.
Proof. destruct w. unfold printed. cbn. rewrite app_nil_r. reflexivity. Qed.

Lemma printed_printed (w : World) (l1 l2 : list (ConsoleMethod * string)) :
  printed (printed w l1) l2 = printed w (l1 ++ l2).
Proof. unfold printed. cbn. rewrite app_assoc. reflexivity. Qed.

Lemma send_instance (message : SOLID.Message) (c : SOLID.SenderClass)
  (w : World) :
  SOLID.send (SOLID.instance c) message w
  = (printed w [SOLID.sentLine message c], Normal tt).
Proof. destruct c; reflexivity. Qed.

Lemma notify_instances (message : SOLID.Message)
  (cs : list SOLID.SenderClass) (w : World) :
  SOLID.NotificationService.notify
    (SOLID.NotificationService.new (map SOLID.instance cs)) message w
  = (printed w (map (SOLID.sentLine message) cs), Normal tt).
Proof.
  unfold SOLID.NotificationService.notify, SOLID.NotificationService.new.
  revert w. induction cs as [|c cs IH]; intros w.
  - cbn. unfold ret. rewrite printed_nil. reflexivity.
  - cbn [map SOLID.forEach]. unfold bind at 1.
    rewrite send_instance, IH, printed_printed. reflexivity.
Qed.

(** Senders that never throw are each run once, first to last. *)
Lemma notify_in_order (message : SOLID.Message) (senders : list SOLID.Sender) :
  (forall s w, In s senders -> outcome (SOLID.send s message w) = Normal tt) ->
  forall w,
    SOLID.NotificationService.notify senders message w
    = (fold_left (fun w' s => final (SOLID.send s message w')) senders w,
       Normal tt).
Proof.
  unfold SOLID.NotificationService.notify.
  induction senders as [|s senders IH]; intros Hsafe w.
  - reflexivity.
  - cbn [SOLID.forEach fold_left]. unfold bind at 1.
    specialize (Hsafe s w (or_introl eq_refl)) as Hs.
    destruct (SOLID.send s message w) as [w' c] eqn:E.
    unfold outcome in Hs; cbn in Hs; subst c.
    unfold final; cbn [fst].
    apply IH. intros s' w'' Hin. apply Hsafe. right. exact Hin.
Qed.

(** ** Every operation of a user manager validates before it does anything *)


Ltac open_run :=
  unfold run, as_value; open_code;
  unfold outcome, final, bind, throwIf, throw, ret, console_log, console_call,
    Math_random_id, Date_now_ISO, get_isEnabled, set_isEnabled.

Lemma user_operation_throws_untouched (op : Operation) (w : World) (e : Error) :
  userData_of op <> None ->
  outcome (run op w) = Throw e -> final (run op w) = w.
Proof.
  intros Hop. destruct op; cbn in Hop; try congruence; clear Hop;
    open_run; case_guards; cbn; intros H; try discriminate H; reflexivity.
Qed.

(** ** What a returned record holds *)

Lemma user_operation_formats (op : Operation) (userData : UserData.t)
  (w : World) (u : User.t) :
  userData_of op = Some userData ->
  outcome (run op w) = Normal (VUser u) ->
  exists email name,
    UserData.email userData = Some email
    /\ UserData.name userData = Some name
    /\ User.email u = JSString.trim (JSString.toLowerCase email)
    /\ User.name u = JSString.trim name
    /\ User.password u = UserData.password userData.
Proof.
  intros Hop.
  destruct op; cbn in Hop; try discriminate Hop;
    injection Hop as ->;
    destruct userData as [[[|c s]|] [[|c' s']|] password];
    open_run; cbn [missingOrShorter JSString.truthy negb orb str orEmpty];
    case_guards; cbn [fst snd];
    intros H; try discriminate H;
    injection H as <-; do 2 eexists; repeat split; reflexivity.
Qed.

(** ** Static fields *)

Lemma printed_statics (w : World) (ls : list (ConsoleMethod * string)) :
  with_statics w (printed w ls) = w.
Proof. destruct w. reflexivity. Qed.



(** ** Validators in the store *)




(** [addRule] is seen by every later [validate] of the same validator: the
    rules it runs are those of the object with the new rule at the end. *)
Lemma addRule_is_read_by_validate {T : Type} (this : nat)
  (rule : T -> Exec bool) (value : T) (m m1 : Machine T)
  (r1 : Completion StepValue) (object : TS.GenericValidator.t T) :
  validators m !! this = Some object ->
  exec (Validator_addRule this rule) m = Some (m1, r1) ->
  world m1 = world m
  /\ exec (Validator_validate this value) m1
     = (let r := TS.GenericValidator.validate
                   (TS.GenericValidator.addRule object rule) value (world m) in
        Some (mkMachine (final r) (validators m1),
              completion_map (fun _ => Returned VUndefined) (outcome r))).
Proof.
  intros Hobj. cbn [exec].
  match goal with
  | |- match ?x with _ => _ end = _ -> _ =>
      assert (E : x = Some object) by exact Hobj; rewrite E
  end.
  intros Hexec. injection Hexec as <- _. cbn [world validators exec].
  split; [reflexivity |].
  rewrite list_lookup_insert_eq; [reflexivity |].
  apply lookup_lt_Some in Hobj. exact Hobj.
Qed.

(** ** What email validation looks at *)

Ltac run_cases := cbn; case_guards; cbn; case_guards; cbn.

Ltac clash :=
  match goal with
  | H1 : absent_or_shorter ?v ?n, H2 : present_with_length ?v ?n |- _ =>
      exfalso; exact (absent_not_present v n H1 H2)
  end.

Ltac email_only :=
  intros [email name password] w;
  cbn [UserData.email UserData.name UserData.password];
  match goal with
  | |- _ <-> present_with_length ?e ?m =>
      destruct (absent_or_present e m) as [Ha|Hp]
  end;
  [ split;
    [ intros Hn; exfalso; apply Hn; left; settle_guards; open_code; run_exec;
      reflexivity
    | intros Hp; clash ]
  | split;
    [ intros _; assumption
    | intros _ [H|H]; settle_guards; revert H; open_code; run_exec;
      run_cases; discriminate ] ].

Ltac email_and_pattern :=
  intros [email name password] w;
  cbn [UserData.email UserData.name UserData.password];
  match goal with
  | |- _ <-> present_with_length ?e ?m /\ matches_pattern ?p _ =>
      destruct (absent_or_present e m) as [Ha|Hp];
      [| destruct (RegExp.test p (str e)) eqn:Ht ]
  end;
  [ split;
    [ intros Hn; exfalso; apply Hn; left; settle_guards; open_code; run_exec;
      reflexivity
    | intros [Hp _]; clash ]
  | split;
    [ intros _; split; assumption
    | intros _ [H|H]; settle_guards; revert H; open_code; run_exec;
      run_cases; discriminate ]
  | split;
    [ intros Hn; exfalso; apply Hn; right; settle_guards; open_code; run_exec;
      reflexivity
    | intros [_ Hm]; unfold matches_pattern in Hm; congruence ] ].

Lemma JS_WET_create_email : email_check_is_length_only 5 JS.UserManagerWET.createUser.
Proof. email_only. Qed.

Lemma JS_WET_update_email (userId : string) :
  email_check_is_length_only 5 (JS.UserManagerWET.updateUser userId).
Proof. email_only. Qed.

Lemma JS_DRY_create_email : email_check_is_length_only 5 JS.UserManagerDRY.createUser.
Proof. email_only. Qed.

Lemma JS_DRY_update_email (userId : string) :
  email_check_is_length_only 5 (JS.UserManagerDRY.updateUser userId).
Proof. email_only. Qed.

Lemma TS_WET_create_email : email_check_is_length_only 5 TS.UserManagerWET.createUser.
Proof. email_only. Qed.

Lemma TS_WET_update_email (userId : string) :
  email_check_is_length_only 5 (TS.UserManagerWET.updateUser userId).
Proof. email_only. Qed.

Lemma JS_Configurable_create_email (this : JS.ConfigurableUserManager.t) :
  0 < JS.Config.emailMinLength (JS.Config.validation this) ->
  email_check_is_length_only (JS.Config.emailMinLength (JS.Config.validation this))
    (JS.ConfigurableUserManager.createUser this).
Proof. intros Hmin. email_only. Qed.

Lemma JS_Configurable_update_email (this : JS.ConfigurableUserManager.t)
  (userId : string) :
  0 < JS.Config.emailMinLength (JS.Config.validation this) ->
  email_check_is_length_only (JS.Config.emailMinLength (JS.Config.validation this))
    (JS.ConfigurableUserManager.updateUser this userId).
Proof. intros Hmin. email_only. Qed.

Lemma TS_DRY_create_email :
  email_check_is_length_and_pattern 5 RegExp.emailPattern
    TS.UserManagerDRY.createUser.
Proof. email_and_pattern. Qed.

Lemma TS_DRY_update_email (userId : string) :
  email_check_is_length_and_pattern 5 RegExp.emailPattern
    (TS.UserManagerDRY.updateUser userId).
Proof. email_and_pattern. Qed.

Lemma TS_Concrete_create_email :
  email_check_is_length_and_pattern 5 RegExp.emailPattern
    TS.ConcreteUserManager.createUser.
Proof. email_and_pattern. Qed.

Lemma TS_Concrete_update_email (userId : string) :
  email_check_is_length_and_pattern 5 RegExp.emailPattern
    (TS.ConcreteUserManager.updateUser userId).
Proof. email_and_pattern. Qed.

Lemma TS_Configurable_create_email (this : TS.ConfigurableUserManager.t) :
  let v := UserManagerConfig.validation this in
  0 < ValidationConfig.emailMinLength v ->
  email_check_is_length_and_pattern (ValidationConfig.emailMinLength v)
    (ValidationConfig.emailPattern v)
    (TS.ConfigurableUserManager.createUser this).
Proof. intros v Hmin. subst v. email_and_pattern. Qed.

Lemma TS_Configurable_update_email (this : TS.ConfigurableUserManager.t)
  (userId : string) :
  let v := UserManagerConfig.validation this in
  0 < ValidationConfig.emailMinLength v ->
  email_check_is_length_and_pattern (ValidationConfig.emailMinLength v)
    (ValidationConfig.emailPattern v)
    (TS.ConfigurableUserManager.updateUser this userId).
Proof. intros v Hmin. subst v. email_and_pattern. Qed.

(** ** Invalid input throws *)

Lemma nonempty_short_guards (pw : string) (n : Z) :
  pw <> "" -> JSString.length pw < n ->
  missingOrShorter (Some pw) n = true /\ givenAndShorter (Some pw) n = true
  /\ falsy (Some pw) = false.
Proof.
  intros Hne Hlt. apply Z.ltb_lt in Hlt.
  destruct pw as [|c s]; [congruence |].
  unfold missingOrShorter, givenAndShorter, falsy. cbn [JSString.truthy negb].
  rewrite Hlt. repeat split; reflexivity.
Qed.

Lemma absent_guard (v : option string) (n : Z) :
  absent_or_shorter v n -> missingOrShorter v n = true.
Proof.
  destruct v as [[|c s]|]; simpl; try reflexivity.
  intros H. apply Z.ltb_lt. exact H.
Qed.

Lemma invalid_input_throws (op : Operation) (userData : UserData.t)
  (w : World) :
  userData_of op = Some userData ->
  invalid_input op userData ->
  exists e, outcome (run op w) = Throw e.
Proof.
  intros Hop.
  destruct op; cbn in Hop; try discriminate Hop; injection Hop as ->;
    destruct userData as [email name password];
    try match goal with userId : string |- _ => destruct userId end;
    unfold invalid_input;
    cbn [minima_of is_update UserData.email UserData.name UserData.password];
    intros [H | [H | H]];
    try (destruct H as (pw & -> & Hne & Hlt);
         destruct (nonempty_short_guards pw _ Hne Hlt) as (G1 & G2 & G3));
    try apply absent_guard in H;
    open_run; use_guards; run_cases; use_guards; run_cases;
    eexists; reflexivity.
Qed.

(** ** The inputs that are rejected *)








(** ** The password on create and on update *)

Ltac password_rule_proof :=
  intros userId [email name password] w [He Hn];
  cbn [UserData.email UserData.name UserData.password] in *;
  settle_guards; split;
  [ intros ->; split;
    [ open_code; run_exec; case_guards; eexists; reflexivity
    | open_code; run_exec; reflexivity ]
  | intros p -> Hne Hlt;
    destruct (nonempty_short_guards p _ Hne Hlt) as (G1 & G2 & G3);
    open_code; run_exec; reflexivity ].

Lemma JS_WET_password_rule :
  password_rule (fun p => p <> "")
    JS.UserManagerWET.createUser JS.UserManagerWET.updateUser.
Proof. password_rule_proof. Qed.

Lemma JS_DRY_password_rule :
  password_rule (fun p => p <> "")
    JS.UserManagerDRY.createUser JS.UserManagerDRY.updateUser.
Proof. password_rule_proof. Qed.

Lemma TS_WET_password_rule :
  password_rule (fun p => p <> "")
    TS.UserManagerWET.createUser TS.UserManagerWET.updateUser.
Proof. password_rule_proof. Qed.

(** An empty password given to [updateUser] is let through. *)
Lemma empty_password_on_update (userId : string) (userData : UserData.t)
  (w : World) :
  email_and_name_pass userData ->
  UserData.password userData = Some "" ->
  succeeds (JS.UserManagerWET.updateUser userId userData w)
  /\ succeeds (JS.UserManagerDRY.updateUser userId userData w)
  /\ succeeds (TS.UserManagerWET.updateUser userId userData w).
Proof.
  destruct userData as [email name password]; intros [He Hn];
    cbn [UserData.email UserData.name UserData.password] in *; intros ->.
  settle_guards.
  repeat split; open_code; run_exec; case_guards; eexists; reflexivity.
Qed.

(** ** Records of the DRY managers *)

Ltac returned H :=
  revert H; open_code; run_exec; run_cases; intros H; try discriminate H;
  injection H as <-.

Lemma DRY_create_timestamps (userData : UserData.t) (w : World) (u : User.t) :
  (returns (JS.UserManagerDRY.createUser userData w) u
   \/ returns (TS.UserManagerDRY.createUser userData w) u) ->
  User.createdAt u = Some (User.updatedAt u).
Proof.
  destruct userData as [email name password].
  intros [H | H]; returned H; reflexivity.
Qed.

Lemma DRY_update_keeps_id (userId : string) (userData : UserData.t)
  (w : World) (u : User.t) :
  userId <> "" ->
  (returns (JS.UserManagerDRY.updateUser userId userData w) u
   \/ returns (TS.UserManagerDRY.updateUser userId userData w) u) ->
  User.id u = userId /\ User.createdAt u = None.
Proof.
  destruct userData as [email name password].
  destruct userId as [|c s]; [congruence | intros _].
  intros [H | H]; returned H; split; reflexivity.
Qed.

Lemma WET_update_keeps_id (userId : string) (userData : UserData.t)
  (w : World) (u : User.t) :
  (returns (JS.UserManagerWET.updateUser userId userData w) u
   \/ returns (TS.UserManagerWET.updateUser userId userData w) u) ->
  User.id u = userId /\ User.createdAt u = None.
Proof.
  destruct userData as [email name password].
  intros [H | H]; returned H; split; reflexivity.
Qed.

(** ** WET against DRY *)

Ltac agreeing :=
  unfold agree; open_code; run_exec; run_cases;
  first [reflexivity | repeat split; reflexivity].

Lemma JS_create_equivalent :
  equivalent JS.UserManagerWET.createUser JS.UserManagerDRY.createUser.
Proof. intros [email name password] w. agreeing. Qed.

Lemma JS_update_equivalent (userId : string) :
  equivalent (JS.UserManagerWET.updateUser userId)
    (JS.UserManagerDRY.updateUser userId).
Proof. intros [email name password] w. destruct userId; agreeing. Qed.

Lemma TS_create_equivalent_when :
  equivalent_when short_or_well_formed
    TS.UserManagerWET.createUser TS.UserManagerDRY.createUser.
Proof.
  intros [email name password] w [H | H];
    cbn [UserData.email] in H; settle_guards; agreeing.
Qed.

Lemma TS_update_equivalent_when (userId : string) :
  equivalent_when short_or_well_formed
    (TS.UserManagerWET.updateUser userId) (TS.UserManagerDRY.updateUser userId).
Proof.
  intros [email name password] w [H | H];
    cbn [UserData.email] in H; settle_guards; destruct userId; agreeing.
Qed.

Lemma TS_DRY_rejects_format (userId : string) (userData : UserData.t)
  (w : World) :
  present_with_length (UserData.email userData) 5 ->
  ~ matches_pattern RegExp.emailPattern (UserData.email userData) ->
  throws (TS.UserManagerDRY.createUser userData w) "Invalid email format"
  /\ throws (TS.UserManagerDRY.updateUser userId userData w)
       "Invalid email format".
Proof.
  destruct userData as [email name password];
    cbn [UserData.email]; intros He Hf; settle_guards.
  split; open_code; run_exec; reflexivity.
Qed.

(** * The claims of the specification *)

Ltac by_computation :=
  vm_compute; first [reflexivity | exact I | intros; discriminate | tauto].

(** ** C1 *)

(** C1, as stated, fails: with its default configuration
    [ConfigurableUserManager.createUser] reports a short password as
    "Invalid password", and the TypeScript [UserManagerDRY.createUser]
    reports "Invalid email format" for a five-letter email without an at
    sign although the name is too short. *)
Lemma C1_counterexample :
  throws (JS.ConfigurableUserManager.createUser
            (JS.ConfigurableUserManager.new JS.PartialConfig.empty)
            bob_short world0) "Invalid password"
  /\ throws (TS.UserManagerDRY.createUser no_at_sign_short_name world0)
       "Invalid email format"
  /\ ~ names_failed_field
         (JS.ConfigurableUserManager.createUser
            (JS.ConfigurableUserManager.new JS.PartialConfig.empty))
  /\ ~ names_failed_field TS.UserManagerDRY.createUser.
Proof.
  split; [by_computation |]. split; [by_computation |]. split.
  - intros H. destruct (H bob_short world0) as (_ & _ & _ & H4).
    assert (Hthrow := H4 ltac:(by_computation) I ltac:(by_computation)
                        ltac:(by_computation)).
    vm_compute in Hthrow. discriminate Hthrow.
  - intros H. destruct (H no_at_sign_short_name world0) as (_ & _ & H3 & _).
    assert (Hthrow := H3 ltac:(by_computation) I ltac:(by_computation)).
    vm_compute in Hthrow. discriminate Hthrow.
Qed.

(** C1 (amended): [createUser] throws an [Error] whose message names the
    length check that fails first, in the order email, name, password.
    [UserManagerWET] (both files) and the JavaScript [UserManagerDRY] use
    "Invalid email", "Invalid name" and "Password too short" with the minima
    5, 2 and 8.  The TypeScript [UserManagerDRY] and [ConcreteUserManager]
    use the same messages and minima, but hold an email of sufficient length
    against the email pattern before name and password are looked at and
    throw "Invalid email format" when it does not match.
    [ConfigurableUserManager] checks against its configured minima (taken
    positive) and reports a short password as "Invalid password"; its
    TypeScript version also has the pattern check. *)
Theorem C1_first_failed_check_is_named :
  names_failed_field JS.UserManagerWET.createUser
  /\ names_failed_field JS.UserManagerDRY.createUser
  /\ names_failed_field TS.UserManagerWET.createUser
  /\ names_first_failed 5 2 8 "Password too short" (Some RegExp.emailPattern)
       TS.UserManagerDRY.createUser
  /\ names_first_failed 5 2 8 "Password too short" (Some RegExp.emailPattern)
       TS.ConcreteUserManager.createUser
  /\ (forall this : JS.ConfigurableUserManager.t,
        let v := JS.Config.validation this in
        0 < JS.Config.emailMinLength v ->
        0 < JS.Config.nameMinLength v ->
        0 < JS.Config.passwordMinLength v ->
        names_first_failed (JS.Config.emailMinLength v)
          (JS.Config.nameMinLength v) (JS.Config.passwordMinLength v)
          "Invalid password" None
          (JS.ConfigurableUserManager.createUser this))
  /\ (forall this : TS.ConfigurableUserManager.t,
        let v := UserManagerConfig.validation this in
        0 < ValidationConfig.emailMinLength v ->
        0 < ValidationConfig.nameMinLength v ->
        0 < ValidationConfig.passwordMinLength v ->
        names_first_failed (ValidationConfig.emailMinLength v)
          (ValidationConfig.nameMinLength v)
          (ValidationConfig.passwordMinLength v)
          "Invalid password" (Some (ValidationConfig.emailPattern v))
          (TS.ConfigurableUserManager.createUser this)).
Proof.
  exact (conj JS_WET_names_failed_field
          (conj JS_DRY_names_failed_field
          (conj TS_WET_names_failed_field
          (conj TS_DRY_names_first_failed
          (conj TS_Concrete_names_first_failed
          (conj JS_Configurable_names_first_failed
                TS_Configurable_names_first_failed)))))).
Qed.

(** The amended C1 at work: a short email, then a short name, then a short
    password under the 12-character configuration of the example. *)
Lemma C1_witness :
  throws (JS.UserManagerDRY.createUser short_email world0) "Invalid email"
  /\ throws (JS.UserManagerWET.createUser short_name world0) "Invalid name"
  /\ throws (JS.ConfigurableUserManager.createUser configurableManager
               bob_nine world0) "Invalid password".
Proof.
  destruct C1_first_failed_check_is_named as (Hwet & Hdry & _ & _ & _ & Hcfg & _).
  split; [| split].
  - apply (proj1 (Hdry short_email world0)). by_computation.
  - apply (proj1 (proj2 (proj2 (Hwet short_name world0)))); by_computation.
  - apply (proj2 (proj2 (proj2
             (Hcfg configurableManager ltac:(by_computation)
                ltac:(by_computation) ltac:(by_computation)
                bob_nine world0)))); by_computation.
Defined.

(** ** C2 *)

(** C2: [NotificationService.notify(m)] runs [send(m)] of every sender of
    the list once, first to last, and a sender of the three classes prints
    exactly one line, "Sending EMAIL: ", "Sending SMS: " or
    "Sending PUSH: " followed by the content of the message: the console
    grows by one such line per sender, in list order, and nothing else
    changes. *)
Theorem C2_notify_each_sender_once_in_order
  (message : SOLID.Message) (classes : list SOLID.SenderClass) (w : World) :
  let service :=
    SOLID.NotificationService.new (map SOLID.instance classes) in
  SOLID.NotificationService.notify service message w
  = (fold_left (fun w' s => final (SOLID.send s message w')) service w,
     Normal tt)
  /\ SOLID.NotificationService.notify service message w
     = (printed w (map (SOLID.sentLine message) classes), Normal tt)
  /\ length (console (final (SOLID.NotificationService.notify service
                               message w)))
     = (length (console w) + length classes)%nat
  /\ (forall c w',
        SOLID.send (SOLID.instance c) message w'
        = (printed w'
             [(c_log,
               "Sending " ++ SOLID.channel c ++ ": " ++ SOLID.content message)],
           Normal tt)).
Proof.
  cbn zeta. split; [| split; [| split]].
  - apply notify_in_order. intros s w' Hin.
    apply in_map_iff in Hin as (c & <- & _).
    rewrite send_instance. reflexivity.
  - apply notify_instances.
  - rewrite notify_instances. unfold final, printed. cbn.
    rewrite length_app, length_map. reflexivity.
  - intros c w'. apply send_instance.
Qed.

(** ** C3 *)

(** C3, as stated, fails: "abcde" has five characters, yet the TypeScript
    [UserManagerDRY.createUser] throws "Invalid email format". *)
Lemma C3_counterexample :
  lengths_pass 5 2 8 no_at_sign
  /\ throws (TS.UserManagerDRY.createUser no_at_sign world0)
       "Invalid email format"
  /\ ~ accepts_well_formed TS.UserManagerDRY.createUser.
Proof.
  assert (Hlen : lengths_pass 5 2 8 no_at_sign).
  { repeat split; by_computation. }
  split; [exact Hlen |]. split; [by_computation |].
  intros H. destruct (H no_at_sign world0 Hlen) as [u Hu].
  vm_compute in Hu. discriminate Hu.
Qed.

(** C3 (amended): user data whose three fields pass the length checks is
    accepted, and a record returned, by [createUser] of [UserManagerWET]
    (both files), of the JavaScript [UserManagerDRY], and of the JavaScript
    [ConfigurableUserManager] when the lengths are measured against its
    configured (positive) minima; the TypeScript [UserManagerDRY],
    [ConcreteUserManager] and [ConfigurableUserManager] accept it when the
    email also matches the email pattern. *)
Theorem C3_well_formed_input_is_accepted :
  accepts_well_formed JS.UserManagerWET.createUser
  /\ accepts_well_formed JS.UserManagerDRY.createUser
  /\ accepts_well_formed TS.UserManagerWET.createUser
  /\ (forall this : JS.ConfigurableUserManager.t,
        let v := JS.Config.validation this in
        0 < JS.Config.emailMinLength v ->
        0 < JS.Config.nameMinLength v ->
        0 < JS.Config.passwordMinLength v ->
        forall userData w,
          lengths_pass (JS.Config.emailMinLength v) (JS.Config.nameMinLength v)
            (JS.Config.passwordMinLength v) userData ->
          succeeds (JS.ConfigurableUserManager.createUser this userData w))
  /\ (forall userData w,
        lengths_pass 5 2 8 userData ->
        matches_pattern RegExp.emailPattern (UserData.email userData) ->
        succeeds (TS.UserManagerDRY.createUser userData w)
        /\ succeeds (TS.ConcreteUserManager.createUser userData w))
  /\ (forall this : TS.ConfigurableUserManager.t,
        let v := UserManagerConfig.validation this in
        0 < ValidationConfig.emailMinLength v ->
        0 < ValidationConfig.nameMinLength v ->
        0 < ValidationConfig.passwordMinLength v ->
        forall userData w,
          lengths_pass (ValidationConfig.emailMinLength v)
            (ValidationConfig.nameMinLength v)
            (ValidationConfig.passwordMinLength v) userData ->
          matches_pattern (ValidationConfig.emailPattern v)
            (UserData.email userData) ->
          succeeds (TS.ConfigurableUserManager.createUser this userData w)).
Proof.
  refine (conj JS_WET_accepts_well_formed
         (conj JS_DRY_accepts_well_formed
         (conj TS_WET_accepts_well_formed
         (conj JS_Configurable_accepts
         (conj _ TS_Configurable_accepts))))).
  intros userData w Hlen Hpat. split.
  - apply TS_DRY_accepts; assumption.
  - apply TS_Concrete_accepts; assumption.
Qed.

(** The amended C3 on the users of the usage examples. *)
Lemma C3_witness :
  succeeds (JS.UserManagerWET.createUser john world0)
  /\ succeeds (TS.UserManagerDRY.createUser john world0).
Proof.
  destruct C3_well_formed_input_is_accepted as (Hwet & _ & _ & _ & Hts & _).
  assert (Hlen : lengths_pass 5 2 8 john) by (repeat split; by_computation).
  split.
  - exact (Hwet john world0 Hlen).
  - exact (proj1 (Hts john world0 Hlen ltac:(by_computation))).
Defined.

(** ** C4 *)

(** C4, as stated, fails: the TypeScript [UserManagerDRY] rejects the
    five-character email "abcde". *)
Lemma C4_counterexample :
  present_with_length (UserData.email no_at_sign) 5
  /\ rejects_email (TS.UserManagerDRY.createUser no_at_sign world0)
  /\ ~ email_check_is_length_only 5 TS.UserManagerDRY.createUser.
Proof.
  assert (Hlen : present_with_length (UserData.email no_at_sign) 5)
    by by_computation.
  assert (Hrej : rejects_email (TS.UserManagerDRY.createUser no_at_sign world0))
    by (right; by_computation).
  split; [exact Hlen |]. split; [exact Hrej |].
  intros H. apply (proj2 (H no_at_sign world0) Hlen). exact Hrej.
Qed.

(** C4 (amended): in the JavaScript file and in [UserManagerWET] of the
    TypeScript file email validation is the length check alone: [createUser]
    and [updateUser] let the email pass exactly when it is present with at
    least the minimum number of characters, 5 or the positive configured
    minimum.  In the TypeScript [UserManagerDRY], [ConcreteUserManager] and
    [ConfigurableUserManager] the email passes exactly when it has that
    length and also matches the email pattern of the rules or of the
    configuration. *)
Theorem C4_email_validation :
  (email_check_is_length_only 5 JS.UserManagerWET.createUser
   /\ (forall userId,
         email_check_is_length_only 5 (JS.UserManagerWET.updateUser userId))
   /\ email_check_is_length_only 5 JS.UserManagerDRY.createUser
   /\ (forall userId,
         email_check_is_length_only 5 (JS.UserManagerDRY.updateUser userId))
   /\ email_check_is_length_only 5 TS.UserManagerWET.createUser
   /\ (forall userId,
         email_check_is_length_only 5 (TS.UserManagerWET.updateUser userId)))
  /\ (forall (this : JS.ConfigurableUserManager.t) userId,
        let min := JS.Config.emailMinLength (JS.Config.validation this) in
        0 < min ->
        email_check_is_length_only min
          (JS.ConfigurableUserManager.createUser this)
        /\ email_check_is_length_only min
             (JS.ConfigurableUserManager.updateUser this userId))
  /\ (email_check_is_length_and_pattern 5 RegExp.emailPattern
        TS.UserManagerDRY.createUser
      /\ (forall userId,
            email_check_is_length_and_pattern 5 RegExp.emailPattern
              (TS.UserManagerDRY.updateUser userId))
      /\ email_check_is_length_and_pattern 5 RegExp.emailPattern
           TS.ConcreteUserManager.createUser
      /\ (forall userId,
            email_check_is_length_and_pattern 5 RegExp.emailPattern
              (TS.ConcreteUserManager.updateUser userId)))
  /\ (forall (this : TS.ConfigurableUserManager.t) userId,
        let v := UserManagerConfig.validation this in
        0 < ValidationConfig.emailMinLength v ->
        email_check_is_length_and_pattern (ValidationConfig.emailMinLength v)
          (ValidationConfig.emailPattern v)
          (TS.ConfigurableUserManager.createUser this)
        /\ email_check_is_length_and_pattern
             (ValidationConfig.emailMinLength v)
             (ValidationConfig.emailPattern v)
             (TS.ConfigurableUserManager.updateUser this userId)).
Proof.
  split; [| split; [| split]].
  - exact (conj JS_WET_create_email
          (conj JS_WET_update_email
          (conj JS_DRY_create_email
          (conj JS_DRY_update_email
          (conj TS_WET_create_email TS_WET_update_email))))).
  - intros this userId min Hmin. split.
    + apply JS_Configurable_create_email. exact Hmin.
    + apply JS_Configurable_update_email. exact Hmin.
  - exact (conj TS_DRY_create_email
          (conj TS_DRY_update_email
          (conj TS_Concrete_create_email TS_Concrete_update_email))).
  - intros this userId v Hmin. split.
    + apply TS_Configurable_create_email. exact Hmin.
    + apply TS_Configurable_update_email. exact Hmin.
Qed.

(** The amended C4 on two emails of five characters: the JavaScript manager
    lets "abcde" pass, the TypeScript one does not. *)
Lemma C4_witness :
  ~ rejects_email (JS.UserManagerDRY.createUser no_at_sign world0)
  /\ (~ rejects_email (TS.UserManagerDRY.createUser no_at_sign world0)
      <-> present_with_length (UserData.email no_at_sign) 5
          /\ matches_pattern RegExp.emailPattern (UserData.email no_at_sign)).
Proof.
  destruct C4_email_validation as ((_ & _ & Hjs & _) & _ & (Hts & _) & _).
  split.
  - apply (proj2 (Hjs no_at_sign world0)). by_computation.
  - exact (Hts no_at_sign world0).
Defined.

(** ** C5 *)




(** ** C6 *)




(** ** C7 *)

(** C7, as stated, fails: [createUser] trims after lower-casing, so an
    email with a leading space does not come back merely lower-cased, and a
    name with a trailing space does not come back as given. *)
Lemma C7_counterexample :
  outcome (run (JS_WET_createUser padded) world0)
  = Normal (VUser (User.make "id0" "john@example.com" "John Doe"
                     (Some "password123") (Some "t0") "t1"))
  /\ JSString.toLowerCase " John@Example.com" <> "john@example.com"
  /\ ~ formats_by_lowercasing (JS_WET_createUser padded).
Proof.
  split; [by_computation |]. split; [by_computation |].
  intros H.
  destruct (H padded world0 _ eq_refl ltac:(vm_compute; reflexivity))
    as (email & name & He & Hn & Hemail & Hname).
  injection He as <-. vm_compute in Hemail. discriminate Hemail.
Qed.

(** C7 (amended): in every record that [createUser] or [updateUser] of any
    manager returns, the email is the input email lower-cased and then
    trimmed of leading and trailing white space, the name is the input name
    trimmed, and the password is the input password. *)
Theorem C7_email_lowercased_and_trimmed (op : Operation) :
  formats_by_lowercasing_and_trimming op.
Proof.
  intros userData w u Hop Hret.
  exact (user_operation_formats op userData w u Hop Hret).
Qed.

(** The amended C7 on the padded input. *)
Lemma C7_witness :
  exists email name,
    UserData.email padded = Some email
    /\ UserData.name padded = Some name
    /\ "john@example.com" = JSString.trim (JSString.toLowerCase email)
    /\ "John Doe" = JSString.trim name
    /\ Some "password123" = UserData.password padded.
Proof.
  exact (C7_email_lowercased_and_trimmed (JS_WET_createUser padded)
           padded world0
           (User.make "id0" "john@example.com" "John Doe"
              (Some "password123") (Some "t0") "t1")
           eq_refl ltac:(vm_compute; reflexivity)).
Defined.

(** ** C8 *)

(** C8, as stated, fails: an empty password given to [updateUser] is
    shorter than eight characters, and the call returns a record. *)
Lemma C8_counterexample :
  outcome (JS.UserManagerWET.updateUser "u1" john_empty_password world0)
  = Normal (User.make "u1" "john@example.com" "John Doe" (Some "") None "t0")
  /\ ~ password_rule (fun _ => True)
         JS.UserManagerWET.createUser JS.UserManagerWET.updateUser.
Proof.
  split; [by_computation |].
  intros H.
  assert (Hpass : email_and_name_pass john_empty_password)
    by (split; by_computation).
  destruct (H "u1" john_empty_password world0 Hpass) as [_ Hshort].
  specialize (Hshort "" eq_refl I ltac:(by_computation)).
  vm_compute in Hshort. discriminate Hshort.
Qed.

(** C8 (amended): in [UserManagerWET] (both files) and the JavaScript
    [UserManagerDRY], for user data whose email and name pass their length
    checks: without a password [updateUser] returns a record while
    [createUser] throws "Password too short"; a non-empty password of fewer
    than eight characters makes [updateUser] throw "Password too short";
    an empty password is treated by [updateUser] as none. *)
Theorem C8_password_required_on_create_only :
  password_rule (fun p => p <> "")
    JS.UserManagerWET.createUser JS.UserManagerWET.updateUser
  /\ password_rule (fun p => p <> "")
       JS.UserManagerDRY.createUser JS.UserManagerDRY.updateUser
  /\ password_rule (fun p => p <> "")
       TS.UserManagerWET.createUser TS.UserManagerWET.updateUser
  /\ (forall userId userData w,
        email_and_name_pass userData ->
        UserData.password userData = Some "" ->
        succeeds (JS.UserManagerWET.updateUser userId userData w)
        /\ succeeds (JS.UserManagerDRY.updateUser userId userData w)
        /\ succeeds (TS.UserManagerWET.updateUser userId userData w)).
Proof.
  exact (conj JS_WET_password_rule
        (conj JS_DRY_password_rule
        (conj TS_WET_password_rule empty_password_on_update))).
Qed.

(** The amended C8 on John without a password. *)
Lemma C8_witness :
  succeeds (JS.UserManagerDRY.updateUser "u1" john_without_password world0)
  /\ throws (JS.UserManagerDRY.createUser john_without_password world0)
       "Password too short".
Proof.
  destruct C8_password_required_on_create_only as (_ & Hdry & _).
  refine (proj1 (Hdry "u1" john_without_password world0 _) eq_refl).
  split; by_computation.
Defined.

(** ** C9 *)

(** C9 at the failing input, the empty [userId]: [updateUser] of
    [UserManagerDRY] (both files) returns a record with a fresh identifier
    and a [createdAt] field, where [updateUser] of [UserManagerWET] keeps
    the identifier and sets no [createdAt]. *)
Theorem C9_update_with_empty_userId :
  outcome (JS.UserManagerDRY.updateUser "" john world0)
  = Normal (User.make "id0" "john@example.com" "John Doe"
              (Some "password123") (Some "t0") "t0")
  /\ outcome (TS.UserManagerDRY.updateUser "" john world0)
     = Normal (User.make "id0" "john@example.com" "John Doe"
                 (Some "password123") (Some "t0") "t0")
  /\ outcome (JS.UserManagerWET.updateUser "" john world0)
     = Normal (User.make "" "john@example.com" "John Doe"
                 (Some "password123") None "t0").
Proof. repeat split; by_computation. Qed.

(** ** C10 *)

(** C10, as stated, fails in the TypeScript file: for the email "abcde"
    [UserManagerWET.createUser] returns a record and
    [UserManagerDRY.createUser] throws "Invalid email format". *)
Lemma C10_counterexample :
  succeeds (TS.UserManagerWET.createUser no_at_sign world0)
  /\ throws (TS.UserManagerDRY.createUser no_at_sign world0)
       "Invalid email format"
  /\ ~ equivalent TS.UserManagerWET.createUser TS.UserManagerDRY.createUser.
Proof.
  split; [eexists; by_computation |]. split; [by_computation |].
  intros H. specialize (H no_at_sign world0). vm_compute in H. exact H.
Qed.

(** C10 (amended): in the JavaScript file [UserManagerWET] and
    [UserManagerDRY] are equivalent: on every input [createUser] (and
    [updateUser]) of the one throws exactly when that of the other does,
    with the same message, and returned records agree on email, name and
    password.  In the TypeScript file the same holds on the inputs whose
    email fails the length check or matches the email pattern; on the
    others [UserManagerDRY] throws "Invalid email format". *)
Theorem C10_WET_and_DRY_agree :
  equivalent JS.UserManagerWET.createUser JS.UserManagerDRY.createUser
  /\ (forall userId,
        equivalent (JS.UserManagerWET.updateUser userId)
          (JS.UserManagerDRY.updateUser userId))
  /\ equivalent_when short_or_well_formed
       TS.UserManagerWET.createUser TS.UserManagerDRY.createUser
  /\ (forall userId,
        equivalent_when short_or_well_formed
          (TS.UserManagerWET.updateUser userId)
          (TS.UserManagerDRY.updateUser userId))
  /\ (forall userId userData w,
        present_with_length (UserData.email userData) 5 ->
        ~ matches_pattern RegExp.emailPattern (UserData.email userData) ->
        throws (TS.UserManagerDRY.createUser userData w)
          "Invalid email format"
        /\ throws (TS.UserManagerDRY.updateUser userId userData w)
             "Invalid email format").
Proof.
  exact (conj JS_create_equivalent
        (conj JS_update_equivalent
        (conj TS_create_equivalent_when
        (conj TS_update_equivalent_when TS_DRY_rejects_format)))).
Qed.

(** The amended C10 on John, whose email matches the pattern. *)
Lemma C10_witness :
  agree (TS.UserManagerWET.createUser john world0)
    (TS.UserManagerDRY.createUser john world0).
Proof.
  destruct C10_WET_and_DRY_agree as (_ & _ & Hts & _).
  apply Hts. right. by_computation.
Defined.

(** * Further properties *)

(** ** Patterns and their languages *)

Section Languages.

Import RegExp Language.

Lemma append_nil_l (s : string) : "" ++ s = s.
Proof. reflexivity. Qed.

Lemma append_cons (c : ascii) (s1 s2 : string) :
  String c s1 ++ s2 = String c (s1 ++ s2).
Proof. reflexivity. Qed.

Lemma append_nil_inv (s1 s2 : string) : s1 ++ s2 = "" -> s1 = "" /\ s2 = "".
Proof.
  destruct s1; rewrite ?append_nil_l, ?append_cons; [auto | discriminate].
Qed.

Lemma append_cons_inv (c : ascii) (s s1 s2 : string) :
  s1 ++ s2 = String c s ->
  (s1 = "" /\ s2 = String c s)
  \/ (exists s1', s1 = String c s1' /\ s = s1' ++ s2).
Proof.
  destruct s1 as [|c1 s1']; rewrite ?append_nil_l, ?append_cons.
  - intros ->. left. split; reflexivity.
  - intros [= -> <-]. right. exists s1'. split; reflexivity.
Qed.

Lemma nullable_lang (r : re) : nullable r = true <-> lang r "".
Proof.
  induction r as [| |p|r1 IH1 r2 IH2|r1 IH1 r2 IH2|r IH]; simpl.
  - split; [discriminate | tauto].
  - split; reflexivity.
  - split; [discriminate | intros (c & H & _); discriminate H].
  - rewrite andb_true_iff, IH1, IH2. split.
    + intros [H1 H2]. exists "", "". repeat split; assumption.
    + intros (s1 & s2 & Heq & H1 & H2).
      symmetry in Heq. apply append_nil_inv in Heq as [-> ->]. split; assumption.
  - rewrite orb_true_iff, IH1, IH2. reflexivity.
  - split; [intros _; constructor | reflexivity].
Qed.

Lemma star_cons_inv (L : string -> Prop) (x : string) :
  star L x ->
  forall c s, x = String c s ->
  exists s1 s2, s = s1 ++ s2 /\ L (String c s1) /\ star L s2.
Proof.
  induction 1 as [|s1 s2 H1 H2 IH]; intros c s Heq.
  - discriminate Heq.
  - apply append_cons_inv in Heq as [[-> ->] | (s1' & -> & ->)].
    + apply IH. reflexivity.
    + exists s1', s2. repeat split; assumption.
Qed.

Lemma deriv_lang (c : ascii) (r : re) (s : string) :
  lang (deriv c r) s <-> lang r (String c s).
Proof.
  revert s.
  induction r as [| |p|r1 IH1 r2 IH2|r1 IH1 r2 IH2|r IH]; intros s; simpl.
  - tauto.
  - split; [tauto | discriminate].
  - destruct (p c) eqn:Hp; simpl.
    + split.
      * intros ->. exists c. split; [reflexivity | exact Hp].
      * intros (c' & [= <- ->] & _). reflexivity.
    + split; [tauto |].
      intros (c' & [= <- ->] & Hp'). congruence.
  - assert (Hcat : lang (Cat (deriv c r1) r2) s
                   <-> exists s1' s2, s = s1' ++ s2
                                      /\ lang r1 (String c s1') /\ lang r2 s2).
    { simpl. split.
      - intros (s1 & s2 & -> & H1 & H2). exists s1, s2.
        repeat split; [apply IH1; exact H1 | exact H2].
      - intros (s1 & s2 & -> & H1 & H2). exists s1, s2.
        repeat split; [apply IH1; exact H1 | exact H2]. }
    destruct (nullable r1) eqn:Hn.
    + change (lang (Cat (deriv c r1) r2) s \/ lang (deriv c r2) s
              <-> exists s1 s2, String c s = s1 ++ s2
                                /\ lang r1 s1 /\ lang r2 s2).
      rewrite Hcat, IH2. split.
      * intros [(s1 & s2 & -> & H1 & H2) | H2].
        -- exists (String c s1), s2. repeat split; assumption.
        -- exists "", (String c s). repeat split;
             [apply nullable_lang; exact Hn | exact H2].
      * intros (s1 & s2 & Heq & H1 & H2). symmetry in Heq.
        apply append_cons_inv in Heq as [[-> ->] | (s1' & -> & ->)].
        -- right. exact H2.
        -- left. exists s1', s2. repeat split; assumption.
    + rewrite Hcat. split.
      * intros (s1 & s2 & -> & H1 & H2).
        exists (String c s1), s2. repeat split; assumption.
      * intros (s1 & s2 & Heq & H1 & H2). symmetry in Heq.
        apply append_cons_inv in Heq as [[-> ->] | (s1' & -> & ->)].
        -- apply nullable_lang in H1. congruence.
        -- exists s1', s2. repeat split; assumption.
  - rewrite IH1, IH2. reflexivity.
  - split.
    + intros (s1 & s2 & -> & H1 & H2).
      apply (star_app _ (String c s1) s2); [apply IH; exact H1 | exact H2].
    + intros H. destruct (star_cons_inv _ _ H c s eq_refl)
        as (s1 & s2 & -> & H1 & H2).
      exists s1, s2. repeat split; [apply IH; exact H1 | exact H2].
Qed.

(** The matcher decides the language of the pattern. *)
Lemma matches_lang (r : re) (s : string) : matches r s = true <-> lang r s.
Proof.
  revert r. induction s as [|c s IH]; intros r; simpl.
  - apply nullable_lang.
  - rewrite IH. apply deriv_lang.
Qed.

End Languages.

(** ** The shape of an email that matches the pattern *)

Section EmailShape.

Import RegExp Language.

Lemma allChars_append (p : ascii -> bool) (s1 s2 : string) :
  allChars p (s1 ++ s2) = allChars p s1 && allChars p s2.
Proof.
  induction s1 as [|c s1 IH]; rewrite ?append_nil_l, ?append_cons; simpl.
  - reflexivity.
  - rewrite IH, andb_assoc. reflexivity.
Qed.

Lemma allChars_impl (p q : ascii -> bool) (s : string) :
  (forall c, p c = true -> q c = true) ->
  allChars p s = true -> allChars q s = true.
Proof.
  intros Hpq. induction s as [|c s IH]; simpl; [reflexivity |].
  rewrite !andb_true_iff. intros [Hc Hs]. split; [apply Hpq; exact Hc | apply IH; exact Hs].
Qed.

Lemma length_app_string (s1 s2 : string) :
  String.length (s1 ++ s2) = (String.length s1 + String.length s2)%nat.
Proof.
  induction s1 as [|c s1 IH]; rewrite ?append_nil_l, ?append_cons; simpl;
    [reflexivity | rewrite IH; reflexivity].
Qed.

Lemma lang_class (p : ascii -> bool) (s : string) :
  lang (Class p) s <-> exists c, s = String c "" /\ p c = true.
Proof. reflexivity. Qed.

Lemma lang_chr (c : ascii) (s : string) : lang (Chr c) s <-> s = String c "".
Proof.
  unfold Chr. simpl. split.
  - intros (c' & -> & H). apply Ascii.eqb_eq in H. subst c'. reflexivity.
  - intros ->. exists c. split; [reflexivity | apply Ascii.eqb_refl].
Qed.

Lemma lang_star_class (p : ascii -> bool) (s : string) :
  lang (Star (Class p)) s <-> allChars p s = true.
Proof.
  simpl. split.
  - induction 1 as [|s1 s2 (c & -> & Hc) _ IH]; [reflexivity |].
    rewrite append_cons, append_nil_l. simpl. rewrite Hc, IH. reflexivity.
  - revert s. induction s as [|c s IH]; simpl; [intros _; constructor |].
    rewrite andb_true_iff. intros [Hc Hs].
    change (String c s) with (String c "" ++ s).
    apply star_app; [exists c; split; [reflexivity | exact Hc] | apply IH; exact Hs].
Qed.

Lemma lang_plus_class (p : ascii -> bool) (s : string) :
  lang (Plus (Class p)) s <-> s <> "" /\ allChars p s = true.
Proof.
  unfold Plus.
  change (lang (Cat (Class p) (Star (Class p))) s)
    with (exists s1 s2, s = s1 ++ s2 /\ lang (Class p) s1
                        /\ lang (Star (Class p)) s2).
  split.
  - intros (s1 & s2 & -> & (c & -> & Hc) & H2). apply lang_star_class in H2.
    rewrite append_cons, append_nil_l. simpl. rewrite Hc, H2.
    split; [discriminate | reflexivity].
  - destruct s as [|c s]; [intros [H _]; congruence |].
    simpl. rewrite andb_true_iff. intros [_ [Hc Hs]].
    exists (String c ""), s. repeat split.
    + exists c. split; [reflexivity | exact Hc].
    + apply lang_star_class. exact Hs.
Qed.

Lemma lang_cat (r1 r2 : re) (s : string) :
  lang (Cat r1 r2) s
  <-> exists s1 s2, s = s1 ++ s2 /\ lang r1 s1 /\ lang r2 s2.
Proof. reflexivity. Qed.

Lemma two_letters (t : string) :
  lang (Cat (Class letter) (Cat (Class letter) (Star (Class letter)))) t
  <-> (2 <= String.length t)%nat /\ allChars letter t = true.
Proof.
  rewrite lang_cat. split.
  - intros (s1 & s2 & -> & (a & -> & Ha) & H2).
    rewrite lang_cat in H2. destruct H2 as (s3 & s4 & -> & (b & -> & Hb) & H4).
    apply lang_star_class in H4.
    rewrite !append_cons, !append_nil_l. simpl. rewrite Ha, Hb, H4.
    split; [lia | reflexivity].
  - destruct t as [|a [|b t]]; simpl; try (intros [H _]; lia).
    rewrite !andb_true_iff. intros [_ (Ha & Hb & Ht)].
    exists (String a ""), (String b t). repeat split.
    + exists a. split; [reflexivity | exact Ha].
    + exists (String b ""), t. repeat split.
      * exists b. split; [reflexivity | exact Hb].
      * apply lang_star_class. exact Ht.
Qed.

Lemma emailPattern_shape (s : string) :
  test emailPattern s = true <-> email_shape s.
Proof.
  unfold test, emailPattern, email_shape. cbn [body].
  rewrite matches_lang, lang_cat. split.
  - intros (l & s2 & -> & Hl & H2).
    apply lang_plus_class in Hl as [Hl1 Hl2].
    rewrite lang_cat in H2. destruct H2 as (at_ & s3 & -> & Hat & H3).
    apply lang_chr in Hat as ->.
    rewrite lang_cat in H3. destruct H3 as (d & s4 & -> & Hd & H4).
    apply lang_plus_class in Hd as [Hd1 Hd2].
    rewrite lang_cat in H4. destruct H4 as (dot & t & -> & Hdot & Ht).
    apply lang_chr in Hdot as ->.
    apply two_letters in Ht as [Ht1 Ht2].
    exists l, d, t. repeat split; assumption.
  - intros (l & d & t & -> & Hl1 & Hl2 & Hd1 & Hd2 & Ht1 & Ht2).
    exists l, ("@" ++ d ++ "." ++ t). repeat split.
    + apply lang_plus_class. split; assumption.
    + rewrite lang_cat. exists "@", (d ++ "." ++ t). repeat split.
      * apply lang_chr. reflexivity.
      * rewrite lang_cat. exists d, ("." ++ t). repeat split.
        -- apply lang_plus_class. split; assumption.
        -- rewrite lang_cat. exists ".", t. repeat split.
           ++ apply lang_chr. reflexivity.
           ++ apply two_letters. split; assumption.
Qed.

End EmailShape.

(** ** Trimming and lower-casing *)

Section Formatting.

Import JSString.

Ltac every_char c :=
  destruct c as [[] [] [] [] [] [] [] []]; vm_compute;
  first [reflexivity | intros; first [reflexivity | discriminate]].

Lemma toLowerCaseUnit_idempotent (c : ascii) :
  toLowerCaseUnit (toLowerCaseUnit c) = toLowerCaseUnit c.
Proof. every_char c. Qed.

Lemma isWhiteSpace_toLowerCaseUnit (c : ascii) :
  isWhiteSpace (toLowerCaseUnit c) = isWhiteSpace c.
Proof. every_char c. Qed.

Lemma pattern_chars_not_white (c : ascii) :
  (RegExp.localChar c || RegExp.domainChar c || RegExp.letter c
   || Ascii.eqb c "@" || Ascii.eqb c ".")%bool = true ->
  isWhiteSpace c = false.
Proof. every_char c. Qed.

Lemma toLowerCase_cons (c : ascii) (s : string) :
  toLowerCase (String c s) = String (toLowerCaseUnit c) (toLowerCase s).
Proof. reflexivity. Qed.

Lemma toLowerCase_idempotent (s : string) :
  toLowerCase (toLowerCase s) = toLowerCase s.
Proof.
  induction s as [|c s IH]; [reflexivity |].
  rewrite !toLowerCase_cons, toLowerCaseUnit_idempotent, IH. reflexivity.
Qed.

Lemma toLowerCase_length (s : string) :
  String.length (toLowerCase s) = String.length s.
Proof.
  induction s as [|c s IH]; [reflexivity |].
  rewrite toLowerCase_cons. simpl. rewrite IH. reflexivity.
Qed.

Lemma toLowerCase_trimStart (s : string) :
  toLowerCase (trimStart s) = trimStart (toLowerCase s).
Proof.
  induction s as [|c s IH]; [reflexivity |].
  rewrite toLowerCase_cons. simpl. rewrite isWhiteSpace_toLowerCaseUnit.
  destruct (isWhiteSpace c); [exact IH | apply toLowerCase_cons].
Qed.

Lemma toLowerCase_trimEnd (s : string) :
  toLowerCase (trimEnd s) = trimEnd (toLowerCase s).
Proof.
  induction s as [|c s IH]; [reflexivity |].
  rewrite toLowerCase_cons. simpl. rewrite <- IH, isWhiteSpace_toLowerCaseUnit.
  destruct (trimEnd s) as [|d u].
  - change (toLowerCase "") with "". destruct (isWhiteSpace c); reflexivity.
  - rewrite !toLowerCase_cons. reflexivity.
Qed.

Lemma toLowerCase_trim (s : string) :
  toLowerCase (trim s) = trim (toLowerCase s).
Proof.
  unfold trim. rewrite toLowerCase_trimEnd, toLowerCase_trimStart. reflexivity.
Qed.

Lemma trimStart_clean (s : string) : starts_clean (trimStart s).
Proof.
  induction s as [|c s IH]; simpl; [exact I |].
  destruct (isWhiteSpace c) eqn:E; [exact IH | exact E].
Qed.

Lemma trimStart_id (s : string) : starts_clean s -> trimStart s = s.
Proof. destruct s as [|c s]; simpl; [reflexivity | intros ->; reflexivity]. Qed.

Lemma trimEnd_clean (s : string) : starts_clean s -> starts_clean (trimEnd s).
Proof.
  destruct s as [|c s]; simpl; [auto |].
  intros Hc. destruct (trimEnd s); [rewrite Hc |]; exact Hc.
Qed.

Lemma trimEnd_idempotent (s : string) : trimEnd (trimEnd s) = trimEnd s.
Proof.
  induction s as [|c s IH]; simpl; [reflexivity |].
  destruct (trimEnd s) as [|d u] eqn:E.
  - destruct (isWhiteSpace c) eqn:Ec; simpl; [reflexivity | rewrite Ec; reflexivity].
  - simpl. simpl in IH. rewrite IH. reflexivity.
Qed.

Lemma trim_idempotent (s : string) : trim (trim s) = trim s.
Proof.
  unfold trim.
  rewrite (trimStart_id (trimEnd (trimStart s))).
  - apply trimEnd_idempotent.
  - apply trimEnd_clean, trimStart_clean.
Qed.

Lemma trimEnd_length (s : string) :
  (String.length (trimEnd s) <= String.length s)%nat.
Proof.
  induction s as [|c s IH]; simpl; [lia |].
  destruct (trimEnd s); [destruct (isWhiteSpace c) |]; simpl in *; lia.
Qed.

Lemma trimStart_length (s : string) :
  (String.length (trimStart s) <= String.length s)%nat.
Proof.
  induction s as [|c s IH]; simpl; [lia |].
  destruct (isWhiteSpace c); simpl; lia.
Qed.

Lemma trim_length (s : string) :
  (String.length (trim s) <= String.length s)%nat.
Proof.
  unfold trim. pose proof (trimEnd_length (trimStart s)).
  pose proof (trimStart_length s). lia.
Qed.

Lemma trim_all_white (s : string) :
  allChars isWhiteSpace s = true -> trim s = "".
Proof.
  unfold trim. intros H.
  assert (Hs : trimStart s = "").
  { induction s as [|c s IH]; simpl in *; [reflexivity |].
    apply andb_true_iff in H as [Hc Hs]. rewrite Hc. apply IH. exact Hs. }
  rewrite Hs. reflexivity.
Qed.

Lemma toLowerCase_all_white (s : string) :
  allChars isWhiteSpace s = true ->
  allChars isWhiteSpace (toLowerCase s) = true.
Proof.
  induction s as [|c s IH]; [reflexivity |].
  rewrite toLowerCase_cons. simpl.
  rewrite isWhiteSpace_toLowerCaseUnit, !andb_true_iff.
  intros [Hc Hs]. split; [exact Hc | apply IH; exact Hs].
Qed.

Lemma trim_no_white (s : string) : allChars notWhite s = true -> trim s = s.
Proof.
  unfold trim. intros H.
  assert (Hstart : trimStart s = s).
  { apply trimStart_id. destruct s as [|c s]; simpl in *; [exact I |].
    apply andb_true_iff in H as [Hc _]. unfold notWhite in Hc.
    destruct (isWhiteSpace c); [discriminate | reflexivity]. }
  rewrite Hstart. clear Hstart.
  induction s as [|c s IH]; simpl in *; [reflexivity |].
  apply andb_true_iff in H as [Hc Hs]. rewrite (IH Hs).
  unfold notWhite in Hc.
  destruct s; [destruct (isWhiteSpace c); [discriminate | reflexivity] | reflexivity].
Qed.

Lemma toLowerCase_no_white (s : string) :
  allChars notWhite s = true -> allChars notWhite (toLowerCase s) = true.
Proof.
  induction s as [|c s IH]; [reflexivity |].
  rewrite toLowerCase_cons. simpl. unfold notWhite at 1 3.
  rewrite isWhiteSpace_toLowerCaseUnit, !andb_true_iff.
  intros [Hc Hs]. split; [exact Hc | apply IH; exact Hs].
Qed.

End Formatting.

(** ** Emails that match the pattern *)

Lemma str_some (s : string) : str (Some s) = s.
Proof. destruct s; reflexivity. Qed.

Lemma shape_length (s : string) : email_shape s -> (6 <= String.length s)%nat.
Proof.
  intros (l & d & t & -> & Hl & _ & Hd & _ & Ht & _).
  rewrite !length_app_string.
  destruct l; [congruence |]. destruct d; [congruence |]. simpl. lia.
Qed.

Lemma shape_no_white (s : string) :
  email_shape s -> allChars notWhite s = true.
Proof.
  intros (l & d & t & -> & _ & Hl & _ & Hd & _ & Ht).
  rewrite !allChars_append, !andb_true_iff. repeat split.
  - revert Hl. apply allChars_impl. intros c Hc. unfold notWhite.
    rewrite pattern_chars_not_white; [reflexivity |]. rewrite Hc. reflexivity.
  - revert Hd. apply allChars_impl. intros c Hc. unfold notWhite.
    rewrite pattern_chars_not_white; [reflexivity |].
    rewrite Hc, !orb_true_r. reflexivity.
  - revert Ht. apply allChars_impl. intros c Hc. unfold notWhite.
    rewrite pattern_chars_not_white; [reflexivity |].
    rewrite Hc, !orb_true_r. reflexivity.
Qed.

Lemma shape_formatEmail (s : string) :
  email_shape s ->
  JSString.trim (JSString.toLowerCase s) = JSString.toLowerCase s.
Proof.
  intros H. apply trim_no_white, toLowerCase_no_white, shape_no_white, H.
Qed.

Lemma default_pattern_accepts (v : option string) :
  present_with_length v 5 /\ matches_pattern RegExp.emailPattern v
  <-> exists s, v = Some s /\ email_shape s.
Proof.
  unfold matches_pattern. split.
  - intros [Hlen Hpat]. destruct v as [s|]; [| contradiction].
    exists s. split; [reflexivity |].
    rewrite str_some in Hpat. apply emailPattern_shape. exact Hpat.
  - intros (s & -> & Hs). split.
    + simpl. apply shape_length in Hs. unfold JSString.length. lia.
    + rewrite str_some. apply emailPattern_shape. exact Hs.
Qed.

Lemma as_value_outcome {A : Type} (inj : A -> Value) (m : Exec A) (w : World) :
  outcome (as_value inj m w)
  = match outcome (m w) with
    | Normal a => Normal (inj a)
    | Throw e => Throw e
    end.
Proof.
  unfold as_value, bind, outcome, ret. destruct (m w) as [w' [a | e]]; reflexivity.
Qed.

Lemma as_value_final {A : Type} (inj : A -> Value) (m : Exec A) (w : World) :
  final (as_value inj m w) = final (m w).
Proof.
  unfold as_value, bind, final, ret. destruct (m w) as [w' [a | e]]; reflexivity.
Qed.

Lemma normal_not_rejected {A : Type} (r : World * Completion A) (a : A) :
  outcome r = Normal a -> ~ rejects_email r.
Proof. unfold rejects_email, throws. intros H [H' | H']; congruence. Qed.

Lemma default_pattern_checked (op : Operation) (userData : UserData.t)
  (w : World) (u : User.t) :
  checks_default_pattern op = true ->
  userData_of op = Some userData ->
  outcome (run op w) = Normal (VUser u) ->
  exists s, UserData.email userData = Some s /\ email_shape s.
Proof.
  intros Hchk Hop Hret. apply default_pattern_accepts.
  destruct op; try discriminate Hchk; injection Hop as ->;
    unfold run in Hret; rewrite as_value_outcome in Hret;
    match type of Hret with
    | context [outcome ?r] => destruct (outcome r) as [u' | e] eqn:E
    end; try discriminate Hret;
    apply normal_not_rejected in E.
  - apply TS_DRY_create_email in E. exact E.
  - apply TS_DRY_update_email in E. exact E.
  - apply TS_Concrete_create_email in E. exact E.
  - apply TS_Concrete_update_email in E. exact E.
Qed.

(** X1: the email pattern of the validation rules accepts exactly the
    strings that read local@domain.tld, with a non-empty local part of
    letters, digits and [._%+-], a non-empty domain of letters, digits and
    [.-], and a last label of at least two letters. *)
Theorem X1_emailPattern_accepts_exactly_the_shape (s : string) :
  RegExp.test RegExp.emailPattern s = true <-> email_shape s.
Proof. apply emailPattern_shape. Qed.

(** X2: in [UserManagerDRY] and [ConcreteUserManager] of the TypeScript file
    the email passes validation exactly when it is a string of the shape
    local@domain.tld.  Such a string has at least six characters, so the
    length check against the minimum of five never decides on its own. *)
Theorem X2_pattern_subsumes_length_check
  (userId : string) (userData : UserData.t) (w : World) :
  let well_shaped :=
    exists s, UserData.email userData = Some s /\ email_shape s in
  (~ rejects_email (TS.UserManagerDRY.createUser userData w) <-> well_shaped)
  /\ (~ rejects_email (TS.UserManagerDRY.updateUser userId userData w)
      <-> well_shaped)
  /\ (~ rejects_email (TS.ConcreteUserManager.createUser userData w)
      <-> well_shaped)
  /\ (~ rejects_email (TS.ConcreteUserManager.updateUser userId userData w)
      <-> well_shaped)
  /\ (forall s, email_shape s -> 5 < JSString.length s).
Proof.
  cbn zeta. rewrite <- default_pattern_accepts.
  split; [apply TS_DRY_create_email |].
  split; [apply TS_DRY_update_email |].
  split; [apply TS_Concrete_create_email |].
  split; [apply TS_Concrete_update_email |].
  intros s Hs. apply shape_length in Hs. unfold JSString.length. lia.
Qed.

(** X3: a record returned by [createUser] or [updateUser] of the TypeScript
    [UserManagerDRY] or [ConcreteUserManager] holds the input email
    lower-cased and nothing more: an email that passed the pattern has no
    white space for [trim] to remove, and keeps its length. *)
Theorem X3_pattern_checked_email_is_only_lowercased
  (op : Operation) (userData : UserData.t) (w : World) (u : User.t) :
  checks_default_pattern op = true ->
  userData_of op = Some userData ->
  outcome (run op w) = Normal (VUser u) ->
  exists email,
    UserData.email userData = Some email
    /\ User.email u = JSString.toLowerCase email
    /\ String.length (User.email u) = String.length email.
Proof.
  intros Hchk Hop Hret.
  destruct (default_pattern_checked op userData w u Hchk Hop Hret)
    as (s & Hs & Hshape).
  destruct (user_operation_formats op userData w u Hop Hret)
    as (email & name & He & _ & Hemail & _).
  rewrite Hs in He. injection He as <-.
  exists s. rewrite Hemail, (shape_formatEmail s Hshape).
  repeat split; [exact Hs | apply toLowerCase_length].
Qed.

(** X3 on the first user of the usage examples. *)
Lemma X3_witness :
  exists email,
    UserData.email john = Some email
    /\ "john@example.com" = JSString.toLowerCase email
    /\ String.length "john@example.com" = String.length email.
Proof.
  exact (X3_pattern_checked_email_is_only_lowercased
           (TS_DRY_createUser john) john world0
           (User.make "id0" "john@example.com" "John Doe"
              (Some "password123") (Some "t0") "t0")
           eq_refl eq_refl ltac:(vm_compute; reflexivity)).
Defined.

(** X4: formatting is idempotent across all managers.  When the email and
    name of a returned record are given to [createUser] or [updateUser]
    again, of the same or of any other manager, the record that comes back
    has the same email and the same name. *)
Theorem X4_formatting_is_idempotent
  (op1 op2 : Operation) (ud1 ud2 : UserData.t) (w1 w2 : World)
  (u1 u2 : User.t) :
  userData_of op1 = Some ud1 ->
  outcome (run op1 w1) = Normal (VUser u1) ->
  userData_of op2 = Some ud2 ->
  UserData.email ud2 = Some (User.email u1) ->
  UserData.name ud2 = Some (User.name u1) ->
  outcome (run op2 w2) = Normal (VUser u2) ->
  User.email u2 = User.email u1 /\ User.name u2 = User.name u1.
Proof.
  intros Hop1 Hret1 Hop2 He2 Hn2 Hret2.
  destruct (user_operation_formats op1 ud1 w1 u1 Hop1 Hret1)
    as (e1 & n1 & _ & _ & Hemail1 & Hname1 & _).
  destruct (user_operation_formats op2 ud2 w2 u2 Hop2 Hret2)
    as (e2 & n2 & He & Hn & Hemail2 & Hname2 & _).
  rewrite He2 in He. injection He as <-.
  rewrite Hn2 in Hn. injection Hn as <-.
  rewrite Hemail2, Hname2, Hemail1, Hname1.
  rewrite <- toLowerCase_trim, trim_idempotent, toLowerCase_trim,
    toLowerCase_idempotent, trim_idempotent.
  split; reflexivity.
Qed.

(** X4 on the padded input: the record it gives, stored again through the
    DRY manager, keeps its email and name. *)
Lemma X4_witness :
  "john@example.com" = "john@example.com" /\ "John Doe" = "John Doe".
Proof.
  exact (X4_formatting_is_idempotent
           (JS_WET_createUser padded)
           (JS_DRY_updateUser "id0" john)
           padded john world0 world0
           (User.make "id0" "john@example.com" "John Doe"
              (Some "password123") (Some "t0") "t1")
           (User.make "id0" "john@example.com" "John Doe"
              (Some "password123") None "t0")
           eq_refl ltac:(vm_compute; reflexivity)
           eq_refl eq_refl eq_refl ltac:(vm_compute; reflexivity)).
Defined.

(** ** What a successful call leaves behind *)

Lemma succeeds_returns {A : Type} (r : World * Completion A) :
  succeeds r -> exists a, returns r a.
Proof. intros [a Ha]. exists a. exact Ha. Qed.

Lemma blank_email_stored_empty (op : Operation) (userData : UserData.t)
  (w : World) (u : User.t) (e : string) :
  userData_of op = Some userData ->
  outcome (run op w) = Normal (VUser u) ->
  UserData.email userData = Some e ->
  allChars JSString.isWhiteSpace e = true ->
  User.email u = "".
Proof.
  intros Hop Hret He Hwhite.
  destruct (user_operation_formats op userData w u Hop Hret)
    as (e' & _ & He' & _ & Hemail & _).
  rewrite He in He'. injection He' as <-.
  rewrite Hemail. apply trim_all_white, toLowerCase_all_white, Hwhite.
Qed.

Lemma run_returns (inj : User.t -> Value) (m : Exec User.t) (w : World)
  (u : User.t) :
  returns (m w) u -> outcome (as_value inj m w) = Normal (inj u).
Proof. unfold returns. intros H. rewrite as_value_outcome, H. reflexivity. Qed.

(** X5: the length checks measure the input before it is trimmed.  An email
    made of white space only, five or more characters long, is accepted by
    [createUser] of [UserManagerWET] (both files) and of the JavaScript
    [UserManagerDRY], and the record returned holds the empty string as its
    email. *)
Theorem X5_blank_email_is_accepted_and_stored_empty
  (userData : UserData.t) (w : World) (e : string) :
  lengths_pass 5 2 8 userData ->
  UserData.email userData = Some e ->
  allChars JSString.isWhiteSpace e = true ->
  (exists u, returns (JS.UserManagerWET.createUser userData w) u
             /\ User.email u = "")
  /\ (exists u, returns (JS.UserManagerDRY.createUser userData w) u
                /\ User.email u = "")
  /\ (exists u, returns (TS.UserManagerWET.createUser userData w) u
                /\ User.email u = "").
Proof.
  intros Hlen He Hwhite. split; [| split].
  - destruct (succeeds_returns _ (JS_WET_accepts_well_formed userData w Hlen))
      as [u Hu].
    exists u. split; [exact Hu |].
    apply (blank_email_stored_empty (JS_WET_createUser userData) userData w u e
             eq_refl (run_returns VUser _ w u Hu) He Hwhite).
  - destruct (succeeds_returns _ (JS_DRY_accepts_well_formed userData w Hlen))
      as [u Hu].
    exists u. split; [exact Hu |].
    apply (blank_email_stored_empty (JS_DRY_createUser userData) userData w u e
             eq_refl (run_returns VUser _ w u Hu) He Hwhite).
  - destruct (succeeds_returns _ (TS_WET_accepts_well_formed userData w Hlen))
      as [u Hu].
    exists u. split; [exact Hu |].
    apply (blank_email_stored_empty (TS_WET_createUser userData) userData w u e
             eq_refl (run_returns VUser _ w u Hu) He Hwhite).
Qed.

(** X5 on an email of five spaces. *)
Lemma X5_witness :
  exists u, returns (JS.UserManagerWET.createUser blank_email world0) u
            /\ User.email u = "".
Proof.
  refine (proj1 (X5_blank_email_is_accepted_and_stored_empty
                   blank_email world0 "     " _ eq_refl eq_refl)).
  repeat split; vm_compute; intros; discriminate.
Defined.

(** Case analysis on the conditions that are not yet decided, computing
    after each. *)
Ltac split_guards :=
  cbn;
  repeat (match goal with
          | |- context [if ?c then _ else _] =>
              lazymatch c with
              | true => fail
              | false => fail
              | _ => destruct c
              end
          end; cbn).

Ltac open_effects :=
  open_code;
  unfold outcome, final, bind, throwIf, throw, ret, console_log, console_call,
    Math_random_id, Date_now_ISO, get_isEnabled, set_isEnabled, printed,
    advanced, with_flag.

Ltac effect H :=
  unfold returns in H; revert H; open_effects; split_guards;
  intros H; try discriminate H; injection H as <-.

(** X6: a successful [UserManagerWET.createUser] draws exactly one random
    identifier, reads the clock exactly twice and prints exactly one line,
    built from the record it returns; [createdAt] is the first reading and
    [updatedAt] the second, so the two fields differ whenever the clock
    moved between the readings. *)
Theorem X6_WET_createUser_effects
  (userData : UserData.t) (w : World) (u : User.t) :
  (returns (JS.UserManagerWET.createUser userData w) u ->
   final (JS.UserManagerWET.createUser userData w)
   = printed (advanced 1 2 w) [(c_log, userLine "created" u)]
   /\ User.id u = randomIds w (randomDraws w)
   /\ User.createdAt u = Some (clock w (clockReads w))
   /\ User.updatedAt u = clock w (S (clockReads w)))
  /\ (returns (TS.UserManagerWET.createUser userData w) u ->
      final (TS.UserManagerWET.createUser userData w)
      = printed (advanced 1 2 w) [(c_log, userLine "created" u)]
      /\ User.id u = randomIds w (randomDraws w)
      /\ User.createdAt u = Some (clock w (clockReads w))
      /\ User.updatedAt u = clock w (S (clockReads w))).
Proof.
  destruct userData as [email name password].
  split; intros H; effect H; repeat split; reflexivity.
Qed.

(** X6 on the first user of the usage examples. *)
Lemma X6_witness :
  final (JS.UserManagerWET.createUser john world0)
  = printed (advanced 1 2 world0)
      [(c_log, "User created: John Doe (john@example.com)")].
Proof.
  exact (proj1 (proj1 (X6_WET_createUser_effects john world0
                         (User.make "id0" "john@example.com" "John Doe"
                            (Some "password123") (Some "t0") "t1"))
                  ltac:(vm_compute; reflexivity))).
Defined.

(** X7: a successful [UserManagerDRY.createUser] draws one random
    identifier and reads the clock once: [createdAt] and [updatedAt] are
    that one reading.  The JavaScript manager always prints its one line;
    the TypeScript one prints it when the logger is enabled and nothing
    otherwise. *)
Theorem X7_DRY_createUser_effects
  (userData : UserData.t) (w : World) (u : User.t) :
  (returns (JS.UserManagerDRY.createUser userData w) u ->
   final (JS.UserManagerDRY.createUser userData w)
   = printed (advanced 1 1 w) [(c_log, userLine "created" u)]
   /\ User.id u = randomIds w (randomDraws w)
   /\ User.createdAt u = Some (clock w (clockReads w))
   /\ User.updatedAt u = clock w (clockReads w))
  /\ (returns (TS.UserManagerDRY.createUser userData w) u ->
      final (TS.UserManagerDRY.createUser userData w)
      = printed (advanced 1 1 w)
          (if UserLogger_isEnabled w
           then [(c_log, userLine "created" u)] else [])
      /\ User.id u = randomIds w (randomDraws w)
      /\ User.createdAt u = Some (clock w (clockReads w))
      /\ User.updatedAt u = clock w (clockReads w)).
Proof.
  destruct userData as [email name password]. destruct w.
  split; intros H; effect H; repeat split; cbn; rewrite ?app_nil_r;
    reflexivity.
Qed.

(** X7 on the first user of the usage examples. *)
Lemma X7_witness :
  final (JS.UserManagerDRY.createUser john world0)
  = printed (advanced 1 1 world0)
      [(c_log, "User created: John Doe (john@example.com)")].
Proof.
  exact (proj1 (proj1 (X7_DRY_createUser_effects john world0
                         (User.make "id0" "john@example.com" "John Doe"
                            (Some "password123") (Some "t0") "t0"))
                  ltac:(vm_compute; reflexivity))).
Defined.

(** X8: a successful [UserManagerWET.updateUser] keeps the identifier it was
    given, whatever it is, sets no [createdAt], draws no random identifier,
    reads the clock once and prints exactly one line built from the record
    it returns. *)
Theorem X8_WET_updateUser_effects
  (userId : string) (userData : UserData.t) (w : World) (u : User.t) :
  (returns (JS.UserManagerWET.updateUser userId userData w) u ->
   final (JS.UserManagerWET.updateUser userId userData w)
   = printed (advanced 0 1 w) [(c_log, userLine "updated" u)]
   /\ User.id u = userId
   /\ User.createdAt u = None
   /\ User.updatedAt u = clock w (clockReads w))
  /\ (returns (TS.UserManagerWET.updateUser userId userData w) u ->
      final (TS.UserManagerWET.updateUser userId userData w)
      = printed (advanced 0 1 w) [(c_log, userLine "updated" u)]
      /\ User.id u = userId
      /\ User.createdAt u = None
      /\ User.updatedAt u = clock w (clockReads w)).
Proof.
  destruct userData as [email name password].
  split; intros H; effect H; repeat split; reflexivity.
Qed.

(** X8 on an update without a password. *)
Lemma X8_witness :
  final (JS.UserManagerWET.updateUser "u1" john_without_password world0)
  = printed (advanced 0 1 world0)
      [(c_log, "User updated: John Doe (john@example.com)")].
Proof.
  exact (proj1 (proj1 (X8_WET_updateUser_effects "u1" john_without_password
                         world0
                         (User.make "u1" "john@example.com" "John Doe"
                            None None "t0"))
                  ltac:(vm_compute; reflexivity))).
Defined.

(** X9: for a non-empty [userId] the JavaScript [UserManagerDRY.updateUser]
    is [UserManagerWET.updateUser]: on every user data and in every world
    the two give the same outcome, throw or record, and leave the same
    world. *)
Theorem X9_DRY_update_is_WET_update
  (userId : string) (userData : UserData.t) (w : World) :
  userId <> "" ->
  JS.UserManagerDRY.updateUser userId userData w
  = JS.UserManagerWET.updateUser userId userData w.
Proof.
  destruct userData as [email name password].
  destruct userId as [|c s]; [congruence | intros _].
  open_effects; split_guards; reflexivity.
Qed.

(** X9 on an update without a password. *)
Lemma X9_witness :
  JS.UserManagerDRY.updateUser "u1" john_without_password world0
  = JS.UserManagerWET.updateUser "u1" john_without_password world0.
Proof.
  apply X9_DRY_update_is_WET_update. discriminate.
Defined.

(** ** Logging *)

(** X10: a [ConfigurableUserManager] whose configuration has logging
    disabled never prints: whatever the user data, and whether the call
    returns or throws, [createUser] and [updateUser] leave the console as it
    was, in the JavaScript file and in the TypeScript file. *)
Theorem X10_disabled_logging_is_silent
  (js : JS.ConfigurableUserManager.t) (ts : TS.ConfigurableUserManager.t)
  (userId : string) (userData : UserData.t) (w : World) :
  (JS.Config.enabled (JS.Config.logging js) = false ->
   console (final (JS.ConfigurableUserManager.createUser js userData w))
   = console w
   /\ console (final (JS.ConfigurableUserManager.updateUser js userId
                        userData w))
      = console w)
  /\ (LoggingConfig.enabled (UserManagerConfig.logging ts) = false ->
      console (final (TS.ConfigurableUserManager.createUser ts userData w))
      = console w
      /\ console (final (TS.ConfigurableUserManager.updateUser ts userId
                           userData w))
         = console w).
Proof.
  destruct userData as [email name password].
  destruct js as [jsv [jsl]], ts as [tsv [tsl tslevel]]. cbn.
  split; intros ->; split; open_effects; split_guards; reflexivity.
Qed.

(** X10 on valid user data and a manager built with logging off. *)
Lemma X10_witness :
  console (final (JS.ConfigurableUserManager.createUser silentManager john
                    world0))
  = console world0.
Proof.
  exact (proj1 (proj1 (X10_disabled_logging_is_silent silentManager
                         warningManager "u1" john world0) eq_refl)).
Defined.

(** X11: the TypeScript [ConfigurableUserManager] prints through the console
    method of its configured level: a successful [createUser] of a manager
    with logging enabled adds exactly one line, "User created: name
    (email)" of the returned record, under [console.info], [console.warn] or
    [console.error], and a successful [updateUser] the "User updated" line
    likewise. *)
Theorem X11_configured_level_selects_console_method
  (this : TS.ConfigurableUserManager.t) (userId : string)
  (userData : UserData.t) (w : World) (u : User.t) :
  let logging := UserManagerConfig.logging this in
  LoggingConfig.enabled logging = true ->
  (returns (TS.ConfigurableUserManager.createUser this userData w) u ->
   console (final (TS.ConfigurableUserManager.createUser this userData w))
   = (console w
      ++ [(LoggingConfig.method (LoggingConfig.level logging),
           userLine "created" u)])%list)
  /\ (returns (TS.ConfigurableUserManager.updateUser this userId userData w)
        u ->
      console (final (TS.ConfigurableUserManager.updateUser this userId
                        userData w))
      = (console w
         ++ [(LoggingConfig.method (LoggingConfig.level logging),
              userLine "updated" u)])%list).
Proof.
  destruct userData as [email name password].
  destruct this as [v [enabled level]]. cbn. intros ->.
  split; intros H; effect H; reflexivity.
Qed.

(** X11 on a manager configured to warn. *)
Lemma X11_witness :
  console (final (TS.ConfigurableUserManager.createUser warningManager john
                    world0))
  = (console world0
     ++ [(c_warn, "User created: John Doe (john@example.com)")])%list.
Proof.
  exact (proj1 (X11_configured_level_selects_console_method warningManager
                  "u1" john world0
                  (User.make "id0" "john@example.com" "John Doe"
                     (Some "password123") (Some "t0") "t0")
                  eq_refl)
           ltac:(vm_compute; reflexivity)).
Defined.

Lemma with_flag_final (b : bool) (w : World) :
  with_flag b w
  = mkWorld (console w) (randomIds w) (randomDraws w) (clock w)
      (clockReads w) b (UserManagerFactory_instances w).
Proof. reflexivity. Qed.

(** X12: only [UserManagerDRY] of the TypeScript file consults the logger
    flag.  With the flag off its [createUser] and [updateUser] print
    nothing, whatever the input.  Every other manager of either file, the
    constructors and [NotificationService.notify] run the same whether the
    flag is on or off: same outcome, same lines printed, and the flag left
    as it was. *)
Theorem X12_logger_flag_governs_only_the_DRY_manager
  (op : Operation) (userId : string) (userData : UserData.t) (b : bool)
  (w : World) :
  (UserLogger_isEnabled w = false ->
   console (final (TS.UserManagerDRY.createUser userData w)) = console w
   /\ console (final (TS.UserManagerDRY.updateUser userId userData w))
      = console w)
  /\ (ignores_flag op = true ->
      run op (with_flag b w)
      = (with_flag b (final (run op w)), outcome (run op w))).
Proof.
  split.
  - destruct userData as [email name password]. destruct w. cbn. intros ->.
    split; open_effects; split_guards; reflexivity.
  - intros Hop.
    destruct op; try discriminate Hop; clear Hop;
      try (match goal with d : UserData.t |- _ => destruct d end;
           unfold run, as_value; open_effects; split_guards; reflexivity).
    unfold run, as_value, bind. rewrite !notify_instances. reflexivity.
Qed.

(** X12 with the flag off and on. *)
Lemma X12_witness :
  console (final (TS.UserManagerDRY.createUser john (with_flag false world0)))
  = console (with_flag false world0)
  /\ run (TS_Concrete_createUser john) (with_flag false world0)
     = (with_flag false (final (run (TS_Concrete_createUser john) world0)),
        outcome (run (TS_Concrete_createUser john) world0)).
Proof.
  split.
  - exact (proj1 (proj1 (X12_logger_flag_governs_only_the_DRY_manager
                           (TS_Concrete_createUser john) "u1" john false
                           (with_flag false world0)) eq_refl)).
  - exact (proj2 (X12_logger_flag_governs_only_the_DRY_manager
                    (TS_Concrete_createUser john) "u1" john false world0)
             eq_refl).
Defined.

(** ** The factory and its cache *)

Section Factory.

Import TS.UserManagerFactory.

Lemma createManager_hit (type : ManagerType)
  (customConfig : option TS.PartialConfig.t) (w : World)
  (m : TS.ConfigurableUserManager.t) :
  UserManagerFactory_instances w !! cacheKey type customConfig = Some m ->
  createManager type customConfig w = (w, Normal m).
Proof.
  intros H. unfold createManager, bind, get_instances. cbv beta iota zeta.
  match goal with
  | |- match ?x with _ => _ end _ = _ =>
      assert (E : x = Some m) by exact H; rewrite E
  end.
  reflexivity.
Qed.

Lemma createManager_miss (type : ManagerType)
  (customConfig : option TS.PartialConfig.t) (w : World) :
  UserManagerFactory_instances w !! cacheKey type customConfig = None ->
  let m := TS.ConfigurableUserManager.new
             (Some (spread (configs type) customConfig)) in
  createManager type customConfig w
  = (cached (cacheKey type customConfig) m w, Normal m).
Proof.
  intros H. unfold createManager, bind, get_instances, set_instances, ret.
  cbv beta iota zeta.
  match goal with
  | |- match ?x with _ => _ end _ = _ =>
      assert (E : x = None) by exact H; rewrite E
  end.
  reflexivity.
Qed.

Lemma cached_lookup (key : string) (m : TS.ConfigurableUserManager.t)
  (w : World) :
  UserManagerFactory_instances (cached key m w) !! key = Some m.
Proof. unfold cached. cbn. apply lookup_insert_eq. Qed.

Lemma cached_lookup_ne (key k : string) (m : TS.ConfigurableUserManager.t)
  (w : World) :
  key <> k ->
  UserManagerFactory_instances (cached key m w) !! k
  = UserManagerFactory_instances w !! k.
Proof. intros H. unfold cached. cbn. apply lookup_insert_ne. exact H. Qed.

Lemma createManager_cases (type : ManagerType)
  (customConfig : option TS.PartialConfig.t) (w : World) :
  let key := cacheKey type customConfig in
  (exists m, UserManagerFactory_instances w !! key = Some m
             /\ createManager type customConfig w = (w, Normal m))
  \/ (UserManagerFactory_instances w !! key = None
      /\ createManager type customConfig w
         = (cached key (TS.ConfigurableUserManager.new
                          (Some (spread (configs type) customConfig))) w,
            Normal (TS.ConfigurableUserManager.new
                      (Some (spread (configs type) customConfig))))).
Proof.
  cbn zeta.
  destruct (UserManagerFactory_instances w !! cacheKey type customConfig)
    as [m|] eqn:E.
  - left. exists m. split; [reflexivity | apply createManager_hit; exact E].
  - right. split; [reflexivity | apply createManager_miss; exact E].
Qed.

Lemma cacheKey_type (type1 type2 : ManagerType)
  (c1 c2 : option TS.PartialConfig.t) :
  cacheKey type1 c1 = cacheKey type2 c2 -> type1 = type2.
Proof.
  unfold cacheKey. destruct type1, type2; try reflexivity;
    cbn [typeName]; rewrite !append_cons; intros H; discriminate H.
Qed.

Lemma spread_custom_validation (type : ManagerType)
  (custom : TS.PartialConfig.t) (v : TS.PartialConfig.Validation) :
  TS.PartialConfig.validation custom = Some v ->
  spread (configs type) (Some custom) = custom.
Proof.
  destruct custom as [cv cl]. cbn. intros ->.
  destruct type, cl; reflexivity.
Qed.

End Factory.

(** X13: [UserManagerFactory.createManager] is idempotent.  It never throws;
    the manager it returns is afterwards cached under the key of the
    request, and asking again with the same type and configuration returns
    that same manager and changes nothing. *)
Theorem X13_createManager_is_idempotent
  (type : TS.UserManagerFactory.ManagerType)
  (customConfig : option TS.PartialConfig.t) (w : World) :
  let first := TS.UserManagerFactory.createManager type customConfig w in
  exists m,
    outcome first = Normal m
    /\ UserManagerFactory_instances (final first)
         !! TS.UserManagerFactory.cacheKey type customConfig = Some m
    /\ TS.UserManagerFactory.createManager type customConfig (final first)
       = (final first, Normal m).
Proof.
  cbn zeta.
  destruct (createManager_cases type customConfig w)
    as [(m & Hm & ->) | (Hnone & ->)].
  - exists m. repeat split; [exact Hm | apply createManager_hit; exact Hm].
  - eexists. split; [reflexivity |]. unfold final. cbn [fst].
    split; [apply cached_lookup |].
    apply createManager_hit, cached_lookup.
Qed.

(** X14: the cache of the factory only grows.  A call of [createManager]
    leaves every manager that was cached before under its key, adds at most
    the one entry for the key of the request, and touches nothing else: the
    console, the random source, the clock and the logger flag are as
    before. *)
Theorem X14_createManager_only_adds_to_the_cache
  (type : TS.UserManagerFactory.ManagerType)
  (customConfig : option TS.PartialConfig.t) (w : World) :
  let after :=
    final (TS.UserManagerFactory.createManager type customConfig w) in
  (forall k m, UserManagerFactory_instances w !! k = Some m ->
               UserManagerFactory_instances after !! k = Some m)
  /\ (forall k, k <> TS.UserManagerFactory.cacheKey type customConfig ->
                UserManagerFactory_instances after !! k
                = UserManagerFactory_instances w !! k)
  /\ console after = console w
  /\ randomIds after = randomIds w
  /\ randomDraws after = randomDraws w
  /\ clock after = clock w
  /\ clockReads after = clockReads w
  /\ UserLogger_isEnabled after = UserLogger_isEnabled w.
Proof.
  cbn zeta.
  destruct (createManager_cases type customConfig w)
    as [(m & Hm & ->) | (Hnone & ->)]; unfold final; cbn [fst].
  - split; [auto |]. repeat split.
  - split; [| split].
    + intros k m Hk.
      destruct (String.eqb_spec (TS.UserManagerFactory.cacheKey type customConfig) k)
        as [<- | Hne]; [congruence |].
      rewrite cached_lookup_ne; assumption.
    + intros k Hk. apply cached_lookup_ne. congruence.
    + unfold cached. cbn. repeat split.
Qed.

(** X14 on a world that already holds a strict manager. *)
Lemma X14_witness :
  let w := final (TS.UserManagerFactory.createManager
                    TS.UserManagerFactory.strict None world0) in
  UserManagerFactory_instances
    (final (TS.UserManagerFactory.createManager
              TS.UserManagerFactory.lenient None w)) !! "strict_{}"
  = Some (TS.ConfigurableUserManager.new
            (Some (TS.UserManagerFactory.configs TS.UserManagerFactory.strict))).
Proof.
  cbn zeta.
  apply (proj1 (X14_createManager_only_adds_to_the_cache
                  TS.UserManagerFactory.lenient None _)).
  vm_compute. reflexivity.
Defined.

(** X15: the cache key starts with the type, so requests for managers of
    different types never share a cache entry, whatever their
    configurations. *)
Theorem X15_types_never_share_a_cache_entry
  (type1 type2 : TS.UserManagerFactory.ManagerType)
  (c1 c2 : option TS.PartialConfig.t) :
  type1 <> type2 ->
  TS.UserManagerFactory.cacheKey type1 c1
  <> TS.UserManagerFactory.cacheKey type2 c2.
Proof. intros Hne Heq. apply Hne. exact (cacheKey_type _ _ _ _ Heq). Qed.

(** X15 on the two managers of the usage examples. *)
Lemma X15_witness :
  TS.UserManagerFactory.cacheKey TS.UserManagerFactory.strict None
  <> TS.UserManagerFactory.cacheKey TS.UserManagerFactory.lenient None
  /\ TS.UserManagerFactory.strict <> TS.UserManagerFactory.lenient.
Proof.
  assert (H : TS.UserManagerFactory.strict <> TS.UserManagerFactory.lenient)
    by discriminate.
  split; [| exact H].
  exact (X15_types_never_share_a_cache_entry TS.UserManagerFactory.strict
           TS.UserManagerFactory.lenient None None H).
Defined.

(** X16: the preset of a type and the custom configuration are merged key
    by key at the top only.  A custom configuration that carries a
    [validation] object replaces the validation of the preset as a whole:
    the manager built for it is the one the constructor builds from the
    custom configuration alone, whatever the type.  A custom configuration
    without one keeps the validation of the preset. *)
Theorem X16_custom_validation_replaces_the_preset
  (type : TS.UserManagerFactory.ManagerType) (custom : TS.PartialConfig.t)
  (w : World) :
  UserManagerFactory_instances w
    !! TS.UserManagerFactory.cacheKey type (Some custom) = None ->
  (forall v, TS.PartialConfig.validation custom = Some v ->
             outcome (TS.UserManagerFactory.createManager type (Some custom) w)
             = Normal (TS.ConfigurableUserManager.new (Some custom)))
  /\ (TS.PartialConfig.validation custom = None ->
      exists m,
        outcome (TS.UserManagerFactory.createManager type (Some custom) w)
        = Normal m
        /\ UserManagerConfig.validation m
           = UserManagerConfig.validation
               (TS.ConfigurableUserManager.new
                  (Some (TS.UserManagerFactory.configs type)))).
Proof.
  intros Hmiss. rewrite (createManager_miss type (Some custom) w Hmiss).
  unfold outcome. cbn [snd]. split.
  - intros v Hv. rewrite (spread_custom_validation type custom v Hv).
    reflexivity.
  - intros Hv. eexists. split; [reflexivity |].
    destruct custom as [cv cl]. cbn in Hv. subst cv.
    destruct type; reflexivity.
Qed.

(** X16 on a strict manager asked to want longer names: the twelve
    characters the preset wants of a password are gone. *)
Lemma X16_witness :
  outcome (TS.UserManagerFactory.createManager TS.UserManagerFactory.strict
             (Some longerNames) world0)
  = Normal (TS.ConfigurableUserManager.new (Some longerNames))
  /\ ValidationConfig.passwordMinLength
       (UserManagerConfig.validation
          (TS.ConfigurableUserManager.new (Some longerNames))) = 8.
Proof.
  split; [| reflexivity].
  refine (proj1 (X16_custom_validation_replaces_the_preset
                   TS.UserManagerFactory.strict longerNames world0 _)
            _ eq_refl).
  vm_compute. reflexivity.
Defined.

(** ** The generic validator *)

Lemma bind_ext {A B : Type} (m : Exec A) (k k' : A -> Exec B) (w : World) :
  (forall a w', k a w' = k' a w') -> bind m k w = bind m k' w.
Proof.
  intros H. unfold bind. destruct (m w) as [w' [a | e]]; [apply H | reflexivity].
Qed.

Section Validators.

Import TS.GenericValidator.

Context {T : Type}.

Lemma validateRules_app (rs1 rs2 : list (T -> Exec bool)) (msg : string)
  (value : T) (w : World) :
  validateRules (rs1 ++ rs2) msg value w
  = bind (validateRules rs1 msg value)
      (fun _ => validateRules rs2 msg value) w.
Proof.
  revert w. induction rs1 as [|rule rs1 IH]; intros w.
  - reflexivity.
  - cbn [app validateRules]. unfold bind in *.
    destruct (rule value w) as [w1 [ok | e]]; [| reflexivity].
    unfold throwIf, throw, ret.
    destruct ok; cbn [negb]; [apply IH | reflexivity].
Qed.

Lemma validatorOf_rules (msg : string) (fs : list (T -> bool)) :
  rules (validatorOf msg fs) = map pureRule fs
  /\ errorMessage (validatorOf msg fs) = msg.
Proof.
  unfold validatorOf.
  assert (H : forall v,
             rules (fold_left (fun v f => addRule v (pureRule f)) fs v)
             = (rules v ++ map pureRule fs)%list
             /\ errorMessage (fold_left (fun v f => addRule v (pureRule f)) fs v)
                = errorMessage v).
  { induction fs as [|f fs IH]; intros v; cbn [fold_left map].
    - rewrite app_nil_r. split; reflexivity.
    - destruct (IH (addRule v (pureRule f))) as [-> ->]. cbn.
      rewrite <- app_assoc. split; reflexivity. }
  exact (H (new msg)).
Qed.

Lemma validate_pure (msg : string) (fs : list (T -> bool)) (value : T)
  (w : World) :
  validate (validatorOf msg fs) value w
  = (w, if forallb (fun f => f value) fs
        then Normal tt else Throw (new_Error msg)).
Proof.
  unfold validate. destruct (validatorOf_rules msg fs) as [-> ->].
  induction fs as [|f fs IH]; [reflexivity |].
  cbn [map validateRules forallb]. unfold bind, pureRule, ret, throwIf.
  destruct (f value); cbn [negb andb]; [exact IH | reflexivity].
Qed.

Lemma forallb_permutation (p : (T -> bool) -> bool) (fs gs : list (T -> bool)) :
  Permutation fs gs -> forallb p fs = forallb p gs.
Proof.
  induction 1 as [|f fs gs _ IH|f g fs|fs gs hs _ IH1 _ IH2]; cbn.
  - reflexivity.
  - rewrite IH. reflexivity.
  - destruct (p f), (p g); reflexivity.
  - rewrite IH1. exact IH2.
Qed.

End Validators.

(** X17: a [GenericValidator] built from rules without effects accepts a
    value exactly when every rule holds of it, and otherwise throws its one
    error message; the world is left as it was.  With no rule it accepts
    everything.  As all rules share the message, the order in which they
    were added makes no difference to the outcome. *)
Theorem X17_generic_validator_accepts_iff_all_rules_hold
  (T : Type) (msg : string) (fs gs : list (T -> bool)) (value : T)
  (w : World) :
  TS.GenericValidator.validate (validatorOf msg fs) value w
  = (w, if forallb (fun f => f value) fs
        then Normal tt else Throw (new_Error msg))
  /\ TS.GenericValidator.validate (TS.GenericValidator.new msg) value w
     = (w, Normal tt)
  /\ (Permutation fs gs ->
      TS.GenericValidator.validate (validatorOf msg gs) value w
      = TS.GenericValidator.validate (validatorOf msg fs) value w).
Proof.
  split; [apply validate_pure |]. split; [reflexivity |].
  intros Hperm. rewrite !validate_pure.
  rewrite (forallb_permutation (fun f => f value) fs gs Hperm). reflexivity.
Qed.

(** X17 on two rules, added in either order. *)
Lemma X17_witness :
  TS.GenericValidator.validate
    (validatorOf "Bad email" [hasAtSign; atLeastThree]) "ab" world0
  = TS.GenericValidator.validate
      (validatorOf "Bad email" [atLeastThree; hasAtSign]) "ab" world0.
Proof.
  apply (proj2 (proj2 (X17_generic_validator_accepts_iff_all_rules_hold
                         string "Bad email" [atLeastThree; hasAtSign]
                         [hasAtSign; atLeastThree] "ab" world0))).
  apply perm_swap.
Defined.

(** X18: [addRule] extends a validator at the end.  Validating with the
    extended validator is validating with the old one and then checking the
    new rule; when the old validator already throws, the new rule is not run
    at all, and the outcome and the world are those of the old validator. *)
Theorem X18_addRule_extends_validation_at_the_end
  (T : Type) (this : TS.GenericValidator.t T) (rule : T -> Exec bool)
  (value : T) (w : World) :
  TS.GenericValidator.validate (TS.GenericValidator.addRule this rule) value w
  = bind (TS.GenericValidator.validate this value)
      (fun _ =>
         bind (rule value)
           (fun ok =>
              throwIf (negb ok) (TS.GenericValidator.errorMessage this))) w
  /\ (forall w' e,
        TS.GenericValidator.validate this value w = (w', Throw e) ->
        TS.GenericValidator.validate (TS.GenericValidator.addRule this rule)
          value w
        = (w', Throw e)).
Proof.
  assert (Heq : TS.GenericValidator.validate
                  (TS.GenericValidator.addRule this rule) value w
                = bind (TS.GenericValidator.validate this value)
                    (fun _ =>
                       bind (rule value)
                         (fun ok =>
                            throwIf (negb ok)
                              (TS.GenericValidator.errorMessage this))) w).
  { unfold TS.GenericValidator.validate, TS.GenericValidator.addRule.
    cbn [TS.GenericValidator.rules TS.GenericValidator.errorMessage].
    rewrite validateRules_app. apply bind_ext. intros [] w1.
    cbn [TS.GenericValidator.validateRules]. unfold bind.
    destruct (rule value w1) as [w2 [ok | e]]; [| reflexivity].
    unfold throwIf, throw, ret. destruct ok; reflexivity. }
  split; [exact Heq |].
  intros w' e H. rewrite Heq. unfold bind. rewrite H. reflexivity.
Qed.

(** X18 on a validator whose first rule already fails. *)
Lemma X18_witness :
  TS.GenericValidator.validate
    (TS.GenericValidator.addRule (validatorOf "Bad email" [atLeastThree])
       (pureRule hasAtSign)) "ab" world0
  = (world0, Throw (new_Error "Bad email")).
Proof.
  apply (proj2 (X18_addRule_extends_validation_at_the_end string
                  (validatorOf "Bad email" [atLeastThree])
                  (pureRule hasAtSign) "ab" world0)).
  vm_compute. reflexivity.
Defined.

(** X19: [ValidationUtils.validateField] throws exactly when the validator
    returns false, in the world the validator left, with the error message
    it was given, or with "Invalid " followed by the field name when the
    message is absent or the empty string.  With the length test as
    validator and no message it is the private [validateField] of
    [ConfigurableUserManager]. *)
Theorem X19_validateField_message
  (T : Type) (value : T) (fieldName : string) (validator : T -> Exec bool)
  (errorMessage : option string) (w : World) :
  (forall w', validator value w = (w', Normal false) ->
              TS.ValidationUtils.validateField value fieldName validator
                errorMessage w
              = (w', Throw (new_Error (fieldMessage fieldName errorMessage))))
  /\ (forall w', validator value w = (w', Normal true) ->
                 TS.ValidationUtils.validateField value fieldName validator
                   errorMessage w
                 = (w', Normal tt))
  /\ (forall (field : option string) (minLength : Z),
        TS.ValidationUtils.validateField field fieldName
          (pureRule (fun v => negb (missingOrShorter v minLength))) None w
        = TS.ConfigurableUserManager.validateField fieldName field minLength w).
Proof.
  split; [| split].
  - intros w' H. unfold TS.ValidationUtils.validateField, bind. rewrite H.
    destruct errorMessage as [[|c s]|]; reflexivity.
  - intros w' H. unfold TS.ValidationUtils.validateField, bind. rewrite H.
    reflexivity.
  - intros field minLength.
    unfold TS.ValidationUtils.validateField,
      TS.ConfigurableUserManager.validateField, bind, pureRule, ret.
    rewrite negb_involutive. reflexivity.
Qed.

(** X19 on an empty error message. *)
Lemma X19_witness :
  TS.ValidationUtils.validateField "ab" "name" (pureRule atLeastThree)
    (Some "") world0
  = (world0, Throw (new_Error "Invalid name")).
Proof.
  exact (proj1 (X19_validateField_message string "ab" "name"
                  (pureRule atLeastThree) (Some "") world0)
           world0 eq_refl).
Defined.

(** ** The decorators *)

Lemma LogExecution_run {Args R : Type} (propertyName : string)
  (method : Args -> Exec R) (args : Args) (w : World) :
  TS.LogExecution propertyName method args w
  = match method args (printed w [executingLine propertyName]) with
    | (w', Normal result) =>
        (printed w' [completedLine propertyName], Normal result)
    | (w', Throw e) => (w', Throw e)
    end.
Proof.
  unfold TS.LogExecution, bind, console_log, console_call, ret, printed,
    executingLine, completedLine. cbn.
  destruct (method args _) as [w' [result | e]]; reflexivity.
Qed.

Lemma run_throws_untouched (op : Operation) (userData : UserData.t)
  (w : World) :
  userData_of op = Some userData ->
  invalid_input op userData ->
  exists e, run op w = (w, Throw e).
Proof.
  intros Hop Hinv.
  destruct (invalid_input_throws op userData w Hop Hinv) as [e He].
  assert (Hsome : userData_of op <> None) by congruence.
  pose proof (user_operation_throws_untouched op w e Hsome He) as Hw.
  exists e. destruct (run op w) as [w' c]. unfold outcome, final in *.
  cbn in *. subst. reflexivity.
Qed.

(** X20: a method under [LogExecution] first prints "Executing name...",
    then runs; "Completed name" is printed only when the method returns, and
    the result or the error is the method's own.  So [createUser] or
    [updateUser] of any manager, decorated, leaves exactly the "Executing"
    line on the console when the user data is invalid. *)
Theorem X20_LogExecution_completes_only_on_return
  (propertyName : string) (op : Operation) (userData : UserData.t)
  (w : World) :
  TS.LogExecution propertyName (fun _ : unit => run op) tt w
  = match run op (printed w [executingLine propertyName]) with
    | (w', Normal result) =>
        (printed w' [completedLine propertyName], Normal result)
    | (w', Throw e) => (w', Throw e)
    end
  /\ (userData_of op = Some userData ->
      invalid_input op userData ->
      exists e,
        TS.LogExecution propertyName (fun _ : unit => run op) tt w
        = (printed w [executingLine propertyName], Throw e)).
Proof.
  pose proof (LogExecution_run propertyName (fun _ : unit => run op) tt w)
    as Hrun.
  cbv beta in Hrun. split; [exact Hrun |].
  intros Hop Hinv. rewrite Hrun.
  destruct (run_throws_untouched op userData
              (printed w [executingLine propertyName]) Hop Hinv) as [e ->].
  exists e. reflexivity.
Qed.

(** X20 on the failing call of the usage examples. *)
Lemma X20_witness :
  exists e,
    TS.LogExecution "createUser"
      (fun _ : unit =>
         run (JS_Configurable_createUser configurableManager bob_short))
      tt world0
    = (printed world0 [executingLine "createUser"], Throw e).
Proof.
  refine (proj2 (X20_LogExecution_completes_only_on_return "createUser"
                   (JS_Configurable_createUser configurableManager bob_short)
                   bob_short world0) eq_refl _).
  right. right. vm_compute. reflexivity.
Defined.

(** X21: the order in which the two decorators are stacked shows when the
    validation rejects the arguments.  With [LogExecution] outside, the
    "Executing" line is printed before the validation throws; with
    [ValidateInput] outside, nothing is printed.  In both orders the method
    itself is not run. *)
Theorem X21_decorator_order
  (Args R : Type) (propertyName : string) (validationFn : Args -> Exec unit)
  (method : Args -> Exec R) (args : Args) (e : Error) (w : World) :
  (forall w0, validationFn args w0 = (w0, Throw e)) ->
  TS.LogExecution propertyName (TS.ValidateInput validationFn method) args w
  = (printed w [executingLine propertyName], Throw e)
  /\ TS.ValidateInput validationFn (TS.LogExecution propertyName method)
       args w
     = (w, Throw e).
Proof.
  intros Hrej. split.
  - rewrite LogExecution_run. unfold TS.ValidateInput, bind.
    rewrite Hrej. reflexivity.
  - unfold TS.ValidateInput, bind. rewrite Hrej. reflexivity.
Qed.

(** X21 with the validation of the TypeScript file on a short email. *)
Lemma X21_witness :
  TS.LogExecution "createUser"
    (TS.ValidateInput
       (fun d => TS.ValidationUtils.validateEmail (UserData.email d))
       TS.UserManagerWET.createUser)
    short_email world0
  = (printed world0 [executingLine "createUser"],
     Throw (new_Error "Invalid email")).
Proof.
  apply (proj1 (X21_decorator_order UserData.t User.t "createUser"
                  (fun d => TS.ValidationUtils.validateEmail (UserData.email d))
                  TS.UserManagerWET.createUser short_email
                  (new_Error "Invalid email") world0
                  (fun w0 => eq_refl))).
Defined.

(** ** The template manager *)

(** [ConcreteUserManager], seen as a subclass of the template, runs the
    template method as written out in [ConcreteUserManager.processUser]. *)
Lemma template_instance (userData : UserData.t) (userId : option string)
  (w : World) :
  @TS.TemplateUserManager.processUser TS.ConcreteUserManager_Subclass
    userData userId w
  = TS.ConcreteUserManager.processUser userData userId w.
Proof. reflexivity. Qed.

(** In every subclass a rejected input ends the template method at once. *)
Lemma template_validates_first `{TS.TemplateUserManager.Subclass}
  (userData : UserData.t) (userId : option string) (w w' : World)
  (e : Error) :
  TS.TemplateUserManager.validateInput userData (negb (falsy userId)) w
  = (w', Throw e) ->
  TS.TemplateUserManager.processUser userData userId w = (w', Throw e).
Proof.
  intros Hv. unfold TS.TemplateUserManager.processUser, bind. rewrite Hv.
  reflexivity.
Qed.

(** X22: the empty [userId] counts as no [userId].
    [ConcreteUserManager.updateUser("", d)] is [createUser(d)] in every
    respect: it demands a password, draws a fresh identifier, sets
    [createdAt] and prints "User created".  A record that
    [UserManagerDRY.updateUser("", d)] returns, in either file, carries a
    freshly drawn identifier and a [createdAt] equal to its [updatedAt]. *)
Theorem X22_empty_userId_means_create
  (userData : UserData.t) (w : World) (u : User.t) :
  TS.ConcreteUserManager.updateUser "" userData w
  = TS.ConcreteUserManager.createUser userData w
  /\ (returns (JS.UserManagerDRY.updateUser "" userData w) u
      \/ returns (TS.UserManagerDRY.updateUser "" userData w) u ->
      User.id u = randomIds w (randomDraws w)
      /\ User.createdAt u = Some (User.updatedAt u)).
Proof.
  split; [reflexivity |].
  destruct userData as [email name password]. destruct w.
  intros [H | H]; effect H; split; reflexivity.
Qed.

(** X22 on the first user of the usage examples. *)
Lemma X22_witness :
  "id0" = randomIds world0 (randomDraws world0) /\ Some "t0" = Some "t0".
Proof.
  refine (proj2 (X22_empty_userId_means_create john world0
                   (User.make "id0" "john@example.com" "John Doe"
                      (Some "password123") (Some "t0") "t0")) _).
  left. vm_compute. reflexivity.
Defined.

(** X23: with the logger enabled, [ConcreteUserManager] does what
    [UserManagerDRY] of the TypeScript file does and then prints one more
    line: on every input [createUser] throws the same error without a
    trace, or returns the same record after the same effects followed by
    "Performing additional operations for user: id"; likewise [updateUser]
    for a non-empty [userId]. *)
Theorem X23_Concrete_is_DRY_plus_one_line
  (userId : string) (userData : UserData.t) (w : World) :
  UserLogger_isEnabled w = true ->
  TS.ConcreteUserManager.createUser userData w
  = match TS.UserManagerDRY.createUser userData w with
    | (w', Normal u) => (printed w' [additionalLine u], Normal u)
    | (w', Throw e) => (w', Throw e)
    end
  /\ (userId <> "" ->
      TS.ConcreteUserManager.updateUser userId userData w
      = match TS.UserManagerDRY.updateUser userId userData w with
        | (w', Normal u) => (printed w' [additionalLine u], Normal u)
        | (w', Throw e) => (w', Throw e)
        end).
Proof.
  destruct userData as [email name password]. destruct w. cbn. intros ->.
  split.
  - unfold additionalLine. open_effects. unfold TS.ConcreteUserManager.processUser.
    open_effects. split_guards; rewrite <- ?app_assoc; reflexivity.
  - destruct userId as [|c s]; [congruence | intros _].
    unfold additionalLine. open_effects. unfold TS.ConcreteUserManager.processUser.
    open_effects. split_guards; rewrite <- ?app_assoc; reflexivity.
Qed.

(** X23 on the first user of the usage examples. *)
Lemma X23_witness :
  TS.ConcreteUserManager.createUser john world0
  = match TS.UserManagerDRY.createUser john world0 with
    | (w', Normal u) => (printed w' [additionalLine u], Normal u)
    | (w', Throw e) => (w', Throw e)
    end.
Proof.
  exact (proj1 (X23_Concrete_is_DRY_plus_one_line "u1" john world0 eq_refl)).
Defined.

(** ** Senders that throw *)

Lemma forEach_app {A : Type} (l1 l2 : list A) (callback : A -> Exec unit)
  (w : World) :
  SOLID.forEach (l1 ++ l2)%list callback w
  = bind (SOLID.forEach l1 callback) (fun _ => SOLID.forEach l2 callback) w.
Proof.
  revert w. induction l1 as [|x l1 IH]; intros w.
  - reflexivity.
  - cbn [app SOLID.forEach]. unfold bind in *.
    destruct (callback x w) as [w1 [[] | e]]; [apply IH | reflexivity].
Qed.

(** X24: [notify] runs the senders one after the other and has no handler
    of its own.  Notifying a list that is two lists joined is notifying the
    first and then the second; and when a sender throws, the senders after
    it are never called: the error is the outcome of [notify], and what was
    printed before it stays on the console. *)
Theorem X24_notify_stops_at_a_throwing_sender
  (before after : list SOLID.Sender) (sender : SOLID.Sender)
  (message : SOLID.Message) (w : World) :
  SOLID.NotificationService.notify (before ++ after)%list message w
  = bind (SOLID.NotificationService.notify before message)
      (fun _ => SOLID.NotificationService.notify after message) w
  /\ (forall w1 w2 e,
        SOLID.NotificationService.notify before message w = (w1, Normal tt) ->
        SOLID.send sender message w1 = (w2, Throw e) ->
        SOLID.NotificationService.notify (before ++ sender :: after)%list
          message w
        = (w2, Throw e)).
Proof.
  unfold SOLID.NotificationService.notify. split; [apply forEach_app |].
  intros w1 w2 e Hbefore Hsend. rewrite forEach_app.
  unfold bind at 1. rewrite Hbefore.
  cbn [SOLID.forEach]. unfold bind. rewrite Hsend. reflexivity.
Qed.

(** X24 with a broken sender between the email and the SMS sender. *)
Lemma X24_witness :
  SOLID.NotificationService.notify
    ([SOLID.EmailSender] ++ brokenSender :: [SOLID.SMSSender])%list
    (SOLID.new_Message "Welcome") world0
  = (printed world0 [(c_log, "Sending EMAIL: Welcome")],
     Throw (new_Error "no route")).
Proof.
  apply (proj2 (X24_notify_stops_at_a_throwing_sender
                  [SOLID.EmailSender] [SOLID.SMSSender] brokenSender
                  (SOLID.new_Message "Welcome") world0)
           (printed world0 [(c_log, "Sending EMAIL: Welcome")]));
    vm_compute; reflexivity.
Defined.

(** ** The configurable manager against the DRY manager *)

(** X25: with its default configuration the JavaScript
    [ConfigurableUserManager] is [UserManagerDRY] but for one message.  On
    every input [createUser] and [updateUser] of the two leave the same
    world; where the DRY manager throws "Password too short" the
    configurable one throws "Invalid password", and everywhere else the
    outcome, error or record, is the same. *)
Theorem X25_default_configuration_is_the_DRY_manager
  (userId : string) (userData : UserData.t) (w : World) :
  let this := JS.ConfigurableUserManager.new JS.PartialConfig.empty in
  let same (rc rd : World * Completion User.t) :=
    final rc = final rd
    /\ (throws rd "Password too short" -> throws rc "Invalid password")
    /\ (~ throws rd "Password too short" -> outcome rc = outcome rd) in
  same (JS.ConfigurableUserManager.createUser this userData w)
    (JS.UserManagerDRY.createUser userData w)
  /\ same (JS.ConfigurableUserManager.updateUser this userId userData w)
       (JS.UserManagerDRY.updateUser userId userData w).
Proof.
  destruct userData as [email name [[|c s]|]]; cbn zeta; unfold throws;
    split; open_effects; cbn [falsy JSString.truthy negb orb givenAndShorter
                              missingOrShorter andb];
    destruct userId; split_guards;
    (split; [reflexivity |]);
    (split; [intros H; first [reflexivity | discriminate H]
            | intros H; first [reflexivity | exfalso; apply H; reflexivity]]).
Qed.

(** X25 on the failing call of the usage examples, under the default
    configuration. *)
Lemma X25_witness :
  throws (JS.ConfigurableUserManager.createUser
            (JS.ConfigurableUserManager.new JS.PartialConfig.empty)
            bob_short world0) "Invalid password".
Proof.
  apply (proj1 (proj2 (proj1 (X25_default_configuration_is_the_DRY_manager
                                "u1" bob_short world0)))).
  vm_compute. reflexivity.
Defined.

(** X26: a configured minimum of zero, or less, does not make a field
    optional.  Whatever the configuration, [ConfigurableUserManager] rejects
    an email that is absent or the empty string with "Invalid email", on
    [createUser] and on [updateUser], in both files: the check fails on a
    falsy value before any length is compared. *)
Theorem X26_no_minimum_makes_the_email_optional
  (js : JS.ConfigurableUserManager.t) (ts : TS.ConfigurableUserManager.t)
  (userId : string) (userData : UserData.t) (w : World) :
  falsy (UserData.email userData) = true ->
  JS.ConfigurableUserManager.createUser js userData w
  = (w, Throw (new_Error "Invalid email"))
  /\ JS.ConfigurableUserManager.updateUser js userId userData w
     = (w, Throw (new_Error "Invalid email"))
  /\ TS.ConfigurableUserManager.createUser ts userData w
     = (w, Throw (new_Error "Invalid email"))
  /\ TS.ConfigurableUserManager.updateUser ts userId userData w
     = (w, Throw (new_Error "Invalid email")).
Proof.
  destruct userData as [[[|c s]|] name password]; cbn; intros H;
    try discriminate H; repeat split; reflexivity.
Qed.

(** X26 on a manager configured with minima of zero and an empty email. *)
Lemma X26_witness :
  JS.ConfigurableUserManager.createUser zeroManager empty_email world0
  = (world0, Throw (new_Error "Invalid email")).
Proof.
  exact (proj1 (X26_no_minimum_makes_the_email_optional zeroManager
                  warningManager "u1" empty_email world0 eq_refl)).
Defined.

(** ** Patterns in the cache key *)

Lemma cacheKey_ignores_pattern (type : TS.UserManagerFactory.ManagerType)
  (e n p : option Z) (p1 p2 : RegExp.t) (l : option TS.PartialConfig.Logging) :
  TS.UserManagerFactory.cacheKey type
    (Some (TS.PartialConfig.make
             (Some (TS.PartialConfig.mkValidation e n p (Some p1))) l))
  = TS.UserManagerFactory.cacheKey type
      (Some (TS.PartialConfig.make
               (Some (TS.PartialConfig.mkValidation e n p (Some p2))) l)).
Proof. reflexivity. Qed.

(** X27: the cache key of the factory cannot tell two patterns apart,
    because [JSON.stringify] writes every regular expression as [{}].  Two
    custom configurations that differ only in their [emailPattern] have the
    same key, so after a manager was made for the first, a request with the
    second returns that first manager, with the first pattern. *)
Theorem X27_cache_key_ignores_the_pattern
  (type : TS.UserManagerFactory.ManagerType) (e n p : option Z)
  (p1 p2 : RegExp.t) (l : option TS.PartialConfig.Logging) (w : World) :
  let config pattern :=
    Some (TS.PartialConfig.make
            (Some (TS.PartialConfig.mkValidation e n p (Some pattern))) l) in
  let first := TS.UserManagerFactory.createManager type (config p1) w in
  TS.UserManagerFactory.cacheKey type (config p1)
  = TS.UserManagerFactory.cacheKey type (config p2)
  /\ TS.UserManagerFactory.createManager type (config p2) (final first)
     = (final first, outcome first).
Proof.
  cbn zeta. split; [reflexivity |].
  destruct (createManager_cases type
              (Some (TS.PartialConfig.make
                       (Some (TS.PartialConfig.mkValidation e n p (Some p1)))
                       l)) w)
    as [(m & Hm & ->) | (Hnone & ->)]; unfold final, outcome; cbn [fst snd].
  - apply createManager_hit.
    rewrite <- (cacheKey_ignores_pattern type e n p p1 p2 l). exact Hm.
  - apply createManager_hit.
    rewrite <- (cacheKey_ignores_pattern type e n p p1 p2 l).
    apply cached_lookup.
Qed.

(** ** Stricter and laxer configurations *)

Lemma missingOrShorter_mono (v : option string) (m1 m2 : Z) :
  m1 <= m2 -> missingOrShorter v m2 = false -> missingOrShorter v m1 = false.
Proof.
  intros Hle. destruct v as [[|c s]|]; simpl; try discriminate.
  rewrite !Z.ltb_ge. lia.
Qed.

Ltac decide_guard :=
  match goal with
  | |- context [if ?c then _ else _] =>
      lazymatch c with
      | true => fail
      | false => fail
      | _ => destruct c eqn:?
      end
  end; cbn.

Ltac accepted_iff :=
  unfold succeeds; open_effects; cbn;
  try match goal with
      | |- context [falsy ?p] => destruct (falsy p) eqn:?
      end;
  try match goal with
      | |- context [RegExp.test ?p ?s] => destruct (RegExp.test p s) eqn:?
      end;
  cbn;
  (split;
   [ repeat decide_guard; intros [u Hu]; try discriminate Hu;
     repeat split; first [assumption | reflexivity | left; reflexivity
                         | right; reflexivity]
   | intros; repeat match goal with H : _ /\ _ |- _ => destruct H end;
     repeat match goal with H : _ \/ _ |- _ => destruct H end;
     try discriminate;
     use_guards; cbn; repeat decide_guard; eexists; reflexivity ]).

Lemma JS_Configurable_create_accepts (this : JS.ConfigurableUserManager.t)
  (userData : UserData.t) (w : World) :
  let v := JS.Config.validation this in
  succeeds (JS.ConfigurableUserManager.createUser this userData w)
  <-> missingOrShorter (UserData.email userData) (JS.Config.emailMinLength v)
      = false
      /\ missingOrShorter (UserData.name userData) (JS.Config.nameMinLength v)
         = false
      /\ missingOrShorter (UserData.password userData)
           (JS.Config.passwordMinLength v) = false.
Proof.
  destruct userData as [email name password], this as [[e n p] [l]].
  cbn zeta. accepted_iff.
Qed.

Lemma JS_Configurable_update_accepts (this : JS.ConfigurableUserManager.t)
  (userId : string) (userData : UserData.t) (w : World) :
  let v := JS.Config.validation this in
  succeeds (JS.ConfigurableUserManager.updateUser this userId userData w)
  <-> missingOrShorter (UserData.email userData) (JS.Config.emailMinLength v)
      = false
      /\ missingOrShorter (UserData.name userData) (JS.Config.nameMinLength v)
         = false
      /\ (falsy (UserData.password userData) = true
          \/ missingOrShorter (UserData.password userData)
               (JS.Config.passwordMinLength v) = false).
Proof.
  destruct userData as [email name password], this as [[e n p] [l]].
  destruct userId; cbn zeta; accepted_iff.
Qed.

Lemma TS_Configurable_create_accepts (this : TS.ConfigurableUserManager.t)
  (userData : UserData.t) (w : World) :
  let v := UserManagerConfig.validation this in
  succeeds (TS.ConfigurableUserManager.createUser this userData w)
  <-> missingOrShorter (UserData.email userData)
        (ValidationConfig.emailMinLength v) = false
      /\ RegExp.test (ValidationConfig.emailPattern v)
           (str (UserData.email userData)) = true
      /\ missingOrShorter (UserData.name userData)
           (ValidationConfig.nameMinLength v) = false
      /\ missingOrShorter (UserData.password userData)
           (ValidationConfig.passwordMinLength v) = false.
Proof.
  destruct userData as [email name password], this as [[e n p pat] [l lv]].
  cbn zeta. accepted_iff.
Qed.

Lemma TS_Configurable_update_accepts (this : TS.ConfigurableUserManager.t)
  (userId : string) (userData : UserData.t) (w : World) :
  let v := UserManagerConfig.validation this in
  succeeds (TS.ConfigurableUserManager.updateUser this userId userData w)
  <-> missingOrShorter (UserData.email userData)
        (ValidationConfig.emailMinLength v) = false
      /\ RegExp.test (ValidationConfig.emailPattern v)
           (str (UserData.email userData)) = true
      /\ missingOrShorter (UserData.name userData)
           (ValidationConfig.nameMinLength v) = false
      /\ (falsy (UserData.password userData) = true
          \/ missingOrShorter (UserData.password userData)
               (ValidationConfig.passwordMinLength v) = false).
Proof.
  destruct userData as [email name password], this as [[e n p pat] [l lv]].
  destruct userId; cbn zeta; accepted_iff.
Qed.

(** X28: lowering the minima of a [ConfigurableUserManager] never makes it
    reject more.  If one manager has minima at most those of another (and,
    in the TypeScript file, the same email pattern), every user data that
    [createUser] or [updateUser] of the stricter manager accepts is accepted
    by the laxer one.  So what the strict preset of the factory accepts the
    basic one accepts, and what the basic one accepts the lenient one
    accepts. *)
Theorem X28_lower_minima_accept_more
  (js1 js2 : JS.ConfigurableUserManager.t)
  (ts1 ts2 : TS.ConfigurableUserManager.t)
  (userId : string) (userData : UserData.t) (w : World) :
  (JS_minima_le js1 js2 ->
   (succeeds (JS.ConfigurableUserManager.createUser js2 userData w) ->
    succeeds (JS.ConfigurableUserManager.createUser js1 userData w))
   /\ (succeeds (JS.ConfigurableUserManager.updateUser js2 userId userData w) ->
       succeeds (JS.ConfigurableUserManager.updateUser js1 userId userData w)))
  /\ (TS_minima_le ts1 ts2 ->
      (succeeds (TS.ConfigurableUserManager.createUser ts2 userData w) ->
       succeeds (TS.ConfigurableUserManager.createUser ts1 userData w))
      /\ (succeeds (TS.ConfigurableUserManager.updateUser ts2 userId userData w) ->
          succeeds (TS.ConfigurableUserManager.updateUser ts1 userId userData w)))
  /\ TS_minima_le (preset TS.UserManagerFactory.basic)
       (preset TS.UserManagerFactory.strict)
  /\ TS_minima_le (preset TS.UserManagerFactory.lenient)
       (preset TS.UserManagerFactory.basic).
Proof.
  split; [| split; [| split]].
  - intros (He & Hn & Hp). split.
    + rewrite !JS_Configurable_create_accepts. intros (H1 & H2 & H3).
      repeat split; eapply missingOrShorter_mono; eassumption.
    + rewrite !JS_Configurable_update_accepts. intros (H1 & H2 & H3).
      repeat split; try (eapply missingOrShorter_mono; eassumption).
      destruct H3 as [H3 | H3]; [left; exact H3 |].
      right. eapply missingOrShorter_mono; eassumption.
  - intros (He & Hn & Hp & Hpat). split.
    + rewrite !TS_Configurable_create_accepts. cbn zeta. rewrite Hpat.
      intros (H1 & H2 & H3 & H4).
      repeat split; try assumption; eapply missingOrShorter_mono; eassumption.
    + rewrite !TS_Configurable_update_accepts. cbn zeta. rewrite Hpat.
      intros (H1 & H2 & H3 & H4).
      repeat split; try assumption;
        try (eapply missingOrShorter_mono; eassumption).
      destruct H4 as [H4 | H4]; [left; exact H4 |].
      right. eapply missingOrShorter_mono; eassumption.
  - repeat split; vm_compute; intros; discriminate.
  - repeat split; vm_compute; intros; discriminate.
Qed.

(** X28 on the last user of the usage examples: accepted by the strict
    preset, hence by the basic one. *)
Lemma X28_witness :
  succeeds (TS.ConfigurableUserManager.createUser
              (preset TS.UserManagerFactory.basic) alice world0).
Proof.
  destruct (X28_lower_minima_accept_more configurableManager
              configurableManager (preset TS.UserManagerFactory.basic)
              (preset TS.UserManagerFactory.strict) "u1" alice world0)
    as (_ & Hts & Hle & _).
  apply (proj1 (Hts Hle)). eexists. vm_compute. reflexivity.
Defined.

(** X29: [UserLogger.configure] decides what the logger does from then on.
    After [configure(b)], [log], [logUserCreated] and [logUserUpdated] print
    their one line when [b] is true, [log] under the console method of its
    level, and print nothing when it is false; and of two calls of
    [configure] the later one counts. *)
Theorem X29_configure_switches_the_logger
  (a b : bool) (message : string) (level : LoggingConfig.Level) (u : User.t)
  (w : World) :
  let w1 := final (TS.UserLogger.configure b w) in
  w1 = with_flag b w
  /\ TS.UserLogger.log message level w1
     = (printed w1
          (if b then [(LoggingConfig.method level, message)] else []),
        Normal tt)
  /\ TS.UserLogger.logUserCreated u w1
     = (printed w1 (if b then [(c_log, userLine "created" u)] else []),
        Normal tt)
  /\ TS.UserLogger.logUserUpdated u w1
     = (printed w1 (if b then [(c_log, userLine "updated" u)] else []),
        Normal tt)
  /\ final (TS.UserLogger.configure b (final (TS.UserLogger.configure a w)))
     = w1.
Proof.
  destruct w, b; repeat split; cbn; unfold ret, printed; cbn;
    rewrite ?app_nil_r; reflexivity.
Qed.
